(** * xyz_remove_CO: removal of two CO ligands from XYZ structure files

    A shallow embedding of [xyz_remove_CO.py] and the properties of its
    pipeline: the reader, the metal locator, the ligand detector, the
    remover and the writer.

    Conventions of the embedding.
    - A Python [float] is an IEEE 754 binary64 number: Rocq's primitive
      [float], with its round-to-nearest operations.
    - A Python [str] is a [string], each character read as one code point
      below 256.
    - A text file is the list of its lines: what
      [[l.rstrip("\n") for l in f]] reads and what successive
      [f.write(line + "\n")] produce.
    - The file system is a finite map from paths to files.
    - A raised exception is the [Raise] case of [result]; a [for] loop is
      [for_loop], whose body returns the next value of the loop's variables
      or raises.
    - The conversions of the Python runtime (text to number, number to text,
      the power operator, path splitting) are the fields of [PyBuiltins]:
      the program is embedded over any implementation of them.
    - Two exceptions of the program are left out. [x ** 2] is the square
      the C library returns, where Python raises [OverflowError] when it
      overflows: what is stated of a detector or of a run that returns
      where [distance] could overflow carries [in_range]. A write is an
      update of the map, where [open] can raise [OSError]: a report
      [Completed] and the file system of a run are those of a write that
      returns, and nothing is stated of what follows a write that
      raises. *)

From Stdlib Require Import ZArith String Ascii List Floats Bool Lia.
From Stdlib Require Import QArith Qabs Qpower Lqa.
From stdpp Require Import base option list gmap sets strings sorting.

#[local] Set Warnings "-inexact-float,-clear-no-such-hyp".
#[local] Open Scope string_scope.
#[local] Open Scope list_scope.

(** ** Python values and exceptions *)

Inductive value_error : Type :=
  | TooFewLines                          (* "XYZ 文件行数不足" *)
  | HeaderNotInt                         (* raised through int() *)
  | CountMismatch (declared : Z) (found : nat)
  | BadAtomLine (line : string)
  | BadFloat (token : string).           (* raised by float() *)

Inductive exn : Type :=
  | ValueError (e : value_error)
  | IndexError
  | FileNotFoundError.

Inductive result (A : Type) : Type :=
  | Ok (a : A)
  | Raise (e : exn).
Arguments Ok {A} a.
Arguments Raise {A} e.

Definition bind {A B} (r : result A) (k : A -> result B) : result B :=
  match r with
  | Ok a => k a
  | Raise e => Raise e
  end.

Notation "'let!' x ':=' r 'in' k" := (bind r (fun x => k))
  (at level 10, x pattern, r at level 100, k at level 200).

Definition is_Ok {A} (r : result A) : Prop := exists a, r = Ok a.

(** [for x in l: body] over loop variables of type [S]. *)
Fixpoint for_loop {A S} (body : A -> S -> result S) (l : list A) (s : S)
  : result S :=
  match l with
  | [] => Ok s
  | x :: rest => let! s' := body x s in for_loop body rest s'
  end.

(** [l[i]] for a non-negative index. *)
Definition index {A} (l : list A) (i : nat) : result A :=
  match l !! i with
  | Some a => Ok a
  | None => Raise IndexError
  end.

(** [enumerate(l)] *)
Fixpoint enumerate_from {A} (k : nat) (l : list A) : list (nat * A) :=
  match l with
  | [] => []
  | x :: rest => (k, x) :: enumerate_from (S k) rest
  end.
Definition enumerate {A} (l : list A) : list (nat * A) := enumerate_from 0 l.

(** Normalisation of a slice bound against a sequence of [len] items:
    a negative bound counts from the end, and the result is clamped to
    [0 .. len]. *)
Definition slice_bound (len : nat) (k : Z) : nat :=
  let n := Z.of_nat len in
  let k' := if (k <? 0)%Z then (k + n)%Z else k in
  Z.to_nat (Z.max 0 (Z.min k' n)).

(** [l[start:stop]] and [l[start:]] *)
Definition slice {A} (l : list A) (start stop : Z) : list A :=
  let a := slice_bound (length l) start in
  let b := slice_bound (length l) stop in
  take (b - a) (drop a l).

Definition slice_from {A} (l : list A) (start : Z) : list A :=
  drop (slice_bound (length l) start) l.

(** ** Text *)

(** [str.isspace] on the code points below 256. *)
Definition is_space (c : ascii) : bool :=
  let n := nat_of_ascii c in
  ((9 <=? n)%nat && (n <=? 13)%nat) || ((28 <=? n)%nat && (n <=? 32)%nat)
  || (n =? 133)%nat || (n =? 160)%nat.

Fixpoint lstrip (s : string) : string :=
  match s with
  | EmptyString => EmptyString
  | String c rest => if is_space c then lstrip rest else s
  end.

Fixpoint rstrip (s : string) : string :=
  match s with
  | EmptyString => EmptyString
  | String c rest =>
      match rstrip rest with
      | EmptyString => if is_space c then EmptyString else String c EmptyString
      | r => String c r
      end
  end.

(** [s.strip()] *)
Definition strip (s : string) : string := rstrip (lstrip s).

(** [s.split()]: the maximal runs of characters that are not white space.
    [tok] is the run being read. *)
Fixpoint split_from (tok : string) (s : string) : list string :=
  match s with
  | EmptyString => if String.eqb tok "" then [] else [tok]
  | String c rest =>
      if is_space c then
        if String.eqb tok "" then split_from "" rest
        else tok :: split_from "" rest
      else split_from (tok +:+ String c "") rest
  end.

Definition split (s : string) : list string := split_from "" s.

Fixpoint spaces (n : nat) : string :=
  match n with
  | O => ""
  | S k => String " " (spaces k)
  end.

(** [f"{s:<w}"] and [f"{s:>w}"]: pad with spaces up to width [w]. *)
Definition ljust (w : nat) (s : string) : string :=
  s +:+ spaces (w - String.length s).
Definition rjust (w : nat) (s : string) : string :=
  spaces (w - String.length s) +:+ s.

(** ** The runtime's conversions *)

Class PyBuiltins : Type := {
  (** [int(s)]; [None] when it raises [ValueError] *)
  py_int : string -> option Z;
  (** [float(s)]; [None] when it raises [ValueError] *)
  py_float : string -> option float;
  (** [f"{n}"] for a length [n] *)
  py_str : nat -> string;
  (** [f"{x:.6f}"]: [x] in fixed notation with six decimals *)
  py_fixed6 : float -> string;
  (** [x ** 2] on floats, the C library's [pow(x, 2.0)] *)
  py_sqr : float -> float;
  (** [os.path.splitext] *)
  splitext : string -> string * string
}.

(** ** Configuration *)

Definition OUTPUT_SUFFIX : string := "_d".

Definition CENTER_METALS : gset string :=
  {[ "Ir"; "Rh"; "Pd"; "Pt"; "Ni"; "Co"; "Fe"; "Ru"; "Os" ]}.

Definition CO_BOND_MIN : float := 1.00%float.
Definition CO_BOND_MAX : float := 1.30%float.
Definition M_C_MAX : float := 2.20%float.

Definition point : Type := float * float * float.

(** A file as its lines, and the file system. *)
Definition file : Type := list string.
Abbreviation filesystem := (gmap string (list string)).

(** The parsed structure: [(elements, coords, comment, extra_lines)]. *)
Definition structure : Type :=
  list string * list point * string * list string.

Section Program.
Context `{PyBuiltins}.

Definition distance (a b : point) : float :=
  let '(a0, a1, a2) := a in
  let '(b0, b1, b2) := b in
  PrimFloat.sqrt
    (py_sqr (a0 - b0) + py_sqr (a1 - b1) + py_sqr (a2 - b2))%float.

(** ** read_xyz *)

Definition parse_int (s : string) : result Z :=
  match py_int s with
  | Some n => Ok n
  | None => Raise (ValueError HeaderNotInt)
  end.

Definition parse_float (s : string) : result float :=
  match py_float s with
  | Some x => Ok x
  | None => Raise (ValueError (BadFloat s))
  end.

(** The body of [for line in atom_lines], on the loop variables
    [(elements, coords)]. *)
Definition read_atom (line : string) (acc : list string * list point)
  : result (list string * list point) :=
  let '(elements, coords) := acc in
  if String.eqb (strip line) "" then Ok (elements, coords)
  else
    let parts := split line in
    if (length parts <? 4)%nat then Raise (ValueError (BadAtomLine line))
    else
      match parts with
      | elem :: sx :: sy :: sz :: _ =>
          let! x := parse_float sx in
          let! y := parse_float sy in
          let! z := parse_float sz in
          Ok (elements ++ [elem], coords ++ [(x, y, z)])
      | _ => Raise (ValueError (BadAtomLine line))
      end.

(** [read_xyz] after the file has been read into [lines]. *)
Definition read_xyz_lines (lines : file) : result structure :=
  if (length lines <? 2)%nat then Raise (ValueError TooFewLines)
  else
    let! n_atoms := parse_int (strip (nth 0 lines "")) in
    let comment := nth 1 lines "" in
    let atom_lines := slice lines 2 (2 + n_atoms) in
    if (Z.of_nat (length atom_lines) <? n_atoms)%Z
    then Raise (ValueError (CountMismatch n_atoms (length atom_lines)))
    else
      let! (elements, coords) := for_loop read_atom atom_lines ([], []) in
      Ok (elements, coords, comment, slice_from lines (2 + n_atoms)).

Definition read_xyz (fs : filesystem) (path : string) : result structure :=
  match fs !! path with
  | Some lines => read_xyz_lines lines
  | None => Raise FileNotFoundError
  end.

(** ** write_xyz *)

Definition atom_line (a : string * point) : string :=
  let '(elem, (x, y, z)) := a in
  ljust 2 elem +:+ "  " +:+ rjust 12 (py_fixed6 x) +:+ "  "
  +:+ rjust 12 (py_fixed6 y) +:+ "  " +:+ rjust 12 (py_fixed6 z).

(** The lines [write_xyz] writes. *)
Definition write_xyz_lines (elements : list string) (coords : list point)
    (comment : string) (extra_lines : list string) : file :=
  let n_atoms := length elements in
  [py_str n_atoms; comment]
  ++ map atom_line (zip elements coords)
  ++ extra_lines.

Definition write_xyz (path : string) (elements : list string)
    (coords : list point) (comment : string) (extra_lines : list string)
    (fs : filesystem) : filesystem :=
  <[path := write_xyz_lines elements coords comment extra_lines]> fs.

(** ** find_metal_center *)

(** [for i, elem in enumerate(elements)] with its early [return i]. *)
Fixpoint first_metal (l : list (nat * string)) : option nat :=
  match l with
  | [] => None
  | (i, elem) :: rest =>
      if bool_decide (elem ∈ CENTER_METALS) then Some i else first_metal rest
  end.

Definition find_metal_center (elements : list string) (coords : list point)
  : option nat :=
  first_metal (enumerate elements).

(** ** find_CO_pairs *)

(** [CO_BOND_MIN <= d_co <= CO_BOND_MAX] *)
Definition co_bond_ok (d_co : float) : bool :=
  (CO_BOND_MIN <=? d_co)%float && (d_co <=? CO_BOND_MAX)%float.

(** The body of the inner loop [for j, elem_j in enumerate(elements)],
    on the loop variable [co_pairs]. *)
Definition scan_oxygen (coords : list point) (metal_index : option nat)
    (i : nat) (je : nat * string) (co_pairs : list (nat * nat))
  : result (list (nat * nat)) :=
  let '(j, elem_j) := je in
  if negb (String.eqb elem_j "O") then Ok co_pairs
  else
    let! ci := index coords i in
    let! cj := index coords j in
    let d_co := distance ci cj in
    if co_bond_ok d_co then
      match metal_index with
      | Some m =>
          let! ci' := index coords i in
          let! cm := index coords m in
          let d_mc := distance ci' cm in
          if (d_mc <=? M_C_MAX)%float then Ok (co_pairs ++ [(i, j)])
          else Ok co_pairs
      | None => Ok (co_pairs ++ [(i, j)])
      end
    else Ok co_pairs.

(** The body of the outer loop [for i, elem_i in enumerate(elements)]. *)
Definition scan_carbon (elements : list string) (coords : list point)
    (metal_index : option nat) (ie : nat * string)
    (co_pairs : list (nat * nat)) : result (list (nat * nat)) :=
  let '(i, elem_i) := ie in
  if negb (String.eqb elem_i "C") then Ok co_pairs
  else for_loop (scan_oxygen coords metal_index i) (enumerate elements)
         co_pairs.

(** [tuple(sorted((c_idx, o_idx)))] *)
Definition sorted_key (p : nat * nat) : nat * nat :=
  let '(c_idx, o_idx) := p in
  if (o_idx <? c_idx)%nat then (o_idx, c_idx) else (c_idx, o_idx).

(** The body of the de-duplication loop, on [(unique_pairs, seen)]. *)
Definition dedup_step (st : list (nat * nat) * gset (nat * nat))
    (p : nat * nat) : list (nat * nat) * gset (nat * nat) :=
  let '(unique_pairs, seen) := st in
  let key := sorted_key p in
  if bool_decide (key ∈ seen) then (unique_pairs, seen)
  else (unique_pairs ++ [p], {[key]} ∪ seen).

Definition find_CO_pairs (elements : list string) (coords : list point)
    (metal_index : option nat) : result (list (nat * nat)) :=
  let! co_pairs :=
    for_loop (scan_carbon elements coords metal_index) (enumerate elements) []
  in
  let '(unique_pairs, _) := fold_left dedup_step co_pairs ([], ∅) in
  Ok unique_pairs.

(** ** process_xyz_file *)

(** What [process_xyz_file] prints. *)
Inductive report : Type :=
  | SkippedRead (e : exn)               (* [跳过] 读取失败 *)
  | SkippedEmpty                        (* [跳过] 原子数为 0 *)
  | SkippedNoMetal                      (* [跳过] 未找到中心金属 *)
  | WarnedFewCO (found : nat)           (* [警告] 少于 2 个，不做删除 *)
  | Completed (n_atoms n_new n_deleted_pairs : nat) (new_path : string)
                                        (* [完成] *)
  | Uncaught (e : exn).                 (* an exception leaves the function *)

(** The calls [process_xyz_file] makes, in order. *)
Inductive call : Type :=
  | CallRead (path : string)
  | CallFindMetal
  | CallFindCO
  | CallWrite (path : string).

Record run : Type := {
  run_fs : filesystem;
  run_calls : list call;
  run_report : report
}.

(** The body of [for c_idx, o_idx in pairs_to_delete]. *)
Definition mark_pair (delete_indices : gset nat) (p : nat * nat) : gset nat :=
  let '(c_idx, o_idx) := p in
  {[o_idx]} ∪ ({[c_idx]} ∪ delete_indices).

(** The body of [for i, (elem, coord) in enumerate(zip(elements, coords))],
    on [(new_elements, new_coords)]. *)
Definition keep_atom (delete_indices : gset nat)
    (acc : list string * list point) (ia : nat * (string * point))
  : list string * list point :=
  let '(new_elements, new_coords) := acc in
  let '(i, (elem, coord)) := ia in
  if bool_decide (i ∈ delete_indices) then (new_elements, new_coords)
  else (new_elements ++ [elem], new_coords ++ [coord]).

(** Lines 139-142: the indices of the pairs to delete. *)
Definition delete_set (pairs_to_delete : list (nat * nat)) : gset nat :=
  fold_left mark_pair pairs_to_delete ∅.

(** Lines 145-151: the atoms kept, [(new_elements, new_coords)]. *)
Definition kept_atoms (elements : list string) (coords : list point)
    (delete_indices : gset nat) : list string * list point :=
  fold_left (keep_atom delete_indices) (enumerate (zip elements coords))
    ([], []).

(** Lines 154-155: the name of the output file. *)
Definition output_path (path : string) : string :=
  let '(base, ext) := splitext path in
  base +:+ OUTPUT_SUFFIX +:+ ext.

Definition process_xyz_file (path : string) (fs : filesystem) : run :=
  match read_xyz fs path with
  | Raise e => Build_run fs [CallRead path] (SkippedRead e)
  | Ok (elements, coords, comment, extra_lines) =>
      let n_atoms := length elements in
      if (n_atoms =? 0)%nat then Build_run fs [CallRead path] SkippedEmpty
      else
        match find_metal_center elements coords with
        | None =>
            Build_run fs [CallRead path; CallFindMetal] SkippedNoMetal
        | Some metal_index =>
            match find_CO_pairs elements coords (Some metal_index) with
            | Raise e =>
                Build_run fs [CallRead path; CallFindMetal; CallFindCO]
                  (Uncaught e)
            | Ok co_pairs =>
                if (length co_pairs <? 2)%nat then
                  Build_run fs [CallRead path; CallFindMetal; CallFindCO]
                    (WarnedFewCO (length co_pairs))
                else
                  let pairs_to_delete := take 2 co_pairs in
                  let delete_indices := delete_set pairs_to_delete in
                  let '(new_elements, new_coords) :=
                    kept_atoms elements coords delete_indices in
                  let new_path := output_path path in
                  Build_run
                    (write_xyz new_path new_elements new_coords comment
                       extra_lines fs)
                    [CallRead path; CallFindMetal; CallFindCO;
                     CallWrite new_path]
                    (Completed n_atoms (length new_elements)
                       (length pairs_to_delete) new_path)
            end
        end
  end.

(** ** main *)

Definition FOLDER_PATH : string := ".".

(** [c.lower()] on the code points below 256: the letters A to Z and the
    capital letters of the upper half, which lie 32 below their small
    letters. *)
Definition lower_char (c : ascii) : ascii :=
  let n := nat_of_ascii c in
  if ((65 <=? n)%nat && (n <=? 90)%nat)
     || ((192 <=? n)%nat && (n <=? 222)%nat && negb (n =? 215)%nat)
  then ascii_of_nat (n + 32) else c.

(** [s.lower()] *)
Fixpoint lower (s : string) : string :=
  match s with
  | EmptyString => EmptyString
  | String c rest => String (lower_char c) (lower rest)
  end.

(** [s.endswith(suffix)]: [s] or one of its tails is [suffix]. *)
Fixpoint endswith (s suffix : string) : bool :=
  String.eqb s suffix
  || match s with
     | EmptyString => false
     | String _ rest => endswith rest suffix
     end.

(** POSIX [os.path.join(a, b)] *)
Definition path_join (a b : string) : string :=
  match b with
  | String "/" _ => b
  | _ =>
      if String.eqb a "" || endswith a "/" then a +:+ b
      else a +:+ "/" +:+ b
  end.

(** The body of [for file_name in os.listdir(FOLDER_PATH)], on the file
    system and what has been printed: the path and the report of each file
    processed. An exception that leaves [process_xyz_file] leaves the loop. *)
Definition main_step (file_name : string)
    (st : filesystem * list (string * report))
  : result (filesystem * list (string * report)) :=
  let '(fs, printed) := st in
  if negb (endswith (lower file_name) ".xyz") then Ok (fs, printed)
  else
    let full_path := path_join FOLDER_PATH file_name in
    let r := process_xyz_file full_path fs in
    match run_report r with
    | Uncaught e => Raise e
    | rep => Ok (run_fs r, printed ++ [(full_path, rep)])
    end.

(** [main], given what [os.listdir(FOLDER_PATH)] returned. *)
Definition main (listing : list string) (fs : filesystem)
  : result (filesystem * list (string * report)) :=
  for_loop main_step listing (fs, []).

End Program.

(** ** A reference runtime

    An implementation of [PyBuiltins] for the examples below. It agrees
    with CPython on the texts the examples use: unsigned or signed decimal
    integers, and decimal numbers [d.ddd] of at most 15 digits, for which
    one correctly rounded division by a power of ten is the nearest
    binary64 number. The six-decimal text is computed exactly from the
    binary expansion, rounding to nearest with ties to even, as CPython
    prints it; [x ** 2] is the correctly rounded product. *)

Definition digit_value (c : ascii) : option Z :=
  let n := nat_of_ascii c in
  if ((48 <=? n)%nat && (n <=? 57)%nat) then Some (Z.of_nat (n - 48)) else None.

(** The value of a non-empty run of digits, read after [acc]. *)
Fixpoint digits_value (acc : Z) (s : string) : option Z :=
  match s with
  | EmptyString => Some acc
  | String c rest =>
      match digit_value c with
      | Some d => digits_value (10 * acc + d) rest
      | None => None
      end
  end.

Definition unsigned_value (s : string) : option Z :=
  match s with
  | EmptyString => None
  | _ => digits_value 0 s
  end.

Definition ref_int (s : string) : option Z :=
  match s with
  | String "-" rest => Z.opp <$> unsigned_value rest
  | String "+" rest => unsigned_value rest
  | _ => unsigned_value s
  end.

(** [s] cut at its first ["."] *)
Fixpoint cut_point (s : string) : string * option string :=
  match s with
  | EmptyString => (EmptyString, None)
  | String "." rest => (EmptyString, Some rest)
  | String c rest =>
      let '(a, b) := cut_point rest in (String c a, b)
  end.

Definition float_of_Z (z : Z) : float :=
  match z with
  | Z0 => 0%float
  | Zpos p => PrimFloat.of_uint63 (Uint63.of_Z (Zpos p))
  | Zneg p => (- PrimFloat.of_uint63 (Uint63.of_Z (Zpos p)))%float
  end.

Definition unsigned_float (s : string) : option float :=
  let '(ip, fp) := cut_point s in
  let fp := default "" fp in
  if (15 <? String.length ip + String.length fp)%nat then None
  else
    match unsigned_value (ip +:+ fp) with
    | Some m =>
        Some (float_of_Z m / float_of_Z (10 ^ Z.of_nat (String.length fp)))%float
    | None => None
    end.

Definition ref_float (s : string) : option float :=
  match s with
  | String "-" rest => (fun x => (- x)%float) <$> unsigned_float rest
  | String "+" rest => unsigned_float rest
  | _ => unsigned_float s
  end.

(** The digits of [n], most significant first; [fuel] bounds their number. *)
Fixpoint digits_of (fuel : nat) (n : Z) (acc : string) : string :=
  match fuel with
  | O => acc
  | S k =>
      let acc' := String (ascii_of_nat (48 + Z.to_nat (n mod 10))) acc in
      if (n <? 10)%Z then acc' else digits_of k (n / 10)%Z acc'
  end.

Definition string_of_Z (n : Z) : string :=
  digits_of (S (Z.to_nat (Z.log2 n))) n "".

Definition ref_str (n : nat) : string := string_of_Z (Z.of_nat n).

(** POSIX [os.path.splitext]: cut at the last dot of the last component,
    unless only dots precede it there. *)
Fixpoint rfind (c : ascii) (s : string) (pos : nat) (found : option nat)
  : option nat :=
  match s with
  | EmptyString => found
  | String d rest =>
      rfind c rest (S pos) (if Ascii.eqb c d then Some pos else found)
  end.

Definition ref_splitext (p : string) : string * string :=
  let sep := match rfind "/" p 0 None with Some k => S k | None => 0%nat end in
  match rfind "." p 0 None with
  | Some dot =>
      if (sep <? dot)%nat
         && negb (String.eqb (String.substring sep (dot - sep) p)
                             (String.concat "" (repeat "." (dot - sep))))
      then (String.substring 0 dot p,
            String.substring dot (String.length p - dot) p)
      else (p, "")
  | None => (p, "")
  end.

(** [f"{x:.6f}"]: the decimal nearest to [x] with six decimals, ties to
    even, computed exactly from the binary expansion of [x]. *)
Definition round_div (n d : Z) : Z :=
  let q := (n / d)%Z in
  let r := (n mod d)%Z in
  if (2 * r <? d)%Z then q
  else if (d <? 2 * r)%Z then (q + 1)%Z
  else if Z.even q then q else (q + 1)%Z.

(** [|x| * 10^6] rounded to an integer, for [|x| = m * 2^e]. *)
Definition scaled6 (m : positive) (e : Z) : Z :=
  if (0 <=? e)%Z then (Zpos m * 2 ^ e * 10 ^ 6)%Z
  else round_div (Zpos m * 10 ^ 6) (2 ^ (- e)).

Definition fixed6_of_scaled (q : Z) : string :=
  let frac := string_of_Z (q mod 10 ^ 6) in
  string_of_Z (q / 10 ^ 6) +:+ "."
  +:+ String.concat "" (repeat "0" (6 - String.length frac)) +:+ frac.

Definition sign_text (s : bool) : string := if s then "-" else "".

Definition ref_fixed6 (x : float) : string :=
  match Prim2SF x with
  | S754_nan => "nan"
  | S754_infinity s => sign_text s +:+ "inf"
  | S754_zero s => sign_text s +:+ "0.000000"
  | S754_finite s m e => sign_text s +:+ fixed6_of_scaled (scaled6 m e)
  end.

#[export] Instance ref_runtime : PyBuiltins := {|
  py_int := ref_int;
  py_float := ref_float;
  py_str := ref_str;
  py_fixed6 := ref_fixed6;
  py_sqr := fun x => (x * x)%float;
  splitext := ref_splitext
|}.

(** ** Example structures *)

(** The scenario of the specification: an iridium centre with two
    carbonyls. *)
Definition carbonyl_elements : list string := ["Ir"; "C"; "O"; "C"; "O"].
Definition carbonyl_coords : list point :=
  [(0, 0, 0); (1.9, 0, 0); (3.05, 0, 0); (0, 1.9, 0); (0, 3.05, 0)]%float.
Definition carbonyl_file : file :=
  ["5"; "two carbonyls"; "Ir 0 0 0"; "C 1.9 0 0"; "O 3.05 0 0";
   "C 0 1.9 0"; "O 0 3.05 0"; "trailer"].

(** One carbon with two oxygens in bond range: the first two pairs share
    the carbon. *)
Definition dioxide_elements : list string := ["Ir"; "C"; "O"; "O"].
Definition dioxide_coords : list point :=
  [(0, 0, 0); (1.9, 0, 0); (3.05, 0, 0); (1.9, 1.15, 0)]%float.
Definition dioxide_file : file :=
  ["4"; "one carbon, two oxygens"; "Ir 0 0 0"; "C 1.9 0 0"; "O 3.05 0 0";
   "O 1.9 1.15 0"].

(** A single carbonyl, and a file of no atom. *)
Definition single_elements : list string := ["Ir"; "C"; "O"].
Definition single_coords : list point :=
  [(0, 0, 0); (1.9, 0, 0); (3.05, 0, 0)]%float.
Definition single_file : file :=
  ["3"; "one carbonyl"; "Ir 0 0 0"; "C 1.9 0 0"; "O 3.05 0 0"].
Definition empty_file : file := ["0"; "no atom"].

Definition example_fs : filesystem :=
  {[ "complex.xyz" := carbonyl_file; "dioxide.xyz" := dioxide_file;
     "single.xyz" := single_file; "empty.xyz" := empty_file ]}.

(** Coordinates written with more than six decimals. *)
Definition rounded_elements : list string := ["C"; "O"].
Definition rounded_coords : list point :=
  [(0.1234567, -1.00000049, 2.5);
   (3.14159265358979, 0.0000005, -12.3456785)]%float.
Definition rounded_file : file :=
  ["2"; "more than six decimals"; "C 0.1234567 -1.00000049 2.5";
   "O 3.14159265358979 0.0000005 -12.3456785"; "tail"].

(** A carbon with four oxygens on the axes, at 1.00, 1.30, 0.999 and 1.301
    from it: the bounds of the bond test and the first values outside. *)
Definition boundary_elements : list string := ["Ir"; "C"; "O"; "O"; "O"; "O"].
Definition boundary_coords : list point :=
  [(0, 0, -2); (0, 0, 0); (1.00, 0, 0); (0, 1.30, 0); (-0.999, 0, 0);
   (0, -1.301, 0)]%float.

(** A folder for [main]: a structure whose extension is in capitals, a
    single carbonyl, a file that is no structure, and a listing that names
    a file which is gone. *)
Definition batch_fs : filesystem :=
  {[ "./complex.XYZ" := carbonyl_file; "./single.xyz" := single_file;
     "./notes.txt" := ["not a structure"] ]}.
Definition batch_listing : list string :=
  ["notes.txt"; "complex.XYZ"; "gone.xyz"; "single.xyz"].

(** ** Specification-side definitions

    What the specification says of the detector and of the remover, written
    independently of the loops above. *)

Section Specification.
Context `{PyBuiltins}.

(** The acceptance test of section 4.4 on a pair of indices [(i, j)]:
    atom [i] is a carbon, atom [j] an oxygen, their distance lies in
    [[CO_BOND_MIN, CO_BOND_MAX]] and, when a metal index is given, the
    carbon lies within [M_C_MAX] of the metal. *)
Definition accepts (elements : list string) (coords : list point)
    (metal_index : option nat) (p : nat * nat) : bool :=
  match elements !! p.1, elements !! p.2, coords !! p.1, coords !! p.2 with
  | Some ei, Some ej, Some ci, Some cj =>
      String.eqb ei "C" && String.eqb ej "O"
      && co_bond_ok (distance ci cj)
      && match metal_index with
         | None => true
         | Some m =>
             match coords !! m with
             | Some cm => (distance ci cm <=? M_C_MAX)%float
             | None => false
             end
         end
  | _, _, _, _ => false
  end.

(** The carbon at [ci] lies within [M_C_MAX] of the metal, when a metal
    index is given. *)
Definition near_metal (coords : list point) (metal_index : option nat)
    (ci : point) : Prop :=
  forall m, metal_index = Some m ->
    exists cm, coords !! m = Some cm
               /\ (distance ci cm <=? M_C_MAX)%float = true.

(** All index pairs of a structure of [n] atoms, first index ascending,
    then second index ascending. *)
Definition scan_order (n : nat) : list (nat * nat) :=
  list_prod (seq 0 n) (seq 0 n).

(** The accepted pairs in scan order. *)
Definition detected (elements : list string) (coords : list point)
    (metal_index : option nat) : list (nat * nat) :=
  List.filter (accepts elements coords metal_index)
    (scan_order (length elements)).

(** Lexicographic order on pairs: the order of discovery. *)
Definition scan_lt (p q : nat * nat) : Prop :=
  p.1 < q.1 ∨ (p.1 = q.1 ∧ p.2 < q.2).

(** The atoms of a structure whose index is not in [D], in their order. *)
Definition survivors (elements : list string) (coords : list point)
    (D : gset nat) : list (string * point) :=
  snd <$> filter (fun ia : nat * (string * point) => ia.1 ∉ D)
            (enumerate (zip elements coords)).

(** The names [main] takes from the listing, and the path it gives each. *)
Definition selected (file_name : string) : bool :=
  endswith (lower file_name) ".xyz".

Definition full_path (file_name : string) : string :=
  path_join FOLDER_PATH file_name.

(** A token: what [split] can return, a non-empty text without white
    space. *)
Fixpoint no_space (s : string) : bool :=
  match s with
  | EmptyString => true
  | String c rest => negb (is_space c) && no_space rest
  end.

Definition is_token (s : string) : bool :=
  negb (String.eqb s "") && no_space s.

(** [float] accepts the text. *)
Definition is_number (s : string) : bool :=
  match py_float s with
  | Some _ => true
  | None => false
  end.

(** An atom line the reader takes without raising: blank, or at least four
    tokens of which the second to fourth are numbers. *)
Definition good_atom_line (line : string) : bool :=
  String.eqb (strip line) ""
  || match split line with
     | _ :: sx :: sy :: sz :: _ =>
         is_number sx && is_number sy && is_number sz
     | _ => false
     end.

(** A coordinate as read back from its six-decimal text. *)
Definition reread (x : float) : float :=
  default x (py_float (py_fixed6 x)).

Definition reread_point (p : point) : point :=
  let '(x, y, z) := p in (reread x, reread y, reread z).

(** The six-decimal text of [x] is one token that [float] accepts. *)
Definition fixed6_readable (x : float) : bool :=
  is_token (py_fixed6 x) && is_number (py_fixed6 x).

Definition point_readable (p : point) : bool :=
  let '(x, y, z) := p in
  fixed6_readable x && fixed6_readable y && fixed6_readable z.

(** *** Six-decimal precision *)

(** The number a binary64 value stands for, when it is one. *)
Definition float_value (x : float) : option Q :=
  match Prim2SF x with
  | S754_zero _ => Some 0%Q
  | S754_finite s m e => Some (inject_Z (cond_Zopp s (Zpos m)) * Qpower 2 e)%Q
  | S754_infinity _ | S754_nan => None
  end.

(** The number of millionths a six-decimal text denotes: digits, a point
    and six digits, after an optional minus sign. *)
Definition unsigned_millionths (s : string) : option Z :=
  match cut_point s with
  | (ip, Some fp) =>
      if (String.length fp =? 6)%nat then unsigned_value (ip +:+ fp) else None
  | (_, None) => None
  end.

Definition millionths (s : string) : option Z :=
  match s with
  | String "-" rest => Z.opp <$> unsigned_millionths rest
  | _ => unsigned_millionths s
  end.

(** How far the number [v] is from [q] millionths. *)
Definition decimal_gap (v : Q) (q : Z) : Q :=
  Qabs (v - inject_Z q / 1000000)%Q.

(** [f"{x:.6f}"] rounds to six decimals: the text denotes a decimal within
    half a millionth of [x]. *)
Definition rounds_to_six (x : float) : bool :=
  match float_value x, millionths (py_fixed6 x) with
  | Some v, Some q => Qle_bool (decimal_gap v q) (1 # 2000000)
  | _, _ => false
  end.

(** [float] reads the six-decimal text of [x] to a nearest binary64 number:
    one that is no farther from the decimal the text denotes than [x], a
    binary64 number itself, is. *)
Definition reads_nearest (x : float) : bool :=
  match float_value x, millionths (py_fixed6 x), py_float (py_fixed6 x) with
  | Some v, Some q, Some y =>
      match float_value y with
      | Some w => Qle_bool (decimal_gap w q) (decimal_gap v q)
      | None => false
      end
  | _, _, _ => false
  end.

Definition point_rounds_to_six (p : point) : bool :=
  let '(x, y, z) := p in
  rounds_to_six x && rounds_to_six y && rounds_to_six z.

Definition point_reads_nearest (p : point) : bool :=
  let '(x, y, z) := p in
  reads_nearest x && reads_nearest y && reads_nearest z.

(** Two numbers that differ by a millionth at most. *)
Definition within_millionth (x y : float) : Prop :=
  exists v w,
    float_value x = Some v /\ float_value y = Some w
    /\ (Qabs (w - v) <= 1 # 1000000)%Q.

Definition point_within_millionth (p p' : point) : Prop :=
  let '(x, y, z) := p in
  let '(x', y', z') := p' in
  within_millionth x x' /\ within_millionth y y' /\ within_millionth z z'.

(** The coordinates the scan reads at the pair [(i, j)] are there. *)
Definition readable_pair (coords : list point) (metal_index : option nat)
    (i j : nat) : Prop :=
  exists ci cj,
    coords !! i = Some ci /\ coords !! j = Some cj
    /\ (co_bond_ok (distance ci cj) = true ->
        forall m, metal_index = Some m -> is_Some (coords !! m)).

(** The atom a line stands for: its first token and the numbers of its
    second to fourth tokens. *)
Definition parse_atom_line (line : string) : option (string * point) :=
  match split line with
  | elem :: sx :: sy :: sz :: _ =>
      match py_float sx, py_float sy, py_float sz with
      | Some x, Some y, Some z => Some (elem, (x, y, z))
      | _, _, _ => None
      end
  | _ => None
  end.

Definition nonblank (line : string) : bool :=
  negb (String.eqb (strip line) "").

(** No selected name of the listing is written by the run of another. *)
Definition separate_outputs (listing : list string) : Prop :=
  forall n1 n2, n1 ∈ listing -> n2 ∈ listing ->
    selected n1 = true -> selected n2 = true ->
    output_path (full_path n1) <> full_path n2.

(** ** The range of the squares *)

(** A binary64 number that is neither an infinity nor a NaN. *)
Definition finite_float (x : float) : bool :=
  match Prim2SF x with
  | S754_zero _ | S754_finite _ _ _ => true
  | S754_infinity _ | S754_nan => false
  end.

Definition finite_point (p : point) : bool :=
  let '(x, y, z) := p in finite_float x && finite_float y && finite_float z.

(** [x ** 2] raises [OverflowError]: [x] is a number and the square that
    the C library returns for it is not. The embedding takes the square as
    the library returns it, so what it shows of a call of [distance] is
    what the program does where no square overflows. *)
Definition square_overflows (x : float) : bool :=
  finite_float x && negb (finite_float (py_sqr x)).

(** One of the three squares [distance] takes overflows. *)
Definition distance_overflows (a b : point) : bool :=
  let '(a0, a1, a2) := a in
  let '(b0, b1, b2) := b in
  (square_overflows (a0 - b0) || square_overflows (a1 - b1)
   || square_overflows (a2 - b2))%float.

(** No distance between two of the points overflows. *)
Definition in_range (coords : list point) : bool :=
  forallb (fun a => forallb (fun b => negb (distance_overflows a b)) coords)
    coords.

(** The atoms read from the file at [path], if any, are in range. *)
Definition file_in_range (fs : filesystem) (path : string) : bool :=
  match read_xyz fs path with
  | Ok (_, coords, _, _) => in_range coords
  | Raise _ => true
  end.

End Specification.

(** ** Loops *)

Section Loops.
Context {A B : Type}.

Lemma bind_Ok {X Y} (r : result X) (k : X -> result Y) (y : Y) :
  bind r k = Ok y -> exists x, r = Ok x /\ k x = Ok y.
Proof. destruct r as [x|e]; simpl; [eauto | discriminate]. Qed.

(** A loop whose body appends [g x] to its variable, or raises. *)
Lemma for_loop_appends (body : A -> list B -> result (list B))
    (g : A -> list B) (l : list A) :
  (forall x acc r, x ∈ l -> body x acc = Ok r -> r = acc ++ g x) ->
  forall acc r, for_loop body l acc = Ok r -> r = acc ++ flat_map g l.
Proof.
  induction l as [|x l IH]; intros Hbody acc r; simpl.
  - intros [= <-]. by rewrite app_nil_r.
  - intros Hrun. apply bind_Ok in Hrun as (acc' & Hx & Hrest).
    apply Hbody in Hx; [|by left]. subst acc'.
    apply IH in Hrest; [|intros; eapply Hbody; [by right|done]].
    by rewrite Hrest, <- app_assoc.
Qed.

Lemma for_loop_total {S} (body : A -> S -> result S) (l : list A) :
  (forall x s, x ∈ l -> is_Ok (body x s)) ->
  forall s, is_Ok (for_loop body l s).
Proof.
  induction l as [|x l IH]; intros Hbody s; simpl.
  - by exists s.
  - destruct (Hbody x s) as [s' ->]; [by left|]. simpl.
    apply IH. intros; apply Hbody. by right.
Qed.

End Loops.

Lemma enumerate_from_spec {A} (l : list A) k i x :
  (i, x) ∈ enumerate_from k l <-> k <= i /\ l !! (i - k) = Some x.
Proof.
  revert k. induction l as [|y l IH]; intros k; simpl.
  - rewrite elem_of_nil. split; [done|]. intros [_ Hl]. done.
  - rewrite elem_of_cons, IH. split.
    + intros [[= -> ->]|[Hle Hl]].
      * split; [lia|]. by rewrite Nat.sub_diag.
      * split; [lia|]. replace (i - k) with (S (i - S k)) by lia. done.
    + intros [Hle Hl]. destruct (decide (i = k)) as [->|Hne].
      * left. rewrite Nat.sub_diag in Hl. simpl in Hl. congruence.
      * right. split; [lia|]. replace (i - k) with (S (i - S k)) in Hl by lia.
        done.
Qed.

Lemma enumerate_spec {A} (l : list A) i x :
  (i, x) ∈ enumerate l <-> l !! i = Some x.
Proof.
  unfold enumerate. rewrite enumerate_from_spec, Nat.sub_0_r.
  split; [by intros [_ ?]|]. split; [lia|done].
Qed.

Lemma filter_none {A} (f : A -> bool) (l : list A) :
  (forall x, x ∈ l -> f x = false) -> List.filter f l = [].
Proof.
  induction l as [|x l IH]; intros Hf; simpl; [done|].
  rewrite (Hf x) by (by left). apply IH. intros; apply Hf. by right.
Qed.

Lemma flat_map_row {A} (Q : nat * nat -> bool) (i k : nat) (l : list A) :
  flat_map (fun je : nat * A => if Q (i, je.1) then [(i, je.1)] else [])
    (enumerate_from k l)
  = List.filter Q (map (pair i) (seq k (length l))).
Proof.
  revert k. induction l as [|y l IH]; intros k; simpl; [done|].
  rewrite IH. by destruct (Q (i, k)).
Qed.

Lemma flat_map_rows {A} (Q : nat * nat -> bool) (n k : nat) (l : list A) :
  flat_map (fun ie : nat * A =>
              List.filter Q (map (pair ie.1) (seq 0 n)))
    (enumerate_from k l)
  = List.filter Q (list_prod (seq k (length l)) (seq 0 n)).
Proof.
  revert k. induction l as [|y l IH]; intros k; simpl; [done|].
  by rewrite IH, List.filter_app.
Qed.

(** ** The scan order *)

Lemma scan_lt_irrefl p : ~ scan_lt p p.
Proof. unfold scan_lt. lia. Qed.

Lemma row_sorted i a b :
  StronglySorted scan_lt (map (pair i) (seq a b)).
Proof.
  revert a. induction b as [|b IH]; intros a; simpl; constructor; [done|].
  apply Forall_forall. intros q Hq.
  apply list_elem_of_In, in_map_iff in Hq as (j & <- & Hj).
  apply in_seq in Hj. right. simpl. lia.
Qed.

Lemma rows_sorted k m n :
  StronglySorted scan_lt (list_prod (seq k m) (seq 0 n)).
Proof.
  revert k. induction m as [|m IH]; intros k; simpl; [constructor|].
  apply StronglySorted_app_2; [|apply row_sorted|apply IH].
  intros p q Hp Hq.
  apply list_elem_of_In, in_map_iff in Hp as (j & <- & _).
  destruct q as [i' j']. apply list_elem_of_In, in_prod_iff in Hq as [Hi' _].
  apply in_seq in Hi'. left. simpl. lia.
Qed.

Lemma filter_sorted {A} (R : relation A) (f : A -> bool) (l : list A) :
  StronglySorted R l -> StronglySorted R (List.filter f l).
Proof.
  induction 1 as [|x l Hl IH Hx]; simpl; [constructor|].
  destruct (f x); [|done]. constructor; [done|].
  apply Forall_forall. intros y Hy.
  apply list_elem_of_In, filter_In in Hy as [Hy _].
  rewrite Forall_forall in Hx. by apply Hx, list_elem_of_In.
Qed.

Lemma sorted_NoDup {A} (R : relation A) (l : list A) :
  (forall x, ~ R x x) -> StronglySorted R l -> NoDup l.
Proof.
  intros Hirr. induction 1 as [|x l Hl IH Hx]; constructor; [|done].
  intros Hin. rewrite Forall_forall in Hx. by apply (Hirr x), Hx.
Qed.

Lemma dedup_fresh (l u : list (nat * nat)) (seen : gset (nat * nat)) :
  NoDup (sorted_key <$> l) ->
  (forall p, p ∈ l -> sorted_key p ∉ seen) ->
  (fold_left dedup_step l (u, seen)).1 = u ++ l.
Proof.
  revert u seen. induction l as [|p l IH]; intros u seen Hnd Hfresh; simpl.
  - by rewrite app_nil_r.
  - rewrite fmap_cons in Hnd. apply NoDup_cons in Hnd as [Hp Hnd].
    rewrite bool_decide_eq_false_2 by (apply Hfresh; by left).
    rewrite IH; [by rewrite <- app_assoc|done|].
    intros q Hq. rewrite elem_of_union, elem_of_singleton.
    intros [Heq|Hin].
    + apply Hp. rewrite <- Heq. by apply list_elem_of_fmap_2.
    + revert Hin. apply Hfresh. by right.
Qed.

Section Detector.
Context `{PyBuiltins}.
Implicit Types (elements : list string) (coords : list point).
Implicit Types (metal_index : option nat).

Lemma scan_oxygen_spec elements coords metal_index i j ej acc r :
  elements !! i = Some "C" ->
  elements !! j = Some ej ->
  scan_oxygen coords metal_index i (j, ej) acc = Ok r ->
  r = acc ++ (if accepts elements coords metal_index (i, j)
              then [(i, j)] else []).
Proof.
  intros Hi Hj. unfold scan_oxygen, accepts, index. simpl. rewrite Hi, Hj.
  destruct (String.eqb ej "O"); simpl.
  2:{ intros [= <-]. destruct (coords !! i), (coords !! j);
        by rewrite ?app_nil_r. }
  destruct (coords !! i) as [ci|]; simpl; [|discriminate].
  destruct (coords !! j) as [cj|]; simpl; [|discriminate].
  destruct (co_bond_ok (distance ci cj)); simpl.
  2:{ intros [= <-]. by rewrite app_nil_r. }
  destruct metal_index as [m|]; [|by intros [= <-]].
  destruct (coords !! m) as [cm|]; simpl; [|discriminate].
  destruct (distance ci cm <=? M_C_MAX)%float; intros [= <-];
    by rewrite ?app_nil_r.
Qed.

Lemma accepts_carbon elements coords metal_index p :
  accepts elements coords metal_index p = true ->
  elements !! p.1 = Some "C" /\ elements !! p.2 = Some "O".
Proof.
  unfold accepts.
  destruct (elements !! p.1) as [ei|]; [|done].
  destruct (elements !! p.2) as [ej|]; [|done].
  destruct (coords !! p.1), (coords !! p.2); try done.
  intros Hacc. rewrite !andb_true_iff in Hacc.
  destruct Hacc as [[[Hc Ho] _] _].
  apply String.eqb_eq in Hc, Ho. by subst.
Qed.

Lemma scan_carbon_spec elements coords metal_index i ei acc r :
  elements !! i = Some ei ->
  scan_carbon elements coords metal_index (i, ei) acc = Ok r ->
  r = acc ++ List.filter (accepts elements coords metal_index)
               (map (pair i) (seq 0 (length elements))).
Proof.
  intros Hi. unfold scan_carbon.
  destruct (String.eqb_spec ei "C") as [->|Hne]; simpl.
  - intros Hrun. unfold enumerate in *.
    rewrite <- (flat_map_row (accepts elements coords metal_index) i 0).
    revert Hrun. apply for_loop_appends.
    intros [j ej] acc' r' Hin. apply enumerate_spec in Hin.
    by apply scan_oxygen_spec.
  - intros [= <-]. rewrite filter_none; [by rewrite app_nil_r|].
    intros p Hp. destruct (accepts _ _ _ p) eqn:Hacc; [|done].
    apply accepts_carbon in Hacc as [Hc _].
    apply list_elem_of_In, in_map_iff in Hp as (j & <- & _).
    simpl in Hc. congruence.
Qed.

Lemma scan_spec elements coords metal_index co_pairs :
  for_loop (scan_carbon elements coords metal_index) (enumerate elements) []
  = Ok co_pairs ->
  co_pairs = detected elements coords metal_index.
Proof.
  intros Hrun. unfold detected, scan_order.
  rewrite <- (flat_map_rows (accepts elements coords metal_index) _ 0 elements).
  change (enumerate_from 0 elements) with (enumerate elements).
  eapply for_loop_appends in Hrun; [exact Hrun|].
  intros [i ei] acc r Hin. apply enumerate_spec in Hin.
  by apply scan_carbon_spec.
Qed.

(** The scan does not raise on a structure whose coordinates are as many
    as its elements and whose metal index, if any, is one of its atoms. *)
Lemma scan_total elements coords metal_index :
  length coords = length elements ->
  (forall m, metal_index = Some m -> m < length elements) ->
  is_Ok (for_loop (scan_carbon elements coords metal_index)
           (enumerate elements) []).
Proof.
  intros Hlen Hm. apply for_loop_total. intros [i ei] acc Hi.
  apply enumerate_spec in Hi. unfold scan_carbon.
  destruct (negb (String.eqb ei "C")); [by eexists|].
  apply for_loop_total. intros [j ej] acc' Hj. apply enumerate_spec in Hj.
  unfold scan_oxygen, index.
  destruct (negb (String.eqb ej "O")); [by eexists|].
  apply lookup_lt_Some in Hi, Hj. rewrite <- Hlen in Hi, Hj.
  destruct (lookup_lt_is_Some_2 coords i Hi) as [ci ->].
  destruct (lookup_lt_is_Some_2 coords j Hj) as [cj ->]. simpl.
  destruct (co_bond_ok _); [|by eexists].
  destruct metal_index as [m|]; [|by eexists].
  specialize (Hm m eq_refl). rewrite <- Hlen in Hm.
  destruct (lookup_lt_is_Some_2 coords m Hm) as [cm ->]. simpl.
  destruct (_ <=? _)%float; by eexists.
Qed.

Lemma detected_sorted elements coords metal_index :
  StronglySorted scan_lt (detected elements coords metal_index).
Proof. apply filter_sorted, rows_sorted. Qed.

Lemma detected_accepts elements coords metal_index p :
  p ∈ detected elements coords metal_index <->
  accepts elements coords metal_index p = true.
Proof.
  unfold detected, scan_order. rewrite list_elem_of_In, filter_In.
  split; [by intros [_ ?]|]. intros Hacc. split; [|done].
  apply accepts_carbon in Hacc as [Hc Ho].
  apply lookup_lt_Some in Hc, Ho. destruct p as [i j].
  apply in_prod_iff. rewrite !in_seq. simpl in *. lia.
Qed.

Lemma sorted_key_inj elements coords metal_index p q :
  p ∈ detected elements coords metal_index ->
  q ∈ detected elements coords metal_index ->
  sorted_key p = sorted_key q -> p = q.
Proof.
  rewrite !detected_accepts. intros Hp Hq.
  apply accepts_carbon in Hp as [Hpc Hpo].
  apply accepts_carbon in Hq as [Hqc Hqo].
  destruct p as [c o], q as [c' o']. unfold sorted_key. simpl in *.
  destruct (o <? c)%nat, (o' <? c')%nat; intros [= -> ->]; congruence.
Qed.

Lemma detected_keys_NoDup elements coords metal_index :
  NoDup (sorted_key <$> detected elements coords metal_index).
Proof.
  apply NoDup_fmap_2_strong.
  - intros p q. apply sorted_key_inj.
  - eapply sorted_NoDup; [apply scan_lt_irrefl|apply detected_sorted].
Qed.

(** The detector returns the accepted pairs in scan order whenever it
    returns. *)
Lemma find_CO_pairs_spec elements coords metal_index pairs :
  find_CO_pairs elements coords metal_index = Ok pairs ->
  pairs = detected elements coords metal_index.
Proof.
  unfold find_CO_pairs. intros Hrun.
  apply bind_Ok in Hrun as (co_pairs & Hscan & Hdedup).
  apply scan_spec in Hscan. subst co_pairs.
  pose proof (dedup_fresh (detected elements coords metal_index) [] ∅
                (detected_keys_NoDup _ _ _)) as Hfresh.
  destruct (fold_left dedup_step _ _) as [unique_pairs seen].
  injection Hdedup as <-. simpl in Hfresh. apply Hfresh.
  intros p _. apply not_elem_of_empty.
Qed.

Lemma find_CO_pairs_total elements coords metal_index :
  length coords = length elements ->
  (forall m, metal_index = Some m -> m < length elements) ->
  find_CO_pairs elements coords metal_index
  = Ok (detected elements coords metal_index).
Proof.
  intros Hlen Hm.
  destruct (scan_total elements coords metal_index Hlen Hm) as [co Hco].
  assert (is_Ok (find_CO_pairs elements coords metal_index)) as [pairs Hp].
  { unfold find_CO_pairs. rewrite Hco. simpl.
    destruct (fold_left dedup_step _ _). by eexists. }
  rewrite Hp. f_equal. by apply find_CO_pairs_spec.
Qed.

End Detector.

(** ** The remover *)

Lemma filter_enumerate_fst {A} (Q : nat -> Prop) `{!forall i, Decision (Q i)}
    (k : nat) (l : list A) :
  (filter (fun ia : nat * A => Q ia.1) (enumerate_from k l)).*1
  = filter Q (seq k (length l)).
Proof.
  revert k. induction l as [|x l IH]; intros k; simpl; [done|].
  rewrite !filter_cons. simpl. destruct (decide (Q k)); simpl; by rewrite IH.
Qed.

Lemma enumerate_from_app {A} (k : nat) (l1 l2 : list A) :
  enumerate_from k (l1 ++ l2)
  = enumerate_from k l1 ++ enumerate_from (k + length l1) l2.
Proof.
  revert k. induction l1 as [|x l1 IH]; intros k; simpl.
  - by rewrite Nat.add_0_r.
  - rewrite IH. do 3 f_equal. lia.
Qed.

Lemma enumerate_from_length {A} (k : nat) (l : list A) :
  length (enumerate_from k l) = length l.
Proof. revert k. induction l; intros; simpl; auto. Qed.

Lemma keep_atom_fold (D : gset nat) (l : list (nat * (string * point)))
    (ne : list string) (nc : list point) :
  fold_left (keep_atom D) l (ne, nc)
  = (ne ++ (filter (fun ia : nat * (string * point) => ia.1 ∉ D) l).*2.*1,
     nc ++ (filter (fun ia : nat * (string * point) => ia.1 ∉ D) l).*2.*2).
Proof.
  revert ne nc. induction l as [|[i [elem coord]] l IH]; intros ne nc; simpl.
  - by rewrite !app_nil_r.
  - rewrite filter_cons. simpl. destruct (decide (i ∉ D)) as [Hi|Hi].
    + rewrite bool_decide_eq_false_2 by done. rewrite IH. simpl.
      by rewrite <- !app_assoc.
    + rewrite bool_decide_eq_true_2 by (by apply dec_stable). apply IH.
Qed.

(** The loop of lines 145-151 keeps the atoms outside [delete_indices], in
    their order. *)
Lemma kept_atoms_survivors elements coords (D : gset nat) :
  kept_atoms elements coords D
  = ((survivors elements coords D).*1, (survivors elements coords D).*2).
Proof. unfold kept_atoms, survivors. by rewrite keep_atom_fold. Qed.

Lemma mark_pair_fold (l : list (nat * nat)) (D : gset nat) (i : nat) :
  i ∈ fold_left mark_pair l D <->
  i ∈ D \/ exists p, p ∈ l /\ (i = p.1 \/ i = p.2).
Proof.
  revert D. induction l as [|[c o] l IH]; intros D; simpl.
  - split; [by left|]. intros [?|(p & Hp & _)]; [done|]. by apply elem_of_nil in Hp.
  - rewrite IH. unfold mark_pair. rewrite !elem_of_union, !elem_of_singleton.
    split.
    + intros [[->|[->|?]]|(p & Hp & Hi)].
      * right. exists (c, o). split; [by left|by right].
      * right. exists (c, o). split; [by left|by left].
      * by left.
      * right. exists p. split; [by right|done].
    + intros [?|(p & Hp & Hi)]; [by left; right; right|].
      apply elem_of_cons in Hp as [->|Hp]; simpl in Hi.
      * left. destruct Hi as [->| ->]; auto.
      * right. by exists p.
Qed.

Lemma delete_set_two (p1 p2 : nat * nat) :
  delete_set [p1; p2] = {[p1.1; p1.2; p2.1; p2.2]}.
Proof.
  apply set_eq. intros i. unfold delete_set. rewrite mark_pair_fold.
  rewrite !elem_of_union, !elem_of_singleton. split.
  - intros [Hi|(p & Hp & Hi)]; [set_solver|].
    apply elem_of_cons in Hp as [->|Hp]; [tauto|].
    apply elem_of_cons in Hp as [->|Hp]; [tauto|]. by apply elem_of_nil in Hp.
  - intros Hi. right.
    destruct Hi as [[[->| ->]| ->]| ->];
      [exists p1|exists p1|exists p2|exists p2]; split; auto;
      repeat constructor.
Qed.

Lemma survivors_length elements coords (D : gset nat) :
  length coords = length elements ->
  (forall i, i ∈ D -> i < length elements) ->
  length (survivors elements coords D) = length elements - size D.
Proof.
  intros Hlen HD. unfold survivors, enumerate.
  set (atoms := zip elements coords).
  assert (length atoms = length elements) as Hn.
  { unfold atoms. rewrite length_zip. lia. }
  rewrite length_fmap.
  pose proof (filter_app_complement
                (fun ia : nat * (string * point) => ia.1 ∉ D)
                (enumerate_from 0 atoms)) as Hperm.
  apply Permutation_length in Hperm.
  rewrite length_app, enumerate_from_length, Hn in Hperm.
  assert (length (filter (fun ia : nat * (string * point) => ¬ (ia.1 ∉ D))
                    (enumerate_from 0 atoms)) = size D) as Hdel.
  { rewrite <- (length_fmap fst (filter _ (enumerate_from 0 atoms))).
    assert ((filter (fun ia : nat * (string * point) => ¬ (ia.1 ∉ D))
               (enumerate_from 0 atoms)).*1
            = filter (fun i : nat => ¬ (i ∉ D)) (seq 0 (length atoms))) as ->
      by exact (filter_enumerate_fst (fun i : nat => ¬ (i ∉ D)) 0 atoms).
    rewrite <- (size_list_to_set (C:=gset nat))
      by (apply NoDup_filter, NoDup_seq).
    f_equal. apply set_eq. intros i.
    rewrite elem_of_list_to_set, list_elem_of_filter, elem_of_seq, Hn.
    split; [intros [Hi _]; by apply dec_stable|].
    intros Hi. split; [tauto|]. apply HD in Hi. lia. }
  lia.
Qed.

(** ** Text *)

#[local] Arguments String.append !_ _ / : simpl nomatch.

Lemma append_assoc (a b c : string) : (a +:+ b) +:+ c = a +:+ b +:+ c.
Proof. induction a as [|x a IH]; simpl; [done|]. by f_equal. Qed.

Lemma append_empty_r (a : string) : a +:+ "" = a.
Proof. induction a as [|x a IH]; simpl; [done|]. by f_equal. Qed.

Lemma no_space_app (a b : string) :
  no_space (a +:+ b) = no_space a && no_space b.
Proof.
  induction a as [|x a IH]; simpl; [done|]. by rewrite IH, andb_assoc.
Qed.

(** Every text [split] returns is a token. *)
Lemma split_from_tokens (s tok : string) :
  no_space tok = true ->
  Forall (fun t => is_token t = true) (split_from tok s).
Proof.
  revert tok. induction s as [|c s IH]; intros tok Htok; simpl.
  - unfold is_token. destruct (String.eqb tok "") eqn:E; [constructor|].
    constructor; [|constructor]. by rewrite E, Htok.
  - destruct (is_space c) eqn:Hc.
    + destruct (String.eqb tok "") eqn:E; [by apply IH|].
      constructor; [|by apply IH]. unfold is_token. by rewrite E, Htok.
    + apply IH. rewrite no_space_app, Htok. simpl. by rewrite Hc.
Qed.

Lemma split_tokens (s : string) :
  Forall (fun t => is_token t = true) (split s).
Proof. by apply split_from_tokens. Qed.

(** Reading a token, a run of spaces, the end of the line. *)
Lemma split_from_token (t tok s : string) :
  no_space t = true ->
  split_from tok (t +:+ s) = split_from (tok +:+ t) s.
Proof.
  revert tok. induction t as [|c t IH]; intros tok Ht; simpl.
  - by rewrite append_empty_r.
  - simpl in Ht. apply andb_true_iff in Ht as [Hc Ht].
    apply negb_true_iff in Hc. rewrite Hc, IH by done.
    by rewrite append_assoc.
Qed.

Lemma split_from_spaces (n : nat) (s : string) :
  split_from "" (spaces n +:+ s) = split_from "" s.
Proof. induction n as [|n IH]; simpl; done. Qed.

Lemma split_from_gap (n : nat) (tok s : string) :
  String.eqb tok "" = false ->
  split_from tok (spaces n +:+ String " " s) = tok :: split_from "" s.
Proof.
  intros Htok. destruct n as [|n]; simpl; rewrite Htok; [done|].
  f_equal. change (String " " s) with (spaces 1 +:+ s).
  by rewrite !split_from_spaces.
Qed.

Lemma is_token_nonempty (t : string) :
  is_token t = true -> String.eqb t "" = false /\ no_space t = true.
Proof.
  unfold is_token. rewrite andb_true_iff, negb_true_iff. tauto.
Qed.

(** A line of a token and three right-justified numbers splits into them. *)
Lemma split_fields (elem fx fy fz : string) (a b c d : nat) :
  is_token elem = true -> is_token fx = true ->
  is_token fy = true -> is_token fz = true ->
  split ((elem +:+ spaces a) +:+ "  " +:+ (spaces b +:+ fx) +:+ "  "
         +:+ (spaces c +:+ fy) +:+ "  " +:+ (spaces d +:+ fz))
  = [elem; fx; fy; fz].
Proof.
  intros [He He']%is_token_nonempty [Hx Hx']%is_token_nonempty
         [Hy Hy']%is_token_nonempty [Hz Hz']%is_token_nonempty.
  unfold split. rewrite !append_assoc.
  rewrite (split_from_token elem) by done. simpl.
  rewrite split_from_gap by done. simpl. f_equal.
  rewrite split_from_spaces, (split_from_token fx) by done. simpl.
  rewrite Hx. f_equal.
  rewrite split_from_spaces, (split_from_token fy) by done. simpl.
  rewrite Hy. f_equal.
  rewrite split_from_spaces.
  pose proof (split_from_token fz "" "" Hz') as Hlast.
  rewrite append_empty_r in Hlast. rewrite Hlast. simpl. by rewrite Hz.
Qed.

(** A line that strips to nothing has no token. *)
Lemma lstrip_head (s t : string) (c : ascii) :
  lstrip s = String c t -> is_space c = false.
Proof.
  induction s as [|x s IH]; simpl; [done|].
  destruct (is_space x) eqn:Hx; [done|]. by intros [= <- _].
Qed.

Lemma lstrip_empty (s : string) : lstrip s = "" -> split_from "" s = [].
Proof.
  induction s as [|x s IH]; simpl; [done|].
  by destruct (is_space x).
Qed.

Lemma rstrip_head (t : string) (c : ascii) :
  rstrip (String c t) = "" -> is_space c = true.
Proof. simpl. destruct (rstrip t); [|done]. by destruct (is_space c). Qed.

Lemma strip_empty_split (s : string) : strip s = "" -> split s = [].
Proof.
  unfold strip, split. destruct (lstrip s) as [|c t] eqn:Hs.
  - intros _. by apply lstrip_empty.
  - intros Hc%rstrip_head. apply lstrip_head in Hs. congruence.
Qed.

(** ** The reader *)

Section Reader.
Context `{PyBuiltins}.
Implicit Types (elements : list string) (coords : list point).

Lemma is_Ok_Raise {A} (e : exn) : ~ is_Ok (@Raise A e).
Proof. by intros [a Ha]. Qed.

Lemma parse_float_Ok (s : string) (x : float) :
  parse_float s = Ok x <-> py_float s = Some x.
Proof. unfold parse_float. destruct (py_float s); split; congruence. Qed.

(** One atom line: skipped when blank, appended to both lists otherwise. *)
Lemma read_atom_spec line elements coords elements' coords' :
  read_atom line (elements, coords) = Ok (elements', coords') ->
  (strip line = "" /\ elements' = elements /\ coords' = coords)
  \/ (exists elem sx sy sz rest x y z,
        split line = elem :: sx :: sy :: sz :: rest
        /\ py_float sx = Some x /\ py_float sy = Some y
        /\ py_float sz = Some z
        /\ elements' = elements ++ [elem]
        /\ coords' = coords ++ [(x, y, z)]).
Proof.
  unfold read_atom. destruct (String.eqb_spec (strip line) "") as [Hb|Hb].
  - intros [= <- <-]. by left.
  - destruct (split line) as [|elem [|sx [|sy [|sz rest]]]]; simpl; try done.
    intros Hrun. right.
    apply bind_Ok in Hrun as (x & Hx%parse_float_Ok & Hrun).
    apply bind_Ok in Hrun as (y & Hy%parse_float_Ok & Hrun).
    apply bind_Ok in Hrun as (z & Hz%parse_float_Ok & Hrun).
    injection Hrun as <- <-. by exists elem, sx, sy, sz, rest, x, y, z.
Qed.

Lemma read_atom_Ok line acc :
  is_Ok (read_atom line acc) <-> good_atom_line line = true.
Proof.
  destruct acc as [elements coords]. unfold read_atom, good_atom_line.
  destruct (String.eqb (strip line) ""); simpl; [split; [done|]; by eexists|].
  destruct (split line) as [|elem [|sx [|sy [|sz rest]]]]; simpl;
    try (split; [by intros [? ?]|done]).
  unfold parse_float, is_number.
  destruct (py_float sx) as [x|]; simpl; [|split; [by intros [? ?]|done]].
  destruct (py_float sy) as [y|]; simpl; [|split; [by intros [? ?]|done]].
  destruct (py_float sz) as [z|]; simpl; [|split; [by intros [? ?]|done]].
  split; [done|]. by eexists.
Qed.

Lemma read_atoms_Ok (l : list string) acc :
  is_Ok (for_loop read_atom l acc)
  <-> Forall (fun line => good_atom_line line = true) l.
Proof.
  revert acc. induction l as [|line l IH]; intros acc; simpl.
  - split; [constructor|]. intros _. by eexists.
  - rewrite Forall_cons, <- (read_atom_Ok line acc).
    destruct (read_atom line acc) as [acc'|e] eqn:Hline; simpl.
    + rewrite IH. split; [by intros; split; [eexists|]|tauto].
    + split; [by intros [? ?]|]. intros [[? ?] _]. done.
Qed.

(** The structure read: as many coordinates as elements, every element a
    token. *)
Lemma read_atoms_shape (l : list string) elements coords elements' coords' :
  for_loop read_atom l (elements, coords) = Ok (elements', coords') ->
  length coords = length elements ->
  Forall (fun t => is_token t = true) elements ->
  length coords' = length elements'
  /\ Forall (fun t => is_token t = true) elements'.
Proof.
  revert elements coords.
  induction l as [|line l IH]; intros elements coords; simpl.
  - by intros [= <- <-].
  - intros Hrun Hlen Htok.
    apply bind_Ok in Hrun as ([e1 c1] & Hline & Hrun).
    apply (IH _ _ Hrun);
      apply read_atom_spec in Hline
        as [(_ & -> & ->)|(elem & sx & sy & sz & rest & x & y & z
                           & Hsplit & _ & _ & _ & -> & ->)]; try done.
    + rewrite !length_app. simpl. lia.
    + apply Forall_app. split; [done|]. constructor; [|constructor].
      pose proof (split_tokens line) as Hall. rewrite Hsplit in Hall.
      by apply Forall_cons in Hall as [? _].
Qed.

Lemma read_xyz_lines_shape lines elements coords comment extra_lines :
  read_xyz_lines lines = Ok (elements, coords, comment, extra_lines) ->
  length coords = length elements
  /\ Forall (fun t => is_token t = true) elements.
Proof.
  unfold read_xyz_lines. destruct (length lines <? 2)%nat; [done|].
  intros Hrun. apply bind_Ok in Hrun as (n_atoms & _ & Hrun).
  destruct (_ <? _)%Z; [done|].
  apply bind_Ok in Hrun as ([e c] & Hloop & Hrun).
  injection Hrun as <- <- _ _. by apply read_atoms_shape in Hloop.
Qed.

Lemma slice_bound_nonneg (len : nat) (k : nat) :
  slice_bound len (Z.of_nat k) = Nat.min k len.
Proof.
  unfold slice_bound.
  destruct (Z.ltb_spec (Z.of_nat k) 0) as [Hneg|_]; lia.
Qed.

Lemma slice_atoms {A} (l : list A) (n : nat) :
  2 <= length l ->
  slice l 2 (2 + Z.of_nat n) = take (Nat.min n (length l - 2)) (drop 2 l).
Proof.
  intros Hlen. unfold slice.
  replace 2%Z with (Z.of_nat 2) by done. rewrite <- Nat2Z.inj_add.
  rewrite !slice_bound_nonneg.
  replace (Nat.min 2 (length l)) with 2 by lia. f_equal. lia.
Qed.

Lemma slice_from_atoms {A} (l : list A) (n : nat) :
  slice_from l (2 + Z.of_nat n) = drop (2 + n) l.
Proof.
  unfold slice_from. replace 2%Z with (Z.of_nat 2) by done.
  rewrite <- Nat2Z.inj_add, slice_bound_nonneg.
  destruct (Nat.min_spec (2 + n) (length l)) as [[_ ->]|[Hle ->]]; [done|].
  by rewrite !drop_ge by lia.
Qed.

(** The reader raises nothing but [ValueError]. *)
Lemma read_atom_raises line acc e :
  read_atom line acc = Raise e -> exists v, e = ValueError v.
Proof.
  destruct acc as [elements coords]. unfold read_atom, parse_float.
  destruct (String.eqb (strip line) ""); [done|].
  destruct (length (split line) <? 4)%nat; [intros [= <-]; by eexists|].
  destruct (split line) as [|elem [|sx [|sy [|sz rest]]]];
    try (intros [= <-]; by eexists).
  destruct (py_float sx); simpl; [|intros [= <-]; by eexists].
  destruct (py_float sy); simpl; [|intros [= <-]; by eexists].
  destruct (py_float sz); simpl; [|intros [= <-]; by eexists]. done.
Qed.

Lemma read_atoms_raises (l : list string) acc e :
  for_loop read_atom l acc = Raise e -> exists v, e = ValueError v.
Proof.
  revert acc. induction l as [|line l IH]; intros acc; simpl; [done|].
  destruct (read_atom line acc) as [acc'|e'] eqn:Hline; simpl.
  - apply IH.
  - intros [= <-]. by apply read_atom_raises in Hline.
Qed.

Lemma read_xyz_lines_raises lines e :
  read_xyz_lines lines = Raise e -> exists v, e = ValueError v.
Proof.
  unfold read_xyz_lines, parse_int.
  destruct (length lines <? 2)%nat; [intros [= <-]; by eexists|].
  destruct (py_int _) as [n_atoms|]; simpl; [|intros [= <-]; by eexists].
  destruct (_ <? _)%Z; [intros [= <-]; by eexists|].
  destruct (for_loop read_atom _ _) as [[e1 c1]|e'] eqn:Hloop; simpl; [done|].
  intros [= <-]. by apply read_atoms_raises in Hloop.
Qed.

(** When the first line is a count [n] that is not negative, the reader
    returns exactly when [n] lines follow the comment and each is good. *)
Lemma read_xyz_lines_Ok lines (n : nat) :
  2 <= length lines ->
  py_int (strip (nth 0 lines "")) = Some (Z.of_nat n) ->
  is_Ok (read_xyz_lines lines)
  <-> 2 + n <= length lines
      /\ Forall (fun line => good_atom_line line = true)
           (take n (drop 2 lines)).
Proof.
  intros Hlen Hint. unfold read_xyz_lines, parse_int.
  rewrite (proj2 (Nat.ltb_ge _ _)) by done. rewrite Hint. simpl.
  rewrite slice_atoms by done. rewrite length_take, length_drop.
  destruct (Z.ltb_spec (Z.of_nat (Nat.min (Nat.min n (length lines - 2)) (length lines - 2))) (Z.of_nat n))
    as [Hshort|Hfull].
  - split; [by intros ?%is_Ok_Raise|]. intros [Hle _]. lia.
  - replace (Nat.min n (length lines - 2)) with n by lia.
    rewrite <- (read_atoms_Ok _ ([], [])).
    destruct (for_loop read_atom _ _) as [[e c]|e]; simpl.
    + split; [|by eexists]. intros _. split; [lia|by eexists].
    + split; [by intros ?%is_Ok_Raise|]. by intros [_ ?%is_Ok_Raise].
Qed.

(** Reading back what the writer wrote. *)
Lemma read_atom_written elem x y z elements coords :
  is_token elem = true ->
  point_readable (x, y, z) = true ->
  read_atom (atom_line (elem, (x, y, z))) (elements, coords)
  = Ok (elements ++ [elem], coords ++ [reread_point (x, y, z)]).
Proof.
  intros Helem Hxyz. unfold point_readable, fixed6_readable in Hxyz.
  rewrite !andb_true_iff in Hxyz.
  destruct Hxyz as [[[Hx Hx'] [Hy Hy']] [Hz Hz']].
  assert (split (atom_line (elem, (x, y, z)))
          = [elem; py_fixed6 x; py_fixed6 y; py_fixed6 z]) as Hsplit
    by by apply split_fields.
  unfold read_atom.
  destruct (String.eqb_spec (strip (atom_line (elem, (x, y, z)))) "")
    as [Hblank|_].
  { apply strip_empty_split in Hblank. congruence. }
  rewrite Hsplit. simpl. unfold parse_float, reread, is_number in *.
  destruct (py_float (py_fixed6 x)); [|done].
  destruct (py_float (py_fixed6 y)); [|done].
  by destruct (py_float (py_fixed6 z)).
Qed.

#[local] Arguments atom_line : simpl never.
#[local] Arguments read_atom : simpl never.
#[local] Arguments reread_point : simpl never.

Lemma read_atoms_written elements coords acc_e acc_c :
  length coords = length elements ->
  Forall (fun t => is_token t = true) elements ->
  Forall (fun p => point_readable p = true) coords ->
  for_loop read_atom (map atom_line (zip elements coords)) (acc_e, acc_c)
  = Ok (acc_e ++ elements, acc_c ++ map reread_point coords).
Proof.
  revert coords acc_e acc_c.
  induction elements as [|elem elements IH];
    intros [|[[x y] z] coords] acc_e acc_c Hlen Htok Hread; simpl in *;
    try done.
  - by rewrite !app_nil_r.
  - apply Forall_cons in Htok as [Helem Htok].
    apply Forall_cons in Hread as [Hxyz Hread].
    rewrite read_atom_written by done. simpl.
    rewrite IH by (done || lia). by rewrite <- !app_assoc.
Qed.

End Reader.

(** ** The metal locator *)

Lemma first_metal_found (l : list string) (k m : nat) :
  first_metal (enumerate_from k l) = Some m ->
  exists pre em post,
    l = pre ++ em :: post /\ m = k + length pre
    /\ em ∈ CENTER_METALS /\ Forall (fun e => e ∉ CENTER_METALS) pre.
Proof.
  revert k. induction l as [|e l IH]; intros k; simpl; [done|].
  case_bool_decide as He.
  - intros [= <-]. exists [], e, l. repeat split; [simpl; lia|done|constructor].
  - intros (pre & em & post & -> & -> & Hem & Hpre)%IH.
    exists (e :: pre), em, post. repeat split; [simpl; lia|done|].
    by constructor.
Qed.

Lemma first_metal_at (pre post : list string) (em : string) (k : nat) :
  Forall (fun e => e ∉ CENTER_METALS) pre ->
  em ∈ CENTER_METALS ->
  first_metal (enumerate_from k (pre ++ em :: post)) = Some (k + length pre).
Proof.
  intros Hpre Hem. revert k.
  induction Hpre as [|e pre He Hpre IH]; intros k; simpl.
  - rewrite bool_decide_eq_true_2 by done. f_equal. lia.
  - rewrite bool_decide_eq_false_2 by done. rewrite IH. f_equal. lia.
Qed.

Lemma find_metal_center_lookup elements coords m :
  find_metal_center elements coords = Some m ->
  exists em, (elements !! m = Some em) /\ (em ∈ CENTER_METALS).
Proof.
  intros (pre & em & post & -> & -> & Hem & _)%first_metal_found.
  exists em. split; [|done]. by rewrite list_lookup_middle.
Qed.

Lemma carbon_oxygen_not_metal :
  ("C" ∉ CENTER_METALS) /\ ("O" ∉ CENTER_METALS).
Proof. split; by vm_compute. Qed.

(** ** The pipeline *)

Section Pipeline.
Context `{PyBuiltins}.
Implicit Types (elements : list string) (coords : list point).
Implicit Types (fs : filesystem) (path comment : string).

Lemma read_xyz_shape fs path elements coords comment extra_lines :
  read_xyz fs path = Ok (elements, coords, comment, extra_lines) ->
  length coords = length elements
  /\ Forall (fun t => is_token t = true) elements.
Proof.
  unfold read_xyz. destruct (fs !! path); [|done].
  apply read_xyz_lines_shape.
Qed.

(** The detector never raises inside the pipeline. *)
Lemma pipeline_detects fs path elements coords comment extra_lines m :
  read_xyz fs path = Ok (elements, coords, comment, extra_lines) ->
  find_metal_center elements coords = Some m ->
  find_CO_pairs elements coords (Some m)
  = Ok (detected elements coords (Some m)).
Proof.
  intros [Hlen _]%read_xyz_shape (em & Hm & _)%find_metal_center_lookup.
  apply find_CO_pairs_total; [done|]. intros ? [= <-].
  by apply lookup_lt_Some in Hm.
Qed.

(** What the pairs of the detector are. *)
Lemma detected_pair elements coords metal_index p :
  p ∈ detected elements coords metal_index ->
  p.1 < length elements /\ p.2 < length elements
  /\ elements !! p.1 = Some "C" /\ elements !! p.2 = Some "O"
  /\ p.1 <> p.2.
Proof.
  intros [Hc Ho]%detected_accepts%accepts_carbon.
  repeat split; try done; try by eapply lookup_lt_Some.
  intros Heq. rewrite Heq in Hc. congruence.
Qed.

(** The run of [process_xyz_file] on a structure with two pairs or more. *)
Lemma process_completed fs path elements coords comment extra_lines m
    p1 p2 rest :
  read_xyz fs path = Ok (elements, coords, comment, extra_lines) ->
  find_metal_center elements coords = Some m ->
  find_CO_pairs elements coords (Some m) = Ok (p1 :: p2 :: rest) ->
  process_xyz_file path fs
  = let kept := survivors elements coords (delete_set [p1; p2]) in
    {| run_fs := <[output_path path :=
                     write_xyz_lines kept.*1 kept.*2 comment extra_lines]> fs;
       run_calls := [CallRead path; CallFindMetal; CallFindCO;
                     CallWrite (output_path path)];
       run_report := Completed (length elements) (length kept) 2
                       (output_path path) |}.
Proof.
  intros Hread Hmetal Hpairs. unfold process_xyz_file.
  rewrite Hread.
  destruct elements as [|e elements]; [done|].
  cbn [length Nat.eqb]. rewrite Hmetal, Hpairs.
  cbn [length Nat.ltb Nat.leb take].
  rewrite kept_atoms_survivors. unfold write_xyz.
  by rewrite length_fmap.
Qed.

(** No exception leaves [process_xyz_file]: the detector is called on a
    structure as the reader returns it, with the index the locator found. *)
Lemma process_never_raises fs path (e : exn) :
  run_report (process_xyz_file path fs) <> Uncaught e.
Proof.
  unfold process_xyz_file.
  destruct (read_xyz fs path) as [[[[elements coords] comment] extra]|e']
    eqn:Hread; [|done].
  destruct (length elements =? 0)%nat; [done|].
  destruct (find_metal_center elements coords) as [m|] eqn:Hmetal; [|done].
  rewrite (pipeline_detects _ _ _ _ _ _ _ Hread Hmetal).
  destruct (_ <? 2)%nat; [done|].
  destruct (kept_atoms _ _ _). done.
Qed.

End Pipeline.

Lemma size_three (a b c : nat) :
  a <> b -> a <> c -> b <> c -> size ({[a; b; c]} : gset nat) = 3.
Proof.
  intros Hab Hac Hbc.
  rewrite !size_union, !size_singleton by set_solver. done.
Qed.

Lemma size_four (a b c d : nat) :
  a <> b -> a <> c -> a <> d -> b <> c -> b <> d -> c <> d ->
  size ({[a; b; c; d]} : gset nat) = 4.
Proof.
  intros. rewrite !size_union, !size_singleton by set_solver. done.
Qed.

(** The indices of two distinct carbon-oxygen pairs are four, or three when
    the pairs share their carbon or their oxygen. *)
Lemma size_two_pairs (c1 o1 c2 o2 : nat) :
  c1 <> o1 -> c2 <> o2 -> c1 <> o2 -> c2 <> o1 -> (c1, o1) <> (c2, o2) ->
  size ({[c1; o1; c2; o2]} : gset nat)
  = if decide (c1 = c2 \/ o1 = o2) then 3 else 4.
Proof.
  intros H1 H2 H3 H4 Hne. case_decide as Hshare.
  - destruct Hshare as [<-| <-].
    + assert (o1 <> o2) by congruence.
      replace ({[c1; o1; c1; o2]} : gset nat) with ({[c1; o1; o2]} : gset nat)
        by set_solver.
      by apply size_three.
    + assert (c1 <> c2) by congruence.
      replace ({[c1; o1; c2; o1]} : gset nat) with ({[c1; o1; c2]} : gset nat)
        by set_solver.
      by apply size_three.
  - apply size_four; intuition congruence.
Qed.

(** ** The claims *)

Section Claims.
Context `{PyBuiltins}.
Implicit Types (elements : list string) (coords : list point).
Implicit Types (fs : filesystem) (path comment : string).
Implicit Types (metal_index : option nat).

Lemma accepts_iff elements coords metal_index (i j : nat) :
  accepts elements coords metal_index (i, j) = true
  <-> exists ci cj,
        elements !! i = Some "C" /\ elements !! j = Some "O"
        /\ coords !! i = Some ci /\ coords !! j = Some cj
        /\ (CO_BOND_MIN <=? distance ci cj)%float = true
        /\ (distance ci cj <=? CO_BOND_MAX)%float = true
        /\ near_metal coords metal_index ci.
Proof.
  unfold accepts, near_metal, co_bond_ok. simpl. split.
  - destruct (elements !! i) as [ei|]; [|done].
    destruct (elements !! j) as [ej|]; [|done].
    destruct (coords !! i) as [ci|]; [|done].
    destruct (coords !! j) as [cj|]; [|done].
    rewrite !andb_true_iff.
    intros [[[->%String.eqb_eq ->%String.eqb_eq] [Hmin Hmax]] Hmetal].
    exists ci, cj. repeat split; try done.
    intros m ->. destruct (coords !! m) as [cm|]; [|done]. by exists cm.
  - intros (ci & cj & -> & -> & -> & -> & Hmin & Hmax & Hmetal).
    rewrite Hmin, Hmax. simpl. destruct metal_index as [m|]; [|done].
    by destruct (Hmetal m eq_refl) as (cm & -> & ->).
Qed.

(** C3. On a structure in range, where no square raises [OverflowError],
    the detector returns, and a pair [(i, j)] is in its result exactly when
    atom [i] is a carbon, atom [j] an oxygen, their computed distance [d]
    satisfies [CO_BOND_MIN <= d <= CO_BOND_MAX] and, when a metal index is
    given, the computed carbon-metal distance is at most [M_C_MAX]. The
    bounds are inclusive: with the metal test passed, a carbon-oxygen pair
    whose computed distance is 1.00 or 1.30 is in the result, one at 0.999
    or 1.301 is not. *)
Theorem find_CO_pairs_thresholds elements coords metal_index :
  length coords = length elements ->
  (forall m, metal_index = Some m -> m < length elements) ->
  in_range coords = true ->
  exists pairs,
    find_CO_pairs elements coords metal_index = Ok pairs
    /\ (forall i j,
          (i, j) ∈ pairs
          <-> exists ci cj,
                elements !! i = Some "C" /\ elements !! j = Some "O"
                /\ coords !! i = Some ci /\ coords !! j = Some cj
                /\ (CO_BOND_MIN <=? distance ci cj)%float = true
                /\ (distance ci cj <=? CO_BOND_MAX)%float = true
                /\ near_metal coords metal_index ci)
    /\ (forall i j ci cj,
          elements !! i = Some "C" -> elements !! j = Some "O" ->
          coords !! i = Some ci -> coords !! j = Some cj ->
          near_metal coords metal_index ci ->
          (distance ci cj = 1.00%float \/ distance ci cj = 1.30%float ->
           (i, j) ∈ pairs)
          /\ (distance ci cj = 0.999%float \/ distance ci cj = 1.301%float ->
              (i, j) ∉ pairs)).
Proof.
  intros Hlen Hm _. exists (detected elements coords metal_index).
  split; [by apply find_CO_pairs_total|].
  assert (forall i j, (i, j) ∈ detected elements coords metal_index
          <-> exists ci cj,
                elements !! i = Some "C" /\ elements !! j = Some "O"
                /\ coords !! i = Some ci /\ coords !! j = Some cj
                /\ (CO_BOND_MIN <=? distance ci cj)%float = true
                /\ (distance ci cj <=? CO_BOND_MAX)%float = true
                /\ near_metal coords metal_index ci) as Hiff.
  { intros i j. by rewrite detected_accepts, accepts_iff. }
  split; [done|]. intros i j ci cj Hi Hj Hci Hcj Hnear. split.
  - intros Hd. apply Hiff. exists ci, cj. repeat split; try done;
      destruct Hd as [-> | ->]; by vm_compute.
  - intros Hd (ci' & cj' & _ & _ & Hci' & Hcj' & Hmin & Hmax & _)%Hiff.
    rewrite Hci in Hci'. rewrite Hcj in Hcj'.
    injection Hci' as <-. injection Hcj' as <-.
    destruct Hd as [Hd | Hd]; rewrite Hd in Hmin, Hmax;
      vm_compute in Hmin, Hmax; discriminate.
Qed.

(** C6. On a structure (as many coordinates as elements, the metal index
    one of its atoms) in range, where no square raises [OverflowError], the
    detector returns, and what it returns is the list of the accepted index
    pairs in scan order: carbon index ascending, then oxygen index
    ascending. Every pair the distance tests accept is in the result. *)
Theorem find_CO_pairs_scan_order elements coords metal_index :
  length coords = length elements ->
  (forall m, metal_index = Some m -> m < length elements) ->
  in_range coords = true ->
  exists pairs,
    find_CO_pairs elements coords metal_index = Ok pairs
    /\ pairs = List.filter (accepts elements coords metal_index)
                 (scan_order (length elements))
    /\ StronglySorted scan_lt pairs
    /\ (forall p, accepts elements coords metal_index p = true -> p ∈ pairs).
Proof.
  intros Hlen Hm _. exists (detected elements coords metal_index).
  split; [by apply find_CO_pairs_total|]. split; [done|].
  split; [apply detected_sorted|]. intros p. apply detected_accepts.
Qed.

(** C9. Every pair the detector returns is well-formed: both indices are
    indices of the element sequence, the first is a carbon and the second
    an oxygen, so they differ; and no two returned pairs have the same
    sorted key. *)
Theorem find_CO_pairs_well_formed elements coords metal_index pairs :
  find_CO_pairs elements coords metal_index = Ok pairs ->
  Forall (fun p : nat * nat =>
            p.1 < length elements /\ p.2 < length elements
            /\ elements !! p.1 = Some "C" /\ elements !! p.2 = Some "O"
            /\ p.1 <> p.2) pairs
  /\ NoDup (sorted_key <$> pairs).
Proof.
  intros ->%find_CO_pairs_spec. split; [|apply detected_keys_NoDup].
  apply Forall_forall. intros p. apply detected_pair.
Qed.

(** What the run deletes: the indices of the first two pairs, which the
    detector returned, so each is a carbon or an oxygen of the structure. *)
Lemma first_two_pairs elements coords metal_index p1 p2 rest :
  find_CO_pairs elements coords metal_index = Ok (p1 :: p2 :: rest) ->
  p1 ∈ detected elements coords metal_index
  /\ p2 ∈ detected elements coords metal_index
  /\ p1 <> p2.
Proof.
  intros Hrun. pose proof (find_CO_pairs_spec _ _ _ _ Hrun) as Hspec.
  pose proof (detected_sorted elements coords metal_index) as Hsort.
  rewrite <- Hspec in *. split; [by left|]. split; [by right; left|].
  apply StronglySorted_inv in Hsort as [_ Hlt].
  apply Forall_cons in Hlt as [Hlt _]. intros ->.
  by apply scan_lt_irrefl in Hlt.
Qed.

Lemma survivors_lookup elements coords (D : gset nat) (a : string * point) :
  a ∈ survivors elements coords D
  <-> exists i, (i ∉ D) /\ elements !! i = Some a.1 /\ coords !! i = Some a.2.
Proof.
  unfold survivors. rewrite list_elem_of_fmap. split.
  - intros ([i a'] & -> & [Hi Hin]%list_elem_of_filter).
    apply enumerate_spec in Hin. apply lookup_zip_with_Some in Hin
      as (e & c & -> & He & Hc). by exists i.
  - intros (i & Hi & He & Hc). exists (i, a). split; [done|].
    apply list_elem_of_filter. split; [done|]. apply enumerate_spec.
    apply lookup_zip_with_Some. exists a.1, a.2. by destruct a.
Qed.

Lemma enumerate_from_snd {A} (k : nat) (l : list A) :
  (enumerate_from k l).*2 = l.
Proof. revert k. induction l as [|x l IH]; intros k; simpl; by f_equal. Qed.

Lemma survivors_sublist elements coords (D : gset nat) :
  survivors elements coords D `sublist_of` zip elements coords.
Proof.
  unfold survivors.
  rewrite <- (enumerate_from_snd 0 (zip elements coords)) at 2.
  apply fmap_sublist, sublist_filter.
Qed.

(** The survivors around an atom that is kept. *)
Lemma survivors_around (pre post : list string) (em : string) coords
    (cm : point) (D : gset nat) :
  length coords = length (pre ++ em :: post) ->
  coords !! length pre = Some cm ->
  length pre ∉ D ->
  exists before after,
    survivors (pre ++ em :: post) coords D = before ++ (em, cm) :: after
    /\ Forall (fun a : string * point => a.1 ∈ pre) before.
Proof.
  intros Hlen Hcm HD. apply take_drop_middle in Hcm as Hsplit.
  assert (length (take (length pre) coords) = length pre) as Hpre.
  { rewrite length_take. rewrite length_app in Hlen. lia. }
  unfold survivors, enumerate. rewrite <- Hsplit.
  rewrite zip_with_app by done. cbn [zip_with].
  rewrite enumerate_from_app, filter_app. cbn [enumerate_from].
  rewrite filter_cons, length_zip_with, Hpre.
  replace (0 + length pre `min` length pre) with (length pre) by lia.
  cbn [fst]. rewrite decide_True by done. rewrite fmap_app, fmap_cons.
  eexists _, _. split; [done|].
  apply Forall_forall. intros a ([i a'] & -> & [_ Hin]%list_elem_of_filter)
    %list_elem_of_fmap.
  apply enumerate_from_spec in Hin as [_ Hin].
  apply lookup_zip_with_Some in Hin as (e & c & -> & He & _).
  by eapply list_elem_of_lookup_2.
Qed.

(** C4. When the detector yields two pairs or more, the run writes the
    structure of the atoms whose index is in neither of the first two
    pairs: exactly those atoms, in the order they have in the input. *)
Theorem removal_keeps_other_atoms fs path elements coords comment
    extra_lines m p1 p2 rest :
  read_xyz fs path = Ok (elements, coords, comment, extra_lines) ->
  find_metal_center elements coords = Some m ->
  find_CO_pairs elements coords (Some m) = Ok (p1 :: p2 :: rest) ->
  let D : gset nat := {[p1.1; p1.2; p2.1; p2.2]} in
  let kept :=
    (filter (fun ia : nat * (string * point) => ia.1 ∉ D)
       (enumerate (zip elements coords))).*2 in
  process_xyz_file path fs
  = {| run_fs := <[output_path path :=
                     write_xyz_lines kept.*1 kept.*2 comment extra_lines]> fs;
       run_calls := [CallRead path; CallFindMetal; CallFindCO;
                     CallWrite (output_path path)];
       run_report := Completed (length elements) (length kept) 2
                       (output_path path) |}
  /\ (forall a, a ∈ kept
        <-> exists i, (i ∉ D) /\ elements !! i = Some a.1
                      /\ coords !! i = Some a.2)
  /\ kept `sublist_of` zip elements coords.
Proof.
  intros Hread Hmetal Hpairs D kept.
  rewrite (process_completed _ _ _ _ _ _ _ _ _ _ Hread Hmetal Hpairs).
  rewrite delete_set_two. fold D. split; [done|].
  split; [apply survivors_lookup|apply survivors_sublist].
Qed.

(** C1, as the code has it. When the detector yields two pairs or more,
    the structure written has the input's atoms less the distinct indices
    of the first two pairs: four atoms fewer when the two pairs share no
    atom, three fewer when they share their carbon or their oxygen. *)
Theorem deletion_count fs path elements coords comment extra_lines m
    p1 p2 rest :
  read_xyz fs path = Ok (elements, coords, comment, extra_lines) ->
  find_metal_center elements coords = Some m ->
  find_CO_pairs elements coords (Some m) = Ok (p1 :: p2 :: rest) ->
  exists new_elements new_coords,
    run_fs (process_xyz_file path fs) !! output_path path
    = Some (write_xyz_lines new_elements new_coords comment extra_lines)
    /\ length new_coords = length new_elements
    /\ run_report (process_xyz_file path fs)
       = Completed (length elements) (length new_elements) 2
           (output_path path)
    /\ length new_elements
       = length elements - size ({[p1.1; p1.2; p2.1; p2.2]} : gset nat)
    /\ size ({[p1.1; p1.2; p2.1; p2.2]} : gset nat) <= length elements
    /\ (p1.1 <> p2.1 /\ p1.2 <> p2.2 ->
        length new_elements = length elements - 4)
    /\ (p1.1 = p2.1 \/ p1.2 = p2.2 ->
        length new_elements = length elements - 3).
Proof.
  intros Hread Hmetal Hpairs.
  rewrite (process_completed _ _ _ _ _ _ _ _ _ _ Hread Hmetal Hpairs).
  cbn zeta. rewrite delete_set_two.
  set (D := ({[p1.1; p1.2; p2.1; p2.2]} : gset nat)).
  exists (survivors elements coords D).*1, (survivors elements coords D).*2.
  cbn [run_fs run_report]. rewrite lookup_insert_eq, !length_fmap.
  destruct (read_xyz_shape _ _ _ _ _ _ Hread) as [Hlen _].
  destruct (first_two_pairs _ _ _ _ _ _ Hpairs) as (Hp1 & Hp2 & Hne).
  apply detected_pair in Hp1 as (Hc1 & Ho1 & Hec1 & Heo1 & Hco1).
  apply detected_pair in Hp2 as (Hc2 & Ho2 & Hec2 & Heo2 & Hco2).
  assert (forall i, i ∈ D -> i < length elements) as HD.
  { intros i. unfold D. rewrite !elem_of_union, !elem_of_singleton.
    intros [[[->| ->]| ->]| ->]; done. }
  assert (size D = if decide (p1.1 = p2.1 \/ p1.2 = p2.2) then 3 else 4)
    as Hsize.
  { destruct p1 as [c1 o1], p2 as [c2 o2]. simpl in *.
    apply size_two_pairs; congruence. }
  assert (size D <= length elements) as Hle.
  { rewrite <- (length_seq (length elements) 0).
    rewrite <- (size_list_to_set (C:=gset nat)) by apply NoDup_seq.
    apply subseteq_size. intros i Hi%HD.
    apply elem_of_list_to_set, elem_of_seq. lia. }
  rewrite survivors_length by done.
  repeat split; try done.
  - intros [? ?]. rewrite Hsize. case_decide; [tauto|done].
  - intros ?. rewrite Hsize. by case_decide.
Qed.

(** C8. In a completed run every deleted index is a carbon or an oxygen
    of the structure, neither label is in the metal whitelist, so the metal
    found is not deleted: it is in the structure written, with its
    coordinates, and it is still the first whitelisted atom there. *)
Theorem metal_center_survives fs path elements coords comment extra_lines m
    p1 p2 rest :
  read_xyz fs path = Ok (elements, coords, comment, extra_lines) ->
  find_metal_center elements coords = Some m ->
  find_CO_pairs elements coords (Some m) = Ok (p1 :: p2 :: rest) ->
  ("C" ∉ CENTER_METALS) /\ ("O" ∉ CENTER_METALS)
  /\ (forall d, d ∈ delete_set (take 2 (p1 :: p2 :: rest)) ->
        elements !! d = Some "C" \/ elements !! d = Some "O")
  /\ (m ∉ delete_set (take 2 (p1 :: p2 :: rest)))
  /\ exists new_elements new_coords k,
       run_fs (process_xyz_file path fs) !! output_path path
       = Some (write_xyz_lines new_elements new_coords comment extra_lines)
       /\ find_metal_center new_elements new_coords = Some k
       /\ is_Some (elements !! m)
       /\ new_elements !! k = elements !! m
       /\ new_coords !! k = coords !! m.
Proof.
  intros Hread Hmetal Hpairs.
  destruct carbon_oxygen_not_metal as [HC HO].
  split; [done|]. split; [done|]. cbn [take].
  destruct (first_two_pairs _ _ _ _ _ _ Hpairs) as (Hp1 & Hp2 & _).
  apply detected_pair in Hp1 as (_ & _ & Hec1 & Heo1 & _).
  apply detected_pair in Hp2 as (_ & _ & Hec2 & Heo2 & _).
  assert (forall d, d ∈ delete_set [p1; p2] ->
            elements !! d = Some "C" \/ elements !! d = Some "O") as Hdel.
  { intros d. rewrite delete_set_two, !elem_of_union, !elem_of_singleton.
    intros [[[->| ->]| ->]| ->]; auto. }
  split; [done|].
  destruct (read_xyz_shape _ _ _ _ _ _ Hread) as [Hlen _].
  pose proof Hmetal as (pre & em & post & -> & -> & Hem & Hpre)
    %first_metal_found.
  assert ((pre ++ em :: post) !! (0 + length pre) = Some em) as Hlook
    by by rewrite list_lookup_middle.
  assert (0 + length pre ∉ delete_set [p1; p2]) as Hkeep.
  { intros [Hd|Hd]%Hdel; rewrite Hlook in Hd; congruence. }
  split; [done|].
  destruct (lookup_lt_is_Some_2 coords (0 + length pre)) as [cm Hcm].
  { rewrite Hlen, length_app. simpl. lia. }
  destruct (survivors_around pre post em coords cm (delete_set [p1; p2]))
    as (before & after & Hsurv & Hbefore); try done.
  rewrite (process_completed _ _ _ _ _ _ _ _ _ _ Hread Hmetal Hpairs).
  cbn zeta. cbn [run_fs]. rewrite lookup_insert_eq, Hsurv.
  eexists _, _, (length before.*1). split; [done|].
  rewrite !fmap_app, !fmap_cons. cbn [fst snd].
  split; [|split; [by eexists|]].
  - apply (first_metal_at _ _ _ 0); [|done].
    apply Forall_fmap. eapply Forall_impl; [exact Hbefore|].
    intros a Ha. cbn. rewrite Forall_forall in Hpre. by apply Hpre.
  - rewrite Hlook, Hcm. split.
    + by rewrite list_lookup_middle.
    + rewrite list_lookup_middle; [done|]. by rewrite !length_fmap.
Qed.

(** C5. When the detector yields fewer than two pairs the run ends with
    the warning, having written nothing: the file system is as it was. *)
Theorem few_pairs_warning fs path elements coords comment extra_lines m
    pairs :
  read_xyz fs path = Ok (elements, coords, comment, extra_lines) ->
  find_metal_center elements coords = Some m ->
  find_CO_pairs elements coords (Some m) = Ok pairs ->
  length pairs < 2 ->
  process_xyz_file path fs
  = {| run_fs := fs;
       run_calls := [CallRead path; CallFindMetal; CallFindCO];
       run_report := WarnedFewCO (length pairs) |}.
Proof.
  intros Hread Hmetal Hpairs Hfew. unfold process_xyz_file.
  rewrite Hread. destruct elements as [|e elements]; [done|].
  cbn [length Nat.eqb]. rewrite Hmetal, Hpairs.
  by rewrite (proj2 (Nat.ltb_lt _ _) Hfew).
Qed.

(** C10. A file that parses to no atom is skipped, with its report and
    nothing written, after the read alone: neither the metal locator nor
    the detector is called. *)
Theorem empty_structure_skipped fs path coords comment extra_lines :
  read_xyz fs path = Ok ([], coords, comment, extra_lines) ->
  process_xyz_file path fs
  = {| run_fs := fs;
       run_calls := [CallRead path];
       run_report := SkippedEmpty |}.
Proof. intros Hread. unfold process_xyz_file. by rewrite Hread. Qed.

(** The atoms read are the lines that are not blank. *)
Lemma read_atoms_count (l : list string) elements coords elements' coords' :
  for_loop read_atom l (elements, coords) = Ok (elements', coords') ->
  length elements'
  = length elements
    + length (List.filter (fun line => negb (String.eqb (strip line) "")) l).
Proof.
  revert elements coords. induction l as [|line l IH];
    intros elements coords; cbn [for_loop List.filter].
  - intros [= <- _]. simpl. lia.
  - intros ([e1 c1] & Hline & Hrun)%bind_Ok. apply IH in Hrun.
    rewrite Hrun. apply read_atom_spec in Hline
      as [(Hb & -> & ->)|(elem & sx & sy & sz & r & x & y & z
                          & Hsplit & _ & _ & _ & -> & ->)].
    + by rewrite Hb.
    + destruct (String.eqb_spec (strip line) "") as [Hb|_].
      * apply strip_empty_split in Hb. congruence.
      * rewrite length_app. simpl. lia.
Qed.

(** C2, as the code has it. The reader fails only with [ValueError]. It
    fails when the file has fewer than two lines, and when [int] rejects
    its first line, stripped. When the first line is a count [n] that is
    not negative, it succeeds exactly when at least [n] lines follow the
    comment line and each of the first [n] of them is blank or has four
    tokens or more, the second to fourth accepted by [float]; the blank
    ones are skipped, so that the atoms read are their non-blank lines. *)
Theorem read_xyz_failure (lines : list string) :
  (forall e, read_xyz_lines lines = Raise e -> exists v, e = ValueError v)
  /\ (length lines < 2 -> ~ is_Ok (read_xyz_lines lines))
  /\ (py_int (strip (nth 0 lines "")) = None ->
      ~ is_Ok (read_xyz_lines lines))
  /\ (forall n : nat,
        2 <= length lines ->
        py_int (strip (nth 0 lines "")) = Some (Z.of_nat n) ->
        (is_Ok (read_xyz_lines lines)
         <-> 2 + n <= length lines
             /\ Forall (fun line => good_atom_line line = true)
                  (take n (drop 2 lines)))
        /\ (forall elements coords comment extra_lines,
              read_xyz_lines lines
              = Ok (elements, coords, comment, extra_lines) ->
              length elements
              = length (List.filter
                          (fun line => negb (String.eqb (strip line) ""))
                          (take n (drop 2 lines)))
              /\ comment = nth 1 lines ""
              /\ extra_lines = drop (2 + n) lines)).
Proof.
  split; [apply read_xyz_lines_raises|].
  split; [|split].
  - intros Hshort. unfold read_xyz_lines.
    rewrite (proj2 (Nat.ltb_lt _ _) Hshort). apply is_Ok_Raise.
  - intros Hint. unfold read_xyz_lines, parse_int. rewrite Hint.
    destruct (_ <? _)%nat; apply is_Ok_Raise.
  - intros n Hlen Hint. split; [by apply read_xyz_lines_Ok|].
    intros elements coords comment extra_lines Hread.
    pose proof (proj1 (read_xyz_lines_Ok lines n Hlen Hint)
                  (ex_intro _ _ Hread)) as [Hn _].
    revert Hread. unfold read_xyz_lines, parse_int.
    rewrite (proj2 (Nat.ltb_ge _ _)) by done. rewrite Hint. cbn [bind].
    rewrite slice_atoms, slice_from_atoms by done.
    replace (Nat.min n (length lines - 2)) with n by lia.
    destruct (_ <? _)%Z; [done|].
    intros ([e c] & Hloop & [= <- <- <- <-])%bind_Ok.
    apply read_atoms_count in Hloop. by rewrite Hloop.
Qed.

(** A coordinate that is written to six decimals and read to a nearest
    number comes back within a millionth of itself. *)
Lemma reread_within (x : float) :
  rounds_to_six x = true -> reads_nearest x = true ->
  within_millionth x (reread x).
Proof.
  unfold rounds_to_six, reads_nearest, within_millionth, reread.
  destruct (float_value x) as [v|]; [|done].
  destruct (millionths (py_fixed6 x)) as [q|]; [|done].
  destruct (py_float (py_fixed6 x)) as [y|]; [|done].
  change (default x (Some y)) with y.
  destruct (float_value y) as [w|]; [|done].
  rewrite !Qle_bool_iff. unfold decimal_gap. intros Hfmt Hread.
  exists v, w. split; [done|]. split; [done|].
  pose proof (Qle_trans _ _ _ Hread Hfmt) as Hread'.
  apply (proj1 (Qabs_Qle_condition _ _)) in Hfmt, Hread'.
  apply (proj2 (Qabs_Qle_condition _ _)).
  set (d := (inject_Z q / 1000000)%Q) in *.
  destruct Hfmt, Hread'. split; lra.
Qed.

(** C7. Writing a structure that was read reproduces it. The lines written
    are the count of its atoms, its comment, one line per atom in order,
    whose tokens are the element and the six-decimal texts of its
    coordinates, and then the trailing lines that were captured, unchanged.
    Read again, they give the same elements in the same order, the same
    comment and trailing lines, and coordinates that are each within a
    millionth of the coordinate written. This holds for a runtime in which
    [int] reads back the count [str] wrote, the six-decimal text of each
    coordinate is one token that denotes a decimal within half a millionth
    of the coordinate, and [float] reads that text to a binary64 number
    nearest to the decimal, as CPython's do on finite coordinates. *)
Theorem write_read_roundtrip (lines : list string) elements coords comment
    extra_lines :
  read_xyz_lines lines = Ok (elements, coords, comment, extra_lines) ->
  py_int (strip (py_str (length elements)))
  = Some (Z.of_nat (length elements)) ->
  forallb point_readable coords = true ->
  forallb point_rounds_to_six coords = true ->
  forallb point_reads_nearest coords = true ->
  let out := write_xyz_lines elements coords comment extra_lines in
  length out = 2 + length elements + length extra_lines
  /\ out !! 0 = Some (py_str (length elements))
  /\ out !! 1 = Some comment
  /\ (forall i elem x y z,
        elements !! i = Some elem -> coords !! i = Some (x, y, z) ->
        exists line,
          out !! (2 + i) = Some line
          /\ split line = [elem; py_fixed6 x; py_fixed6 y; py_fixed6 z])
  /\ drop (2 + length elements) out = extra_lines
  /\ read_xyz_lines out
     = Ok (elements, map reread_point coords, comment, extra_lines)
  /\ Forall2 point_within_millionth coords (map reread_point coords).
Proof.
  intros Hread Hint Hcoords Hrounds Hnearest out.
  destruct (read_xyz_lines_shape _ _ _ _ _ Hread) as [Hlen Htok].
  assert (Forall (fun p => point_readable p = true) coords) as Hreadable.
  { apply Forall_forall. intros p Hp%list_elem_of_In.
    revert p Hp. by apply forallb_forall. }
  assert (length (map atom_line (zip elements coords)) = length elements)
    as Hatoms by (rewrite length_map, length_zip; lia).
  unfold out, write_xyz_lines. cbn [app].
  split; [cbn [length]; rewrite length_app, Hatoms; lia|].
  split; [done|]. split; [done|]. split; [|split; [|split]].
  - intros i elem x y z Hi Hc. exists (atom_line (elem, (x, y, z))). split.
    + change ((?a :: ?b :: ?l) !! (2 + i)) with (l !! i). rewrite lookup_app_l
        by (rewrite Hatoms; by eapply lookup_lt_Some).
      change (map atom_line ?l) with (atom_line <$> l).
      rewrite list_lookup_fmap.
      transitivity (atom_line <$> Some (elem, (x, y, z))); [|done].
      f_equal. apply lookup_zip_with_Some. by exists elem, (x, y, z).
    + rewrite Forall_forall in Htok. rewrite Forall_forall in Hreadable.
      apply list_elem_of_lookup_2 in Hi, Hc. apply Htok in Hi.
      apply Hreadable in Hc. unfold point_readable, fixed6_readable in Hc.
      rewrite !andb_true_iff in Hc.
      destruct Hc as [[[Hx _] [Hy _]] [Hz _]]. by apply split_fields.
  - cbn [plus drop]. by rewrite drop_app_length'.
  - unfold read_xyz_lines, parse_int. cbn [length Nat.ltb Nat.leb nth].
    rewrite Hint. cbn [bind].
    rewrite slice_atoms, slice_from_atoms by (cbn [length]; lia).
    cbn [length Nat.sub drop plus]. rewrite Nat.sub_0_r, length_app, Hatoms.
    replace (Nat.min _ _) with (length elements) by lia.
    rewrite drop_0, take_app_length', drop_app_length' by done.
    rewrite Hatoms. rewrite (proj2 (Z.ltb_ge _ _)) by lia.
    by rewrite read_atoms_written.
  - change (map reread_point coords) with (reread_point <$> coords).
    apply Forall2_fmap_r, Forall_Forall2_diag, Forall_forall.
    intros [[x y] z] Hp%list_elem_of_In.
    pose proof (proj1 (forallb_forall _ _) Hrounds _ Hp) as Hr.
    pose proof (proj1 (forallb_forall _ _) Hnearest _ Hp) as Hn.
    unfold point_rounds_to_six, point_reads_nearest in Hr, Hn.
    rewrite !andb_true_iff in Hr, Hn.
    destruct Hr as [[Hrx Hry] Hrz], Hn as [[Hnx Hny] Hnz].
    unfold point_within_millionth, reread_point.
    repeat split; by apply reread_within.
Qed.

End Claims.

(** ** The reference runtime *)

Section ReferenceRuntime.

(** [round_div n d] is an integer nearest to [n / d]. *)
Lemma round_div_nearest (n d : Z) :
  (0 < d)%Z -> (2 * Z.abs (round_div n d * d - n) <= d)%Z.
Proof.
  intros Hd. unfold round_div.
  pose proof (Z.div_mod n d ltac:(lia)) as Hdiv.
  pose proof (Z.mod_pos_bound n d Hd) as Hmod.
  destruct (Z.ltb_spec (2 * (n mod d)) d).
  - nia.
  - destruct (Z.ltb_spec d (2 * (n mod d))).
    + nia.
    + destruct (Z.even (n / d)); nia.
Qed.

(** The six-decimal text of [m * 2^e] is that of the integer
    [scaled6 m e], which is within one half of [m * 2^e * 10^6]: the text
    denotes a number within [0.0000005] of the one it renders. *)
Lemma scaled6_nearest (m : positive) (e : Z) :
  if (0 <=? e)%Z then scaled6 m e = (Zpos m * 2 ^ e * 10 ^ 6)%Z
  else (2 * Z.abs (scaled6 m e * 2 ^ (- e) - Zpos m * 10 ^ 6)
        <= 2 ^ (- e))%Z.
Proof.
  unfold scaled6. destruct (Z.leb_spec 0 e) as [Hpos|Hneg]; [done|].
  apply round_div_nearest. apply Z.pow_pos_nonneg; lia.
Qed.

Lemma ref_fixed6_finite (x : float) (s : bool) (m : positive) (e : Z) :
  Prim2SF x = S754_finite s m e ->
  ref_fixed6 x = sign_text s +:+ fixed6_of_scaled (scaled6 m e).
Proof. unfold ref_fixed6. by intros ->. Qed.

Lemma digit_value_ascii (d : Z) :
  (0 <= d < 10)%Z -> digit_value (ascii_of_nat (48 + Z.to_nat d)) = Some d.
Proof.
  intros Hd.
  assert (d = 0 \/ d = 1 \/ d = 2 \/ d = 3 \/ d = 4 \/ d = 5 \/ d = 6
          \/ d = 7 \/ d = 8 \/ d = 9)%Z as Hcases by lia.
  repeat (destruct Hcases as [->|Hcases]; [reflexivity|]). by subst.
Qed.

Lemma digits_value_app (s1 s2 : string) (a : Z) :
  digits_value a (s1 +:+ s2)
  = match digits_value a s1 with
    | Some b => digits_value b s2
    | None => None
    end.
Proof.
  revert a. induction s1 as [|c s1 IH]; intros a; simpl; [done|].
  destruct (digit_value c); [apply IH|done].
Qed.

Lemma length_append (s1 s2 : string) :
  String.length (s1 +:+ s2) = String.length s1 + String.length s2.
Proof. induction s1 as [|c s1 IH]; simpl; [done|]. by rewrite IH. Qed.

#[local] Arguments Z.pow : simpl never.
#[local] Arguments Z.of_nat : simpl never.
#[local] Arguments Z.mul : simpl never.
#[local] Arguments Z.add : simpl never.
#[local] Arguments Z.modulo : simpl never.
#[local] Arguments Z.div : simpl never.
#[local] Arguments Z.to_nat : simpl never.
#[local] Arguments ascii_of_nat : simpl never.

Lemma digits_value_one (a d : Z) :
  (0 <= d < 10)%Z ->
  digits_value a (String (ascii_of_nat (48 + Z.to_nat d)) "")
  = Some (10 * a + d)%Z.
Proof. intros Hd. cbn [digits_value]. by rewrite digit_value_ascii. Qed.

(** The digits written for [n] read back as [n], and are as many as [n]
    needs. *)
Lemma digits_of_spec (fuel : nat) (n : Z) (acc : string) :
  (0 <= n < 2 ^ Z.of_nat fuel)%Z -> 1 <= fuel ->
  exists ds,
    digits_of fuel n acc = ds +:+ acc
    /\ 1 <= String.length ds
    /\ (forall a, digits_value a ds
                  = Some (a * 10 ^ Z.of_nat (String.length ds) + n)%Z)
    /\ (n < 10 ^ Z.of_nat (String.length ds))%Z
    /\ (String.length ds = 1
        \/ (10 ^ Z.of_nat (String.length ds - 1) <= n)%Z).
Proof.
  revert n acc. induction fuel as [|fuel IH]; intros n acc Hn Hfuel; [lia|].
  cbn [digits_of].
  pose proof (Z.mod_pos_bound n 10 ltac:(lia)) as Hmod.
  pose proof (Z.div_mod n 10 ltac:(lia)) as Hdiv.
  set (d := String (ascii_of_nat (48 + Z.to_nat (n mod 10)))).
  destruct (Z.ltb_spec n 10) as [Hsmall|Hbig].
  - exists (d ""). unfold d. cbn [String.length].
    change (Z.of_nat 1) with 1%Z. rewrite Z.pow_1_r.
    split; [done|]. split; [lia|]. split; [|split; [lia|by left]].
    intros a. rewrite digits_value_one by lia.
    rewrite Z.mod_small by lia. f_equal. lia.
  - assert (1 <= fuel) as Hfuel'.
    { destruct fuel; [|lia]. change (2 ^ Z.of_nat 1)%Z with 2%Z in Hn. lia. }
    destruct (IH (n / 10)%Z (d acc))
      as (ds & Hds & Hlen & Hval & Hup & Hlow); [|done|].
    { split; [apply Z.div_pos; lia|].
      rewrite Nat2Z.inj_succ, Z.pow_succ_r in Hn by lia.
      apply Z.div_lt_upper_bound; lia. }
    exists (ds +:+ d "").
    rewrite Hds, append_assoc, length_append. unfold d. cbn [String.length].
    replace (String.length ds + 1) with (S (String.length ds)) by lia.
    replace (S (String.length ds) - 1) with (String.length ds) by lia.
    rewrite Nat2Z.inj_succ, Z.pow_succ_r by lia.
    split; [done|]. split; [lia|]. split; [|split].
    + intros a. rewrite digits_value_app, Hval, digits_value_one by lia.
      f_equal. lia.
    + lia.
    + right. destruct Hlow as [Hone|Hlow].
      * rewrite Hone. change (Z.of_nat 1) with 1%Z. rewrite Z.pow_1_r. lia.
      * replace (String.length ds) with (S (String.length ds - 1)) at 1 by lia.
        rewrite Nat2Z.inj_succ, Z.pow_succ_r by lia. lia.
Qed.

Lemma string_of_Z_spec (n : Z) :
  (0 <= n)%Z ->
  unsigned_value (string_of_Z n) = Some n
  /\ (n < 10 ^ Z.of_nat (String.length (string_of_Z n)))%Z
  /\ (String.length (string_of_Z n) = 1
      \/ (10 ^ Z.of_nat (String.length (string_of_Z n) - 1) <= n)%Z).
Proof.
  intros Hn. unfold string_of_Z.
  destruct (digits_of_spec (S (Z.to_nat (Z.log2 n))) n "")
    as (ds & -> & Hlen & Hval & Hup & Hlow); [|lia|].
  { split; [done|]. rewrite Nat2Z.inj_succ, Z2Nat.id by apply Z.log2_nonneg.
    destruct (Z.eq_dec n 0%Z) as [->|Hne]; [reflexivity|].
    apply Z.log2_spec. lia. }
  rewrite append_empty_r. split; [|done].
  unfold unsigned_value. destruct ds as [|c ds]; [cbn in Hlen; lia|].
  rewrite Hval. f_equal.
Qed.

Lemma zeros_spec (k : nat) (s : string) :
  String.length (String.concat "" (repeat "0" k) +:+ s) = k + String.length s
  /\ digits_value 0 (String.concat "" (repeat "0" k) +:+ s)
     = digits_value 0 s.
Proof.
  induction k as [|k [IHl IHv]]; [done|]. destruct k as [|k].
  - split; reflexivity.
  - change (String.concat "" (repeat "0" (S (S k))))
      with (String "0" (String.concat "" (repeat "0" (S k)))).
    cbn [String.append String.length digits_value].
    split; [by rewrite IHl|exact IHv].
Qed.

(** The six-decimal text of a scaled integer [q]: the digits of
    [q / 10^6], a point, and six digits that read as [q mod 10^6]. The text
    denotes [q / 10^6]. *)
Lemma fixed6_of_scaled_spec (q : Z) :
  (0 <= q)%Z ->
  exists ip fp,
    fixed6_of_scaled q = ip +:+ "." +:+ fp
    /\ unsigned_value ip = Some (q / 10 ^ 6)%Z
    /\ String.length fp = 6
    /\ digits_value 0 fp = Some (q mod 10 ^ 6)%Z.
Proof.
  intros Hq. unfold fixed6_of_scaled.
  pose proof (Z.mod_pos_bound q (10 ^ 6) ltac:(lia)) as Hmod.
  destruct (string_of_Z_spec (q / 10 ^ 6)) as (Hip & _ & _);
    [apply Z.div_pos; lia|].
  destruct (string_of_Z_spec (q mod 10 ^ 6)) as (Hfp & Hup & Hlow); [lia|].
  set (frac := string_of_Z (q mod 10 ^ 6)) in *.
  assert (1 <= String.length frac <= 6) as Hlen.
  { split.
    - destruct frac; [discriminate Hfp|cbn [String.length]; lia].
    - destruct Hlow as [->|Hlow]; [lia|].
      destruct (le_gt_dec (String.length frac) 6) as [|Hlong]; [done|].
      assert (10 ^ 6 <= 10 ^ Z.of_nat (String.length frac - 1))%Z
        by (apply Z.pow_le_mono_r; lia).
      lia. }
  eexists _, _. split; [reflexivity|]. split; [done|].
  destruct (zeros_spec (6 - String.length frac) frac) as [-> ->].
  split; [lia|]. unfold unsigned_value in Hfp.
  destruct frac; [done|exact Hfp].
Qed.

Lemma round_div_nonneg (n d : Z) :
  (0 <= n)%Z -> (0 < d)%Z -> (0 <= round_div n d)%Z.
Proof.
  intros Hn Hd. unfold round_div.
  pose proof (Z.div_pos n d Hn Hd).
  repeat destruct (_ <? _)%Z; try destruct (Z.even _); lia.
Qed.

Lemma scaled6_nonneg (m : positive) (e : Z) : (0 <= scaled6 m e)%Z.
Proof.
  unfold scaled6. destruct (Z.leb_spec 0 e).
  - pose proof (Z.pow_nonneg 2 e ltac:(lia)). nia.
  - apply round_div_nonneg; [lia|]. apply Z.pow_pos_nonneg; lia.
Qed.

(** The reference [f"{x:.6f}"] of a finite [x = (-1)^s * m * 2^e]: a sign,
    the digits of an integer part, a point and six digits, which together
    denote [q / 10^6] for an integer [q] within one half of
    [m * 2^e * 10^6]. The text is within [0.0000005] of [|x|]. *)
Lemma ref_fixed6_precision (x : float) (s : bool) (m : positive) (e : Z) :
  Prim2SF x = S754_finite s m e ->
  exists ip fp q,
    ref_fixed6 x = sign_text s +:+ ip +:+ "." +:+ fp
    /\ unsigned_value ip = Some (q / 10 ^ 6)%Z
    /\ String.length fp = 6
    /\ digits_value 0 fp = Some (q mod 10 ^ 6)%Z
    /\ if (0 <=? e)%Z then q = (Zpos m * 2 ^ e * 10 ^ 6)%Z
       else (2 * Z.abs (q * 2 ^ (- e) - Zpos m * 10 ^ 6) <= 2 ^ (- e))%Z.
Proof.
  intros Hx. rewrite (ref_fixed6_finite x s m e Hx).
  destruct (fixed6_of_scaled_spec (scaled6 m e) (scaled6_nonneg m e))
    as (ip & fp & -> & Hip & Hlen & Hfp).
  exists ip, fp, (scaled6 m e). repeat split; try done.
  apply scaled6_nearest.
Qed.

(** The digits read after [a + b] are those read after [a], shifted. *)
Lemma digits_value_shift (s : string) (a b v : Z) :
  digits_value a s = Some v ->
  digits_value (a + b) s
  = Some (v + b * 10 ^ Z.of_nat (String.length s))%Z.
Proof.
  revert a b v. induction s as [|c s IH]; intros a b v; cbn [digits_value].
  - intros [= <-]. f_equal. cbn [String.length]. change (10 ^ Z.of_nat 0)%Z with 1%Z. lia.
  - destruct (digit_value c) as [d|]; [|done]. intros Hv.
    replace (10 * (a + b) + d)%Z with ((10 * a + d) + 10 * b)%Z by lia.
    rewrite (IH _ (10 * b)%Z v Hv). f_equal. cbn [String.length].
    rewrite Nat2Z.inj_succ, Z.pow_succ_r by lia. lia.
Qed.

Lemma digit_not_mark (c : ascii) (d : Z) :
  digit_value c = Some d -> c <> "."%char /\ c <> "-"%char.
Proof. intros Hd. split; intros ->; by vm_compute in Hd. Qed.

Lemma cut_point_cons (c : ascii) (s : string) :
  c <> "."%char ->
  cut_point (String c s) = let '(a, b) := cut_point s in (String c a, b).
Proof.
  intros Hc. destruct c as [[] [] [] [] [] [] [] []]; try reflexivity.
  by destruct Hc.
Qed.

Lemma cut_point_digits (ip rest : string) (a v : Z) :
  digits_value a ip = Some v ->
  cut_point (ip +:+ String "." rest) = (ip, Some rest).
Proof.
  revert a v. induction ip as [|c ip IH]; intros a v; [done|].
  cbn [digits_value]. destruct (digit_value c) as [d|] eqn:Hd; [|done].
  intros Hv. apply digit_not_mark in Hd as [Hd _].
  cbn [String.append]. rewrite cut_point_cons by done.
  by rewrite (IH _ _ Hv).
Qed.

Lemma unsigned_millionths_fixed6 (q : Z) :
  (0 <= q)%Z ->
  unsigned_millionths (fixed6_of_scaled q) = Some q
  /\ exists c rest, fixed6_of_scaled q = String c rest /\ c <> "-"%char.
Proof.
  intros Hq.
  destruct (fixed6_of_scaled_spec q Hq) as (ip & fp & -> & Hip & Hlen & Hfp).
  destruct ip as [|c ip]; [done|]. unfold unsigned_value in Hip.
  split.
  - unfold unsigned_millionths.
    change ("." +:+ fp) with (String "." fp).
    rewrite (cut_point_digits _ fp _ _ Hip), Hlen. cbn [Nat.eqb].
    unfold unsigned_value. cbn [String.append].
    change (String c (ip +:+ fp)) with (String c ip +:+ fp).
    rewrite digits_value_app, Hip.
    pose proof (digits_value_shift fp 0 (q / 10 ^ 6) _ Hfp) as Hshift.
    rewrite Z.add_0_l, Hlen in Hshift. rewrite Hshift. f_equal.
    change (10 ^ Z.of_nat 6)%Z with (10 ^ 6)%Z.
    pose proof (Z.div_mod q (10 ^ 6)) as Hdm. lia.
  - exists c, (ip +:+ "." +:+ fp). split; [done|].
    cbn [digits_value] in Hip. destruct (digit_value c) eqn:Hc; [|done].
    by apply digit_not_mark in Hc as [_ ?].
Qed.

Lemma millionths_unsigned (c : ascii) (rest : string) :
  c <> "-"%char -> millionths (String c rest) = unsigned_millionths (String c rest).
Proof.
  intros Hc. destruct c as [[] [] [] [] [] [] [] []]; try reflexivity.
  by destruct Hc.
Qed.

Lemma millionths_fixed6 (s : bool) (q : Z) :
  (0 <= q)%Z ->
  millionths (sign_text s +:+ fixed6_of_scaled q) = Some (cond_Zopp s q).
Proof.
  intros Hq.
  destruct (unsigned_millionths_fixed6 q Hq) as (Hu & c & rest & Htext & Hc).
  destruct s; cbn [sign_text cond_Zopp String.append].
  - cbn [millionths]. by rewrite Hu.
  - rewrite Htext, millionths_unsigned by done. by rewrite <- Htext.
Qed.

(** The bound on the scaled integer, as a bound on the numbers. *)
Lemma half_millionth (m : positive) (e q : Z) :
  (if (0 <=? e)%Z then q = (Zpos m * 2 ^ e * 10 ^ 6)%Z
   else (2 * Z.abs (q * 2 ^ (- e) - Zpos m * 10 ^ 6) <= 2 ^ (- e))%Z) ->
  (Qabs (inject_Z (Zpos m) * Qpower 2 e - inject_Z q / 1000000)
   <= 1 # 2000000)%Q.
Proof.
  destruct (Z.leb_spec 0 e) as [He|He].
  - intros ->. rewrite <- (Zpower_Qpower 2 e He).
    rewrite !inject_Z_mult.
    assert (inject_Z (Z.pos m) * inject_Z (2 ^ e)
            - inject_Z (Z.pos m) * inject_Z (2 ^ e) * inject_Z (10 ^ 6)
              / 1000000 == 0)%Q as ->; [|done].
    change (inject_Z (10 ^ 6)) with 1000000%Q. field.
  - intros Hq. destruct e as [|p|p]; try lia. clear He.
    change (- Z.neg p)%Z with (Z.pos p) in Hq.
    assert (0 < 2 ^ Z.pos p)%Z as Hpos by (apply Z.pow_pos_nonneg; lia).
    assert (Qpower 2 (Z.neg p) == / inject_Z (2 ^ Z.pos p))%Q as ->.
    { rewrite (Zpower_Qpower 2 (Z.pos p)) by lia. reflexivity. }
    set (P := (2 ^ Z.pos p)%Z) in *.
    assert (0 < inject_Z P)%Q as HP.
    { change 0%Q with (inject_Z 0). by rewrite <- Zlt_Qlt. }
    assert (- inject_Z P
            <= 2 * (inject_Z q * inject_Z P - inject_Z (Z.pos m) * 1000000)
            <= inject_Z P)%Q as [Hlo Hhi].
    { assert (inject_Z (2 * (q * P + - (Z.pos m * 10 ^ 6)))
              == 2 * (inject_Z q * inject_Z P
                      - inject_Z (Z.pos m) * 1000000))%Q as <-.
      { rewrite inject_Z_mult, inject_Z_plus, inject_Z_opp, !inject_Z_mult.
        change (inject_Z (10 ^ 6)) with 1000000%Q.
        change (inject_Z 2) with 2%Q. ring. }
      rewrite <- inject_Z_opp, <- !Zle_Qle. lia. }
    set (u := (inject_Z (Z.pos m) * / inject_Z P)%Q).
    assert (u * inject_Z P == inject_Z (Z.pos m))%Q as Hu.
    { unfold u. field. intros H0. rewrite H0 in HP. by apply Qlt_irrefl in HP. }
    rewrite <- Hu in Hlo, Hhi. fold u.
    assert (2 * (inject_Z q - u * 1000000) <= 1)%Q as H1.
    { apply (Qmult_lt_0_le_reg_r _ _ (inject_Z P) HP). lra. }
    assert (-(1) <= 2 * (inject_Z q - u * 1000000))%Q as H2.
    { apply (Qmult_lt_0_le_reg_r _ _ (inject_Z P) HP). lra. }
    apply Qabs_Qle_condition.
    assert (inject_Z q / 1000000 == inject_Z q * (1 # 1000000))%Q as ->
      by (unfold Qdiv; reflexivity).
    split; lra.
Qed.

(** The six-decimal text of the reference runtime denotes a decimal within
    half a millionth of the number, whatever the number. *)
Lemma ref_rounds_to_six (x : float) :
  finite_float x = true -> @rounds_to_six ref_runtime x = true.
Proof.
  unfold finite_float, rounds_to_six, float_value. cbn [py_fixed6 ref_runtime].
  destruct (Prim2SF x) as [s|s| |s m e] eqn:Hx; try done; intros _.
  - unfold ref_fixed6. rewrite Hx. by destruct s.
  - rewrite (ref_fixed6_finite x s m e Hx).
    rewrite millionths_fixed6 by apply scaled6_nonneg.
    apply Qle_bool_iff. unfold decimal_gap.
    pose proof (half_millionth m e _ (scaled6_nearest m e)) as Hhalf.
    destruct s; cbn [cond_Zopp]; [|done].
    rewrite <- Qabs_opp.
    assert (- (inject_Z (- Z.pos m) * 2 ^ e
               - inject_Z (- scaled6 m e) / 1000000)
            == inject_Z (Z.pos m) * 2 ^ e
               - inject_Z (scaled6 m e) / 1000000)%Q as ->; [|done].
    rewrite !inject_Z_opp. field.
Qed.

End ReferenceRuntime.

(** ** The claims on the example structures

    Each statement below is a claim at a concrete file, under the reference
    runtime. *)

Lemma find_CO_pairs_scan_order_witness :
  exists pairs,
    find_CO_pairs carbonyl_elements carbonyl_coords (Some 0) = Ok pairs
    /\ pairs = List.filter (accepts carbonyl_elements carbonyl_coords (Some 0))
                 (scan_order (length carbonyl_elements))
    /\ StronglySorted scan_lt pairs
    /\ (forall p, accepts carbonyl_elements carbonyl_coords (Some 0) p = true
                  -> p ∈ pairs).
Proof.
  apply (find_CO_pairs_scan_order carbonyl_elements carbonyl_coords (Some 0)).
  - reflexivity.
  - intros m [= <-]. vm_compute. lia.
  - vm_compute. reflexivity.
Defined.

Lemma find_CO_pairs_well_formed_witness :
  Forall (fun p : nat * nat =>
            p.1 < length carbonyl_elements /\ p.2 < length carbonyl_elements
            /\ carbonyl_elements !! p.1 = Some "C"
            /\ carbonyl_elements !! p.2 = Some "O"
            /\ p.1 <> p.2) [(1, 2); (3, 4)]
  /\ NoDup (sorted_key <$> [(1, 2); (3, 4)]).
Proof.
  apply (find_CO_pairs_well_formed carbonyl_elements carbonyl_coords (Some 0)).
  vm_compute. reflexivity.
Defined.

Lemma find_CO_pairs_thresholds_witness :
  exists pairs,
    find_CO_pairs boundary_elements boundary_coords (Some 0) = Ok pairs
    /\ (forall i j,
          (i, j) ∈ pairs
          <-> exists ci cj,
                boundary_elements !! i = Some "C"
                /\ boundary_elements !! j = Some "O"
                /\ boundary_coords !! i = Some ci
                /\ boundary_coords !! j = Some cj
                /\ (CO_BOND_MIN <=? distance ci cj)%float = true
                /\ (distance ci cj <=? CO_BOND_MAX)%float = true
                /\ near_metal boundary_coords (Some 0) ci)
    /\ (forall i j ci cj,
          boundary_elements !! i = Some "C" ->
          boundary_elements !! j = Some "O" ->
          boundary_coords !! i = Some ci -> boundary_coords !! j = Some cj ->
          near_metal boundary_coords (Some 0) ci ->
          (distance ci cj = 1.00%float \/ distance ci cj = 1.30%float ->
           (i, j) ∈ pairs)
          /\ (distance ci cj = 0.999%float \/ distance ci cj = 1.301%float ->
              (i, j) ∉ pairs)).
Proof.
  apply (find_CO_pairs_thresholds boundary_elements boundary_coords (Some 0)).
  - reflexivity.
  - intros m [= <-]. vm_compute. lia.
  - vm_compute. reflexivity.
Defined.

Lemma removal_keeps_other_atoms_witness :
  process_xyz_file "complex.xyz" example_fs
  = {| run_fs :=
         <["complex_d.xyz" :=
             ["1"; "two carbonyls";
              "Ir      0.000000      0.000000      0.000000"; "trailer"]]>
           example_fs;
       run_calls := [CallRead "complex.xyz"; CallFindMetal; CallFindCO;
                     CallWrite "complex_d.xyz"];
       run_report := Completed 5 1 2 "complex_d.xyz" |}.
Proof.
  destruct (removal_keeps_other_atoms example_fs "complex.xyz"
              carbonyl_elements carbonyl_coords "two carbonyls" ["trailer"]
              0 (1, 2) (3, 4) []) as [Hrun _].
  - vm_compute. reflexivity.
  - vm_compute. reflexivity.
  - vm_compute. reflexivity.
  - rewrite Hrun. vm_compute. reflexivity.
Defined.

(** C1 fails as stated. The file has four atoms and the detector yields
    two pairs, [(1, 2)] and [(1, 3)], which share the carbon 1; the
    structure written has one atom, not [4 - 4]. *)
Lemma deletion_count_not_four :
  read_xyz example_fs "dioxide.xyz"
  = Ok (dioxide_elements, dioxide_coords, "one carbon, two oxygens", [])
  /\ find_metal_center dioxide_elements dioxide_coords = Some 0
  /\ find_CO_pairs dioxide_elements dioxide_coords (Some 0)
     = Ok [(1, 2); (1, 3)]
  /\ 2 <= length [(1, 2); (1, 3)]
  /\ run_report (process_xyz_file "dioxide.xyz" example_fs)
     = Completed 4 1 2 "dioxide_d.xyz"
  /\ run_fs (process_xyz_file "dioxide.xyz" example_fs) !! "dioxide_d.xyz"
     = Some ["1"; "one carbon, two oxygens";
             "Ir      0.000000      0.000000      0.000000"]
  /\ 1 <> length dioxide_elements - 4.
Proof. vm_compute. repeat split; (reflexivity || lia || discriminate). Qed.

Lemma deletion_count_witness :
  exists new_elements new_coords,
    run_fs (process_xyz_file "dioxide.xyz" example_fs)
      !! output_path "dioxide.xyz"
    = Some (write_xyz_lines new_elements new_coords
              "one carbon, two oxygens" [])
    /\ length new_coords = length new_elements
    /\ run_report (process_xyz_file "dioxide.xyz" example_fs)
       = Completed (length dioxide_elements) (length new_elements) 2
           (output_path "dioxide.xyz")
    /\ length new_elements
       = length dioxide_elements - size ({[1; 2; 1; 3]} : gset nat)
    /\ size ({[1; 2; 1; 3]} : gset nat) <= length dioxide_elements
    /\ (1 <> 1 /\ 2 <> 3 -> length new_elements = length dioxide_elements - 4)
    /\ (1 = 1 \/ 2 = 3 -> length new_elements = length dioxide_elements - 3).
Proof.
  apply (deletion_count example_fs "dioxide.xyz" dioxide_elements
           dioxide_coords "one carbon, two oxygens" [] 0 (1, 2) (1, 3) []).
  - vm_compute. reflexivity.
  - vm_compute. reflexivity.
  - vm_compute. reflexivity.
Defined.

Lemma metal_center_survives_witness :
  ("C" ∉ CENTER_METALS) /\ ("O" ∉ CENTER_METALS)
  /\ (forall d, d ∈ delete_set (take 2 [(1, 2); (3, 4)]) ->
        carbonyl_elements !! d = Some "C" \/ carbonyl_elements !! d = Some "O")
  /\ (0 ∉ delete_set (take 2 [(1, 2); (3, 4)]))
  /\ exists new_elements new_coords k,
       run_fs (process_xyz_file "complex.xyz" example_fs)
         !! output_path "complex.xyz"
       = Some (write_xyz_lines new_elements new_coords "two carbonyls"
                 ["trailer"])
       /\ find_metal_center new_elements new_coords = Some k
       /\ is_Some (carbonyl_elements !! 0)
       /\ new_elements !! k = carbonyl_elements !! 0
       /\ new_coords !! k = carbonyl_coords !! 0.
Proof.
  apply (metal_center_survives example_fs "complex.xyz" carbonyl_elements
           carbonyl_coords "two carbonyls" ["trailer"] 0 (1, 2) (3, 4) []).
  - vm_compute. reflexivity.
  - vm_compute. reflexivity.
  - vm_compute. reflexivity.
Defined.

Lemma few_pairs_warning_witness :
  process_xyz_file "single.xyz" example_fs
  = {| run_fs := example_fs;
       run_calls := [CallRead "single.xyz"; CallFindMetal; CallFindCO];
       run_report := WarnedFewCO (length [(1, 2)]) |}.
Proof.
  apply (few_pairs_warning example_fs "single.xyz" single_elements
           single_coords "one carbonyl" [] 0 [(1, 2)]).
  - vm_compute. reflexivity.
  - vm_compute. reflexivity.
  - vm_compute. reflexivity.
  - simpl. lia.
Defined.

Lemma empty_structure_skipped_witness :
  process_xyz_file "empty.xyz" example_fs
  = {| run_fs := example_fs;
       run_calls := [CallRead "empty.xyz"];
       run_report := SkippedEmpty |}.
Proof.
  apply (empty_structure_skipped example_fs "empty.xyz" [] "no atom" []).
  vm_compute. reflexivity.
Defined.

Lemma write_read_roundtrip_witness :
  let out := write_xyz_lines rounded_elements rounded_coords
               "more than six decimals" ["tail"] in
  length out = 2 + length rounded_elements + length ["tail"]
  /\ out !! 0 = Some (py_str (length rounded_elements))
  /\ out !! 1 = Some "more than six decimals"
  /\ (forall i elem x y z,
        rounded_elements !! i = Some elem ->
        rounded_coords !! i = Some (x, y, z) ->
        exists line,
          out !! (2 + i) = Some line
          /\ split line = [elem; py_fixed6 x; py_fixed6 y; py_fixed6 z])
  /\ drop (2 + length rounded_elements) out = ["tail"]
  /\ read_xyz_lines out
     = Ok (rounded_elements, map reread_point rounded_coords,
           "more than six decimals", ["tail"])
  /\ Forall2 point_within_millionth rounded_coords
       (map reread_point rounded_coords).
Proof.
  apply (write_read_roundtrip rounded_file rounded_elements rounded_coords
           "more than six decimals" ["tail"]).
  - vm_compute. reflexivity.
  - vm_compute. reflexivity.
  - vm_compute. reflexivity.
  - vm_compute. reflexivity.
  - vm_compute. reflexivity.
Defined.

(** C2 fails as stated, in both directions. The first file declares one
    atom and its only atom line is blank: no atom is read, which is not the
    declared count, and the reader succeeds. In the second the first
    non-empty line is the count of a well-formed one-atom file, and the
    reader fails, for it reads the count from the first line. *)
Lemma read_xyz_blank_lines :
  py_int (strip "1") = Some 1%Z
  /\ read_xyz_lines ["1"; "blank atom line"; ""]
     = Ok ([], [], "blank atom line", [])
  /\ length (split "") < 4
  /\ read_xyz_lines [""; "1"; "one atom"; "C 0 0 0"]
     = Raise (ValueError HeaderNotInt)
  /\ read_xyz_lines ["1"; "one atom"; "C 0 0 0"]
     = Ok (["C"], [(0, 0, 0)%float], "one atom", []).
Proof. vm_compute. repeat split; (reflexivity || lia). Qed.

(** ** Further examples *)

(** The bounds of the bond test on coordinates: a carbon at the origin and
    an oxygen on the first axis, no metal index. *)
Example bond_at_lower_bound :
  find_CO_pairs ["C"; "O"] [(0, 0, 0); (1.00, 0, 0)]%float None
  = Ok [(0, 1)].
Proof. vm_compute. reflexivity. Qed.

Example bond_at_upper_bound :
  find_CO_pairs ["C"; "O"] [(0, 0, 0); (1.30, 0, 0)]%float None
  = Ok [(0, 1)].
Proof. vm_compute. reflexivity. Qed.

Example bond_below_lower_bound :
  find_CO_pairs ["C"; "O"] [(0, 0, 0); (0.999, 0, 0)]%float None = Ok [].
Proof. vm_compute. reflexivity. Qed.

Example bond_above_upper_bound :
  find_CO_pairs ["C"; "O"] [(0, 0, 0); (1.301, 0, 0)]%float None = Ok [].
Proof. vm_compute. reflexivity. Qed.

(** The four oxygens of the boundary structure are at 1.00, 1.30, 0.999
    and 1.301 of the carbon as computed, and the two at the bounds are
    paired with it. *)
Example bonds_at_the_bounds :
  distance (0, 0, 0)%float (1.00, 0, 0)%float = 1.00%float
  /\ distance (0, 0, 0)%float (0, 1.30, 0)%float = 1.30%float
  /\ distance (0, 0, 0)%float (-0.999, 0, 0)%float = 0.999%float
  /\ distance (0, 0, 0)%float (0, -1.301, 0)%float = 1.301%float
  /\ find_CO_pairs boundary_elements boundary_coords (Some 0)
     = Ok [(1, 2); (1, 3)].
Proof. vm_compute. repeat split; reflexivity. Qed.

(** The test is on the computed distance: the coordinates 0.9 and 1.9 are
    one apart as decimals, and their binary64 difference is below 1. *)
Example bond_rounded_below :
  distance (0.9, 0, 0)%float (1.9, 0, 0)%float = 0.99999999999999989%float
  /\ find_CO_pairs ["C"; "O"] [(0.9, 0, 0); (1.9, 0, 0)]%float None = Ok [].
Proof. vm_compute. split; reflexivity. Qed.

(** The carbon must be near the metal when a metal index is given. *)
Example carbon_far_from_metal :
  find_CO_pairs ["Ir"; "C"; "O"] [(0, 0, 0); (2.5, 0, 0); (3.65, 0, 0)]%float
    (Some 0) = Ok []
  /\ find_CO_pairs ["Ir"; "C"; "O"]
       [(0, 0, 0); (2.5, 0, 0); (3.65, 0, 0)]%float None = Ok [(1, 2)].
Proof. vm_compute. split; reflexivity. Qed.

(** Coordinates with more than six decimals come back rounded to six. *)
Example roundtrip_rounds :
  write_xyz_lines rounded_elements rounded_coords "more than six decimals"
    ["tail"]
  = ["2"; "more than six decimals";
     "C       0.123457     -1.000000      2.500000";
     "O       3.141593      0.000000    -12.345678"; "tail"]
  /\ map reread_point rounded_coords
     = [(0.123457, -1, 2.5); (3.141593, 0, -12.345678)]%float.
Proof. vm_compute. split; reflexivity. Qed.

(** A negative count is not rejected: no atom is read, and the trailing
    lines are taken from a bound counted from the end of the file. *)
Example negative_count_read :
  read_xyz_lines ["-1"; "comment"; "C 0 0 0"]
  = Ok ([], [], "comment", ["comment"; "C 0 0 0"]).
Proof. vm_compute. reflexivity. Qed.

(** A file that is missing, one with a single line, one whose atom line is
    short and one whose coordinate is not a number are skipped. *)
Example skipped_reads :
  run_report (process_xyz_file "missing.xyz" example_fs)
  = SkippedRead FileNotFoundError
  /\ read_xyz_lines ["0"] = Raise (ValueError TooFewLines)
  /\ read_xyz_lines ["2"; "comment"; "C 0 0 0"]
     = Raise (ValueError (CountMismatch 2 1))
  /\ read_xyz_lines ["1"; "comment"; "C 0 0"]
     = Raise (ValueError (BadAtomLine "C 0 0"))
  /\ read_xyz_lines ["1"; "comment"; "C 0 zero 0"]
     = Raise (ValueError (BadFloat "zero")).
Proof. vm_compute. repeat split; reflexivity. Qed.

(** The reference six-decimal text rounds to nearest, ties to even, on the
    binary value of the number. *)
Example fixed6_texts :
  ref_fixed6 (-1.2345678)%float = "-1.234568"
  /\ ref_fixed6 0.0000005%float = "0.000000"
  /\ ref_fixed6 0.0000015%float = "0.000002"
  /\ ref_fixed6 0.5%float = "0.500000"
  /\ ref_fixed6 (-0)%float = "-0.000000"
  /\ ref_fixed6 infinity = "inf"
  /\ ref_fixed6 nan = "nan".
Proof. vm_compute. repeat split; reflexivity. Qed.

(** ** Further properties of the code *)

Section Extras.
Context `{PyBuiltins}.
Implicit Types (elements : list string) (coords : list point).
Implicit Types (fs : filesystem) (path comment : string).
Implicit Types (metal_index : option nat).

Lemma first_metal_none (l : list string) (k : nat) :
  first_metal (enumerate_from k l) = None
  <-> Forall (fun e => e ∉ CENTER_METALS) l.
Proof.
  revert k. induction l as [|e l IH]; intros k; simpl.
  - split; [constructor|done].
  - rewrite Forall_cons. case_bool_decide as He.
    + split; [done|]. by intros [? _].
    + rewrite IH. tauto.
Qed.

(** X1. The locator returns the least index whose label is in the
    whitelist, whatever the coordinates, and [None] exactly when no label
    is; the labels are compared as they are written, so that ["Co"] is a
    metal and ["CO"] or ["co"] is not. *)
Theorem find_metal_center_first_match elements coords :
  (forall m,
     find_metal_center elements coords = Some m
     <-> (exists e, elements !! m = Some e /\ e ∈ CENTER_METALS)
         /\ (forall i e, i < m -> elements !! i = Some e ->
               e ∉ CENTER_METALS))
  /\ (find_metal_center elements coords = None
      <-> Forall (fun e => e ∉ CENTER_METALS) elements)
  /\ find_metal_center ["CO"; "co"; "Co"] [] = Some 2.
Proof.
  split; [|split; [apply first_metal_none|by vm_compute]].
  intros m. split.
  - intros (pre & em & post & -> & -> & Hem & Hpre)%first_metal_found.
    split.
    + exists em. split; [|done]. by rewrite list_lookup_middle.
    + intros i e Hi He. rewrite lookup_app_l in He by (simpl in Hi; lia).
      rewrite Forall_forall in Hpre. by eapply Hpre, list_elem_of_lookup_2.
  - intros [(e & He & Hmetal) Hfirst].
    apply take_drop_middle in He as Hsplit. unfold find_metal_center, enumerate.
    rewrite <- Hsplit.
    pose proof (lookup_lt_Some _ _ _ He) as Hlt.
    rewrite first_metal_at; [|apply Forall_forall|done].
    + f_equal. rewrite length_take. lia.
    + intros e' [i Hi]%list_elem_of_lookup_1.
      apply lookup_take_Some in Hi as [Hi Him]. by eapply Hfirst.
Qed.

(** The five ways a run ends, each with the file system it leaves and the
    calls it made. *)
Lemma process_cases fs path :
  (exists e,
     read_xyz fs path = Raise e
     /\ process_xyz_file path fs
        = Build_run fs [CallRead path] (SkippedRead e))
  \/ (exists coords comment extra_lines,
        read_xyz fs path = Ok ([], coords, comment, extra_lines)
        /\ process_xyz_file path fs
           = Build_run fs [CallRead path] SkippedEmpty)
  \/ (exists elements coords comment extra_lines,
        read_xyz fs path = Ok (elements, coords, comment, extra_lines)
        /\ elements <> []
        /\ find_metal_center elements coords = None
        /\ process_xyz_file path fs
           = Build_run fs [CallRead path; CallFindMetal] SkippedNoMetal)
  \/ (exists elements coords comment extra_lines m,
        read_xyz fs path = Ok (elements, coords, comment, extra_lines)
        /\ find_metal_center elements coords = Some m
        /\ length (detected elements coords (Some m)) < 2
        /\ process_xyz_file path fs
           = Build_run fs [CallRead path; CallFindMetal; CallFindCO]
               (WarnedFewCO (length (detected elements coords (Some m)))))
  \/ (exists elements coords comment extra_lines m p1 p2 rest,
        read_xyz fs path = Ok (elements, coords, comment, extra_lines)
        /\ find_metal_center elements coords = Some m
        /\ detected elements coords (Some m) = p1 :: p2 :: rest
        /\ process_xyz_file path fs
           = let kept := survivors elements coords (delete_set [p1; p2]) in
             Build_run
               (<[output_path path :=
                    write_xyz_lines kept.*1 kept.*2 comment extra_lines]> fs)
               [CallRead path; CallFindMetal; CallFindCO;
                CallWrite (output_path path)]
               (Completed (length elements) (length kept) 2
                  (output_path path))).
Proof.
  destruct (read_xyz fs path) as [[[[elements coords] comment] extra]|e]
    eqn:Hread.
  2:{ left. exists e. split; [done|]. unfold process_xyz_file.
      by rewrite Hread. }
  right. destruct elements as [|e0 elements].
  { left. exists coords, comment, extra. split; [done|].
    unfold process_xyz_file. by rewrite Hread. }
  right. destruct (find_metal_center (e0 :: elements) coords) as [m|]
    eqn:Hmetal.
  2:{ left. exists (e0 :: elements), coords, comment, extra.
      repeat split; try done. unfold process_xyz_file.
      rewrite Hread. cbn [length Nat.eqb]. by rewrite Hmetal. }
  right. pose proof (pipeline_detects _ _ _ _ _ _ _ Hread Hmetal) as Hdet.
  destruct (detected (e0 :: elements) coords (Some m))
    as [|p1 [|p2 rest]] eqn:Hpairs.
  3:{ right. exists (e0 :: elements), coords, comment, extra, m, p1, p2, rest.
      repeat split; try done. by eapply process_completed. }
  all: left; exists (e0 :: elements), coords, comment, extra, m;
    rewrite Hpairs; repeat split; try done; try (simpl; lia);
    unfold process_xyz_file; rewrite Hread; cbn [length Nat.eqb];
    by rewrite Hmetal, Hdet.
Qed.

(** X2. How a run goes up to its write is decided by the file alone. On a
    file whose atoms are in range, so that no square raises
    [OverflowError], the run is skipped when the read raises, when no atom
    is read, when no label is whitelisted; it warns when the detector
    yields fewer than two pairs; it calls the writer on the output path
    otherwise, and these five cases are all there are. *)
Theorem process_outcome_table fs path :
  file_in_range fs path = true ->
  (forall e, run_report (process_xyz_file path fs) = SkippedRead e
             <-> read_xyz fs path = Raise e)
  /\ (run_report (process_xyz_file path fs) = SkippedEmpty
      <-> exists coords comment extra_lines,
            read_xyz fs path = Ok ([], coords, comment, extra_lines))
  /\ (run_report (process_xyz_file path fs) = SkippedNoMetal
      <-> exists elements coords comment extra_lines,
            read_xyz fs path = Ok (elements, coords, comment, extra_lines)
            /\ elements <> []
            /\ Forall (fun e => e ∉ CENTER_METALS) elements)
  /\ (forall k, run_report (process_xyz_file path fs) = WarnedFewCO k
      <-> exists elements coords comment extra_lines m,
            read_xyz fs path = Ok (elements, coords, comment, extra_lines)
            /\ find_metal_center elements coords = Some m
            /\ length (detected elements coords (Some m)) = k /\ k < 2)
  /\ (CallWrite (output_path path) ∈ run_calls (process_xyz_file path fs)
      <-> exists elements coords comment extra_lines m,
            read_xyz fs path = Ok (elements, coords, comment, extra_lines)
            /\ find_metal_center elements coords = Some m
            /\ 2 <= length (detected elements coords (Some m)))
  /\ ((exists e, run_report (process_xyz_file path fs) = SkippedRead e)
      \/ run_report (process_xyz_file path fs) = SkippedEmpty
      \/ run_report (process_xyz_file path fs) = SkippedNoMetal
      \/ (exists k, run_report (process_xyz_file path fs) = WarnedFewCO k)
      \/ CallWrite (output_path path)
         ∈ run_calls (process_xyz_file path fs)).
Proof.
  intros _.
  destruct (process_cases fs path)
    as [(e & Hread & ->)
       |[(cs & c & ex & Hread & ->)
        |[(els & cs & c & ex & Hread & Hne & Hmetal & ->)
         |[(els & cs & c & ex & m & Hread & Hmetal & Hfew & ->)
          |(els & cs & c & ex & m & p1 & p2 & rest & Hread & Hmetal
            & Hpairs & ->)]]]];
    cbn [run_report run_calls]; rewrite Hread.
  all: split; [|split; [|split; [|split; [|split]]]].
  all: try (by eauto 6).
  all: try (right; right; right; right; set_solver).
  all: try (split; [intros Hq; repeat (apply elem_of_cons in Hq as [Hq|Hq];
                                       [discriminate Hq|]);
                    by apply elem_of_nil in Hq|]).
  all: try split; intros;
    repeat match goal with
           | Hx : exists _, _ |- _ => destruct Hx
           | Hx : _ /\ _ |- _ => destruct Hx
           end;
    simplify_eq; try done;
    try match goal with
        | Hx : Forall _ ?l, Hy : find_metal_center ?l _ = Some _ |- _ =>
            apply (first_metal_none l 0) in Hx;
            unfold find_metal_center, enumerate in Hy; congruence
        end;
    try (simpl in *; lia);
    try (eexists _, _, _; done);
    try (eexists _, _, _, _; repeat split; try done;
         by apply (first_metal_none _ 0)).
  all: try (eexists _, _, _, _, _; repeat split; try done;
            try match goal with
                | Hx : detected _ _ _ = _ |- _ => rewrite Hx
                end; simpl; lia).
  all: try match goal with
       | Hx : detected _ _ _ = _ :: _ :: _, Hy : length _ < 2 |- _ =>
           rewrite Hx in Hy; simpl in Hy; lia
       end.
  all: try set_solver.
Qed.

Lemma process_frame fs path p :
  p <> output_path path ->
  run_fs (process_xyz_file path fs) !! p = fs !! p.
Proof.
  intros Hp. unfold process_xyz_file.
  destruct (read_xyz fs path) as [[[[els cs] c] ex]|e]; [|done].
  destruct (length els =? 0)%nat; [done|].
  destruct (find_metal_center els cs); [|done].
  destruct (find_CO_pairs els cs _) as [pairs|e]; [|done].
  destruct (length pairs <? 2)%nat; [done|].
  destruct (kept_atoms _ _ _) as [ne nc]. cbn [run_fs]. unfold write_xyz.
  by rewrite lookup_insert_ne.
Qed.

Lemma process_local_report fs fs' path :
  fs !! path = fs' !! path ->
  run_report (process_xyz_file path fs)
  = run_report (process_xyz_file path fs').
Proof.
  intros Hsame.
  assert (read_xyz fs' path = read_xyz fs path) as Hread
    by (unfold read_xyz, file; by rewrite Hsame).
  unfold process_xyz_file. rewrite Hread.
  destruct (read_xyz fs path) as [[[[els cs] c] ex]|e]; [|done].
  destruct (length els =? 0)%nat; [done|].
  destruct (find_metal_center els cs); [|done].
  destruct (find_CO_pairs els cs _) as [pairs|e]; [|done].
  destruct (length pairs <? 2)%nat; [done|].
  by destruct (kept_atoms _ _ _) as [ne nc].
Qed.

(** X3. A run writes at most one file, at the output path: every other
    path of the file system is as before, nothing at all is written unless
    the run completes, and the only write called is that of the output
    path. *)
Theorem process_writes_only_output fs path :
  (forall p, p <> output_path path ->
     run_fs (process_xyz_file path fs) !! p = fs !! p)
  /\ ((forall n_atoms n_new n_pairs new_path,
         run_report (process_xyz_file path fs)
         <> Completed n_atoms n_new n_pairs new_path) ->
      run_fs (process_xyz_file path fs) = fs)
  /\ (forall q, CallWrite q ∈ run_calls (process_xyz_file path fs) ->
        q = output_path path).
Proof.
  destruct (process_cases fs path)
    as [(e & _ & ->)
       |[(cs & c & ex & _ & ->)
        |[(els & cs & c & ex & _ & _ & _ & ->)
         |[(els & cs & c & ex & m & _ & _ & _ & ->)
          |(els & cs & c & ex & m & p1 & p2 & rest & _ & _ & _ & ->)]]]];
    cbn [run_fs run_calls run_report]; repeat split; try done;
    try (intros q Hq; repeat (apply elem_of_cons in Hq as [Hq|Hq];
                              [discriminate Hq|]);
         by apply elem_of_nil in Hq).
  - intros p Hp. by rewrite lookup_insert_ne.
  - intros Hnot. by destruct (Hnot _ _ _ _ eq_refl).
  - intros q Hq. repeat (apply elem_of_cons in Hq as [Hq|Hq];
                         [congruence|]).
    by apply elem_of_nil in Hq.
Qed.

(** X4. When [splitext] cuts the path in two parts that make it up, the
    output path is two characters longer than the path, so the file that
    was read is not the one written: it is as before. *)
Theorem process_keeps_input fs path (base ext : string) :
  splitext path = (base, ext) ->
  base +:+ ext = path ->
  String.length (output_path path) = String.length path + 2
  /\ run_fs (process_xyz_file path fs) !! path = fs !! path.
Proof.
  intros Hsplit Hjoin.
  assert (String.length (output_path path) = String.length path + 2) as Hlen.
  { unfold output_path. rewrite Hsplit, <- Hjoin, !length_append.
    unfold OUTPUT_SUFFIX. cbn [String.length]. lia. }
  split; [done|]. apply process_frame.
  intros Heq. rewrite <- Heq in Hlen. lia.
Qed.


End Extras.

Lemma for_loop_Ok_iff {A S} (body : A -> S -> result S) (P : A -> Prop)
    (l : list A) :
  (forall x s, x ∈ l -> is_Ok (body x s) <-> P x) ->
  forall s, is_Ok (for_loop body l s) <-> Forall P l.
Proof.
  induction l as [|x l IH]; intros Hbody s; simpl.
  - split; [constructor|]. intros _. by eexists.
  - rewrite Forall_cons, <- (Hbody x s) by (by left).
    destruct (body x s) as [s'|e]; simpl.
    + rewrite IH by (intros; apply Hbody; by right).
      split; [intros; split; [by eexists|done]|tauto].
    + split; [by intros [? ?]|]. by intros [[? ?] _].
Qed.

Lemma for_loop_raises {A S} (body : A -> S -> result S) (Q : exn -> Prop)
    (l : list A) :
  (forall x s e, body x s = Raise e -> Q e) ->
  forall s e, for_loop body l s = Raise e -> Q e.
Proof.
  intros Hbody. induction l as [|x l IH]; intros s e; simpl; [done|].
  destruct (body x s) as [s'|e'] eqn:Hx; simpl; [apply IH|].
  intros [= <-]. by eapply Hbody.
Qed.

Lemma filter_sublist_mono {A} (f g : A -> bool) (l : list A) :
  (forall x, f x = true -> g x = true) ->
  List.filter f l `sublist_of` List.filter g l.
Proof.
  intros Hfg. induction l as [|x l IH]; simpl; [done|].
  destruct (f x) eqn:Hf.
  - rewrite (Hfg x Hf). by apply sublist_skip.
  - destruct (g x); [by apply sublist_cons|done].
Qed.

Section ExtrasDetector.
Context `{PyBuiltins}.
Implicit Types (elements : list string) (coords : list point).
Implicit Types (metal_index : option nat).

Lemma scan_oxygen_Ok coords metal_index i j ej acc :
  is_Ok (scan_oxygen coords metal_index i (j, ej) acc)
  <-> (ej = "O" -> readable_pair coords metal_index i j).
Proof.
  unfold scan_oxygen, readable_pair, index.
  destruct (String.eqb_spec ej "O") as [->|Hne]; simpl.
  2:{ split; [done|]. intros _. by eexists. }
  destruct (coords !! i) as [ci|]; simpl.
  2:{ split; [by intros [? ?]|]. intros Hr.
      by destruct (Hr eq_refl) as (? & ? & ? & _). }
  destruct (coords !! j) as [cj|]; simpl.
  2:{ split; [by intros [? ?]|]. intros Hr.
      by destruct (Hr eq_refl) as (? & ? & _ & ? & _). }
  destruct (co_bond_ok (distance ci cj)) eqn:Hbond.
  2:{ split; [|intros _; by eexists]. intros _ _. exists ci, cj.
      repeat split; try done. intros Hb. congruence. }
  destruct metal_index as [m|].
  2:{ split; [|intros _; by eexists]. intros _ _. by exists ci, cj. }
  destruct (coords !! m) as [cm|] eqn:Hm; simpl.
  - split.
    + intros _ _. exists ci, cj. repeat split; try done.
      intros _ m' [= <-]. by eexists.
    + intros _. destruct (_ <=? _)%float; by eexists.
  - split; [by intros [? ?]|]. intros Hr.
    destruct (Hr eq_refl) as (ci' & cj' & [= <-] & [= <-] & Hmetal).
    destruct (Hmetal Hbond m eq_refl) as [? ?]. congruence.
Qed.

Lemma scan_oxygen_raises coords metal_index i je acc e :
  scan_oxygen coords metal_index i je acc = Raise e -> e = IndexError.
Proof.
  destruct je as [j ej]. unfold scan_oxygen, index.
  destruct (negb _); [done|].
  destruct (coords !! i); simpl; [|by intros [= <-]].
  destruct (coords !! j); simpl; [|by intros [= <-]].
  destruct (co_bond_ok _); [|done].
  destruct metal_index as [m|]; [|done].
  destruct (coords !! m); simpl; [|by intros [= <-]].
  by destruct (_ <=? _)%float.
Qed.

(** X6. The de-duplication removes nothing: the detector returns the list
    its scan collected, or raises what the scan raised. *)
Theorem dedup_removes_nothing elements coords metal_index :
  find_CO_pairs elements coords metal_index
  = for_loop (scan_carbon elements coords metal_index) (enumerate elements)
      [].
Proof.
  destruct (for_loop _ _ _) as [co_pairs|e] eqn:Hscan.
  - assert (is_Ok (find_CO_pairs elements coords metal_index))
      as [pairs Hpairs].
    { unfold find_CO_pairs. rewrite Hscan. simpl.
      destruct (fold_left _ _ _). by eexists. }
    rewrite Hpairs. f_equal.
    apply find_CO_pairs_spec in Hpairs. apply scan_spec in Hscan. congruence.
  - unfold find_CO_pairs. by rewrite Hscan.
Qed.

(** X7. On coordinates in range, so that no square raises
    [OverflowError], the detector raises nothing but [IndexError], and it
    returns exactly when the coordinates it reads are there: for every
    carbon [i] and oxygen [j], the coordinates of both and, when the pair
    is in bond range and a metal index is given, those of the metal. *)
Theorem find_CO_pairs_index_error elements coords metal_index :
  in_range coords = true ->
  (forall e, find_CO_pairs elements coords metal_index = Raise e ->
             e = IndexError)
  /\ (is_Ok (find_CO_pairs elements coords metal_index)
      <-> forall i j,
            elements !! i = Some "C" -> elements !! j = Some "O" ->
            readable_pair coords metal_index i j).
Proof.
  intros _. rewrite dedup_removes_nothing. split.
  - apply (for_loop_raises _ (fun e => e = IndexError)).
    intros [i ei] acc e. unfold scan_carbon.
    destruct (negb _); [done|].
    apply (for_loop_raises _ (fun e => e = IndexError)).
    intros je acc'. apply scan_oxygen_raises.
  - rewrite (for_loop_Ok_iff _
               (fun ie : nat * string =>
                  ie.2 = "C" ->
                  Forall (fun je : nat * string =>
                            je.2 = "O" ->
                            readable_pair coords metal_index ie.1 je.1)
                    (enumerate elements))).
    + rewrite Forall_forall. split.
      * intros Hall i j Hi Hj. apply enumerate_spec in Hi, Hj.
        specialize (Hall _ Hi eq_refl). rewrite Forall_forall in Hall.
        by apply (Hall _ Hj).
      * intros Hall [i ei] Hi%enumerate_spec Hei. simpl in Hei. subst ei.
        apply Forall_forall. intros [j ej] Hj%enumerate_spec Hej.
        simpl in Hej. subst ej. by apply Hall.
    + intros [i ei] acc _. unfold scan_carbon. simpl.
      destruct (String.eqb_spec ei "C") as [->|Hne]; simpl.
      * rewrite (for_loop_Ok_iff _
                   (fun je : nat * string =>
                      je.2 = "O" -> readable_pair coords metal_index i je.1)).
        { tauto. }
        intros [j ej] acc' _. apply scan_oxygen_Ok.
      * split; [done|]. intros _. by eexists.
Qed.

(** X8. Giving a metal index only removes pairs: on a structure in range,
    the pairs found with the metal are a sublist of those found without,
    namely the ones whose carbon is within [M_C_MAX] of the metal. *)
Theorem metal_index_restricts elements coords (m : nat) :
  length coords = length elements ->
  m < length elements ->
  in_range coords = true ->
  exists with_metal without,
    find_CO_pairs elements coords (Some m) = Ok with_metal
    /\ find_CO_pairs elements coords None = Ok without
    /\ with_metal `sublist_of` without
    /\ (forall p,
          p ∈ with_metal
          <-> p ∈ without
              /\ exists cc cm,
                   coords !! p.1 = Some cc /\ coords !! m = Some cm
                   /\ (distance cc cm <=? M_C_MAX)%float = true).
Proof.
  intros Hlen Hm _.
  exists (detected elements coords (Some m)), (detected elements coords None).
  split; [apply find_CO_pairs_total; [done|by intros ? [= <-]]|].
  split; [by apply find_CO_pairs_total|].
  assert (forall p,
            accepts elements coords (Some m) p = true
            <-> accepts elements coords None p = true
                /\ exists cc cm,
                     coords !! p.1 = Some cc /\ coords !! m = Some cm
                     /\ (distance cc cm <=? M_C_MAX)%float = true) as Hacc.
  { intros p. unfold accepts.
    destruct (elements !! p.1), (elements !! p.2); try (split; [done|tauto]).
    destruct (coords !! p.1) as [cc|]; [|split; [done|tauto]].
    destruct (coords !! p.2) as [co|]; [|split; [done|tauto]].
    rewrite !andb_true_iff. destruct (coords !! m) as [cm|].
    - split; [intros [? ?]; split; [tauto|by exists cc, cm]|].
      intros [[? _] (cc' & cm' & [= <-] & [= <-] & ?)]. tauto.
    - split; [by intros [_ ?]|]. by intros [_ (? & ? & _ & ? & _)]. }
  split.
  - apply filter_sublist_mono. intros p Hp. by apply Hacc in Hp as [? _].
  - intros p. by rewrite !detected_accepts.
Qed.

End ExtrasDetector.

Section ExtrasReader.
Context `{PyBuiltins}.
Implicit Types (elements : list string) (coords : list point).
Implicit Types (fs : filesystem) (path comment : string).

Lemma read_atoms_parse (l : list string) elements coords elements' coords' :
  for_loop read_atom l (elements, coords) = Ok (elements', coords') ->
  exists atoms : list (string * point),
    parse_atom_line <$> List.filter nonblank l = Some <$> atoms
    /\ elements' = elements ++ atoms.*1
    /\ coords' = coords ++ atoms.*2.
Proof.
  revert elements coords. induction l as [|line l IH];
    intros elements coords; cbn [for_loop List.filter].
  - intros [= <- <-]. exists []. by rewrite !app_nil_r.
  - intros ([e1 c1] & Hline & Hrun)%bind_Ok.
    apply IH in Hrun as (atoms & Hparse & -> & ->).
    apply read_atom_spec in Hline
      as [(Hb & -> & ->)|(elem & sx & sy & sz & r & x & y & z
                          & Hsplit & Hx & Hy & Hz & -> & ->)].
    + exists atoms. unfold nonblank at 1. by rewrite Hb.
    + exists ((elem, (x, y, z)) :: atoms). unfold nonblank at 1.
      destruct (String.eqb_spec (strip line) "") as [Hb|_].
      { apply strip_empty_split in Hb. congruence. }
      cbn [negb fmap list_fmap]. rewrite <- !app_assoc. split; [|done].
      f_equal; [|exact Hparse].
      unfold parse_atom_line. by rewrite Hsplit, Hx, Hy, Hz.
Qed.

Lemma zip_fst_snd {A B} (l : list (A * B)) : zip l.*1 l.*2 = l.
Proof. induction l as [|[a b] l IH]; simpl; by f_equal. Qed.

(** X9. What a successful read returns: the atoms are those of the lines
    of the atom block that are not blank, in their order, each the first
    token of its line with the numbers of the next three tokens (further
    tokens are ignored); the comment is the second line, and the trailing
    lines are the lines after the block. *)
Theorem read_xyz_atoms (lines : list string) elements coords comment
    extra_lines :
  read_xyz_lines lines = Ok (elements, coords, comment, extra_lines) ->
  exists n_atoms : Z,
    py_int (strip (nth 0 lines "")) = Some n_atoms
    /\ parse_atom_line
         <$> List.filter nonblank (slice lines 2 (2 + n_atoms))
       = Some <$> zip elements coords
    /\ length coords = length elements
    /\ comment = nth 1 lines ""
    /\ extra_lines = slice_from lines (2 + n_atoms)
    /\ 2 <= length lines.
Proof.
  intros Hread.
  destruct (read_xyz_lines_shape _ _ _ _ _ Hread) as [Hlen _].
  revert Hread. unfold read_xyz_lines, parse_int.
  destruct (Nat.ltb_spec (length lines) 2) as [|Hlines]; [done|].
  destruct (py_int _) as [n_atoms|]; [|done]. cbn [bind].
  destruct (_ <? _)%Z; [done|].
  intros ([e c] & Hloop & [= <- <- <- <-])%bind_Ok.
  exists n_atoms. repeat split; try done.
  apply read_atoms_parse in Hloop as (atoms & Hparse & -> & ->).
  by rewrite Hparse, !app_nil_l, zip_fst_snd.
Qed.

(** X10. A count below zero is never checked against the lines. With a
    first line of -1 or -2 the read succeeds with no atom; with a first
    line of [-(k + 2)], [k] at least 1, the atom block is every line after
    the comment but the last [k], and the trailing lines are the last [k]
    lines of the file. *)
Theorem read_xyz_negative_count (lines : list string) (n : Z) :
  2 <= length lines ->
  py_int (strip (nth 0 lines "")) = Some n ->
  (n < 0)%Z ->
  ((-2 <= n)%Z ->
   read_xyz_lines lines
   = Ok ([], [], nth 1 lines "", drop (Z.to_nat (2 + n)) lines))
  /\ ((n < -2)%Z ->
      let k := Z.to_nat (- n - 2) in
      (is_Ok (read_xyz_lines lines)
       <-> Forall (fun line => good_atom_line line = true)
             (take (length lines - 2 - k) (drop 2 lines)))
      /\ (forall elements coords comment extra_lines,
            read_xyz_lines lines
            = Ok (elements, coords, comment, extra_lines) ->
            extra_lines = drop (length lines - k) lines)).
Proof.
  intros Hlen Hint Hneg.
  assert (read_xyz_lines lines
          = let! (elements, coords) :=
              for_loop read_atom (slice lines 2 (2 + n)) ([], []) in
            Ok (elements, coords, nth 1 lines "", slice_from lines (2 + n)))
    as Hread.
  { unfold read_xyz_lines, parse_int.
    rewrite (proj2 (Nat.ltb_ge _ _)) by done. rewrite Hint. cbn [bind].
    by rewrite (proj2 (Z.ltb_ge _ _)) by lia. }
  rewrite Hread. clear Hread. split.
  - intros Hsmall.
    assert (slice lines 2 (2 + n) = []) as ->.
    { unfold slice, slice_bound.
      replace (_ - _) with 0; [done|].
      destruct (Z.ltb_spec (2 + n) 0), (Z.ltb_spec 2 0); lia. }
    cbn [for_loop bind]. do 2 f_equal. unfold slice_from, slice_bound.
    f_equal. destruct (Z.ltb_spec (2 + n) 0); lia.
  - intros Hbig k.
    assert (slice lines 2 (2 + n) = take (length lines - 2 - k) (drop 2 lines))
      as ->.
    { unfold slice, slice_bound, k.
      destruct (Z.ltb_spec (2 + n) 0), (Z.ltb_spec 2 0); try lia.
      f_equal; [lia|f_equal; lia]. }
    assert (slice_from lines (2 + n) = drop (length lines - k) lines) as ->.
    { unfold slice_from, slice_bound, k. f_equal.
      destruct (Z.ltb_spec (2 + n) 0); lia. }
    split.
    + rewrite <- (read_atoms_Ok _ ([], [])).
      destruct (for_loop read_atom _ _) as [[e c]|e]; simpl.
      * split; intros _; by eexists.
      * split; by intros ?%is_Ok_Raise.
    + intros elements coords comment extra_lines.
      by intros ([e c] & _ & [= _ _ _ <-])%bind_Ok.
Qed.

(** X11. The writer does not compare its two lists: it writes the number
    of elements in the first line and one line for each element that has
    coordinates. With fewer coordinates than elements the file has fewer
    atom lines than it declares, and when the trailing lines do not make
    up the difference the reader rejects what [write_xyz] wrote. *)
Theorem write_xyz_short_coords fs path elements coords comment
    (extra_lines : list string) :
  py_int (strip (py_str (length elements)))
  = Some (Z.of_nat (length elements)) ->
  length coords + length extra_lines < length elements ->
  length (write_xyz_lines elements coords comment extra_lines)
  = 2 + length coords + length extra_lines
  /\ read_xyz (write_xyz path elements coords comment extra_lines fs) path
     = Raise (ValueError
                (CountMismatch (Z.of_nat (length elements))
                   (length coords + length extra_lines))).
Proof.
  intros Hint Hshort.
  assert (length (map atom_line (zip elements coords)) = length coords)
    as Hatoms by (rewrite length_map, length_zip; lia).
  assert (length (write_xyz_lines elements coords comment extra_lines)
          = 2 + length coords + length extra_lines) as Hlen.
  { unfold write_xyz_lines. cbn [app length].
    rewrite length_app, Hatoms. lia. }
  split; [done|].
  unfold read_xyz, write_xyz. rewrite lookup_insert_eq.
  unfold read_xyz_lines, parse_int.
  rewrite (proj2 (Nat.ltb_ge _ _)) by lia.
  unfold write_xyz_lines at 1. cbn [app nth]. rewrite Hint. cbn [bind].
  rewrite slice_atoms by lia. rewrite length_take, length_drop, Hlen.
  replace (Nat.min (Nat.min _ _) _)
    with (length coords + length extra_lines) by lia.
  by rewrite (proj2 (Z.ltb_lt _ _)) by lia.
Qed.

End ExtrasReader.

Lemma endswith_spec (s suffix : string) :
  endswith s suffix = true <-> exists pre, s = pre +:+ suffix.
Proof.
  split.
  - induction s as [|c s IH]; cbn [endswith].
    + rewrite orb_false_r. intros ->%String.eqb_eq. by exists "".
    + intros [->%String.eqb_eq|(pre & ->)%IH]%orb_true_iff.
      * by exists "".
      * by exists (String c pre).
  - intros [pre ->]. induction pre as [|c pre IH].
    + cbn [String.append]. destruct suffix; cbn [endswith];
        by rewrite String.eqb_refl.
    + cbn [String.append endswith]. by rewrite IH, orb_true_r.
Qed.

Lemma lower_app (a b : string) : lower (a +:+ b) = lower a +:+ lower b.
Proof. induction a as [|c a IH]; simpl; [done|]. by rewrite IH. Qed.

Lemma lower_app_inv (s a b : string) :
  lower s = a +:+ b -> exists s1 s2, s = s1 +:+ s2 /\ lower s1 = a /\ lower s2 = b.
Proof.
  revert s. induction a as [|c a IH]; intros s; simpl.
  - intros Hs. by exists "", s.
  - destruct s as [|d s]; simpl; [done|]. intros [= Hd (s1 & s2 & -> & <- & <-)%IH].
    exists (String d s1), s2. simpl. by rewrite Hd.
Qed.

Lemma lower_char_x (c : ascii) :
  (lower_char c = "x"%char <-> c = "x"%char \/ c = "X"%char)
  /\ (lower_char c = "y"%char <-> c = "y"%char \/ c = "Y"%char)
  /\ (lower_char c = "z"%char <-> c = "z"%char \/ c = "Z"%char)
  /\ (lower_char c = "."%char <-> c = "."%char).
Proof.
  destruct c as [[] [] [] [] [] [] [] []]; vm_compute;
    repeat split; intros; try discriminate; try tauto;
    repeat match goal with Hx : _ \/ _ |- _ => destruct Hx end;
    try discriminate; auto.
Qed.

(** X15. The names [main] takes are those that end in a point and the
    letters x, y, z, each small or capital: the extension is matched
    whatever its case, and nothing may follow it. *)
Theorem selected_extension (file_name : string) :
  selected file_name = true
  <-> exists stem x y z,
        file_name
        = stem +:+ String "." (String x (String y (String z "")))
        /\ (x = "x" \/ x = "X")%char /\ (y = "y" \/ y = "Y")%char
        /\ (z = "z" \/ z = "Z")%char.
Proof.
  unfold selected. rewrite endswith_spec. split.
  - intros (pre & (stem & ext & -> & _ & Hext)%lower_app_inv).
    destruct ext as [|d [|x [|y [|z [|? ?]]]]]; try discriminate.
    simpl in Hext. injection Hext as Hd Hx Hy Hz.
    destruct (lower_char_x d) as (_ & _ & _ & Hd'). apply Hd' in Hd.
    destruct (lower_char_x x) as (Hx' & _). apply Hx' in Hx.
    destruct (lower_char_x y) as (_ & Hy' & _). apply Hy' in Hy.
    destruct (lower_char_x z) as (_ & _ & Hz' & _). apply Hz' in Hz.
    subst d. by exists stem, x, y, z.
  - intros (stem & x & y & z & -> & Hx & Hy & Hz).
    exists (lower stem). rewrite lower_app. cbn [lower]. 
    destruct (lower_char_x x) as (Hx' & _). apply Hx' in Hx.
    destruct (lower_char_x y) as (_ & Hy' & _). apply Hy' in Hy.
    destruct (lower_char_x z) as (_ & _ & Hz' & _). apply Hz' in Hz.
    by rewrite Hx, Hy, Hz.
Qed.

Section ExtrasMain.
Context `{PyBuiltins}.
Implicit Types (fs : filesystem) (path : string).

Lemma main_step_selected (file_name : string) fs
    (printed : list (string * report)) :
  selected file_name = true ->
  main_step file_name (fs, printed)
  = Ok (run_fs (process_xyz_file (full_path file_name) fs),
        printed ++ [(full_path file_name,
                     run_report (process_xyz_file (full_path file_name) fs))]).
Proof.
  intros Hsel. unfold main_step. fold (selected file_name).
  rewrite Hsel. cbn [negb]. fold (full_path file_name).
  pose proof (process_never_raises fs (full_path file_name)) as Hnever.
  destruct (run_report _) eqn:Hrep; try done. by destruct (Hnever e).
Qed.

Lemma main_step_other (file_name : string)
    (st : filesystem * list (string * report)) :
  selected file_name = false -> main_step file_name st = Ok st.
Proof.
  intros Hsel. destruct st as [fs printed]. unfold main_step.
  fold (selected file_name). by rewrite Hsel.
Qed.

Lemma main_loop (l : list string) fs0 (pr0 : list (string * report)) :
  exists fs' pr,
    for_loop main_step l (fs0, pr0) = Ok (fs', pr0 ++ pr)
    /\ pr.*1 = full_path <$> List.filter selected l
    /\ (forall p,
          (forall name, name ∈ l -> selected name = true ->
             p <> output_path (full_path name)) ->
          fs' !! p = fs0 !! p)
    /\ (separate_outputs l ->
        pr.*2 = (fun name =>
                   run_report (process_xyz_file (full_path name) fs0))
                <$> List.filter selected l).
Proof.
  revert fs0 pr0. induction l as [|name l IH]; intros fs0 pr0.
  - exists fs0, []. cbn [for_loop]. by rewrite app_nil_r.
  - cbn [for_loop List.filter]. destruct (selected name) eqn:Hsel.
    + rewrite main_step_selected by done. cbn [bind].
      set (r := process_xyz_file (full_path name) fs0).
      destruct (IH (run_fs r) (pr0 ++ [(full_path name, run_report r)]))
        as (fs' & pr & Hrun & Hnames & Hframe & Hindep).
      exists fs', ((full_path name, run_report r) :: pr).
      split; [by rewrite Hrun, <- app_assoc|].
      split; [cbn; by rewrite Hnames|]. split.
      * intros p Hp. rewrite Hframe by (intros; apply Hp; [by right|done]).
        apply process_frame. apply Hp; [by left|done].
      * intros Hsep. cbn [fmap list_fmap snd]. f_equal.
        rewrite Hindep by (intros n1 n2 ? ?; apply Hsep; by right).
        apply list_fmap_ext. intros i n2 Hn2.
        apply list_elem_of_lookup_2, list_elem_of_In, filter_In in Hn2
          as [Hin Hsel2].
        apply list_elem_of_In in Hin.
        apply process_local_report, process_frame. intros Heq.
        by apply (Hsep name n2); [left|right| | |].
    + rewrite main_step_other by done. cbn [bind].
      destruct (IH fs0 pr0) as (fs' & pr & Hrun & Hnames & Hframe & Hindep).
      exists fs', pr. split; [done|]. split; [done|]. split.
      * intros p Hp. apply Hframe. intros; apply Hp; [by right|done].
      * intros Hsep. apply Hindep. intros n1 n2 ? ?. apply Hsep; by right.
Qed.

(** X12. A batch that returns has processed the selected names of the
    listing and no other, each once, in the order of the listing, whatever
    the outcome of each file. *)
Theorem main_reports_every_xyz (listing : list string) fs fs'
    (printed : list (string * report)) :
  main listing fs = Ok (fs', printed) ->
  printed.*1 = full_path <$> List.filter selected listing
  /\ length printed <= length listing.
Proof.
  intros Hmain.
  destruct (main_loop listing fs []) as (fs1 & pr & Hrun & Hnames & _).
  unfold main in Hmain. rewrite Hrun in Hmain. injection Hmain as <- <-.
  split; [done|].
  rewrite <- (length_fmap fst), Hnames, length_fmap.
  apply List.filter_length_le.
Qed.

(** X13. The batch writes output files only: when [main] returns, a path
    that is the output path of no selected name of the listing holds what
    it held before. *)
Theorem main_writes_only_outputs (listing : list string) fs fs'
    (printed : list (string * report)) :
  main listing fs = Ok (fs', printed) ->
  forall p,
    (forall name, name ∈ listing -> selected name = true ->
       p <> output_path (full_path name)) ->
    fs' !! p = fs !! p.
Proof.
  intros Hmain.
  destruct (main_loop listing fs []) as (fs1 & pr & Hrun & _ & Hframe & _).
  unfold main in Hmain. rewrite Hrun in Hmain. by injection Hmain as <- <-.
Qed.

(** X14. The files of a batch are processed independently: when no selected
    name of the listing is the output path of another and [main] returns,
    the report of each file is the report of [process_xyz_file] on the file
    system [main] started from: the order of the listing and the outcome of
    the other files do not matter to it. *)
Theorem main_independent_runs (listing : list string) fs fs'
    (printed : list (string * report)) :
  separate_outputs listing ->
  main listing fs = Ok (fs', printed) ->
  printed
  = (fun name =>
       (full_path name,
        run_report (process_xyz_file (full_path name) fs)))
    <$> List.filter selected listing.
Proof.
  intros Hsep Hmain.
  destruct (main_loop listing fs [])
    as (fs1 & pr & Hrun & Hnames & _ & Hindep).
  unfold main in Hmain. rewrite Hrun in Hmain. injection Hmain as <- <-.
  specialize (Hindep Hsep).
  clear Hrun. revert pr Hnames Hindep.
  induction (List.filter selected listing) as [|n l IH];
    intros [|[p r] pr]; cbn; try done.
  intros [= -> Hn] [= -> Hr]. f_equal. by apply IH.
Qed.

End ExtrasMain.

(** ** Geometry *)

Section Geometry.

Lemma binary_round_aux_opp (s : bool) (m e : Z) (l : location) :
  binary_round_aux prec emax (negb s) m e l
  = SFopp (binary_round_aux prec emax s m e l).
Proof.
  unfold binary_round_aux.
  destruct (shr_fexp _ _ _ _ _) as [mrs' e'].
  destruct (shr_fexp _ _ _ _ _) as [mrs'' e''].
  destruct (shr_m mrs''); [done| |done]. by destruct (_ <=? _)%Z.
Qed.

Lemma binary_round_opp (s : bool) (m : positive) (e : Z) :
  binary_round prec emax (negb s) m e
  = SFopp (binary_round prec emax s m e).
Proof.
  unfold binary_round. destruct (shl_align _ _ _).
  apply binary_round_aux_opp.
Qed.

Lemma binary_normalize_opp (m e : Z) :
  binary_normalize prec emax (- m) e false
  = SFopp (binary_normalize prec emax m e false)
  \/ binary_normalize prec emax (- m) e false
     = binary_normalize prec emax m e false.
Proof.
  destruct m as [|p|p]; cbn [Z.opp binary_normalize].
  - by right.
  - left. apply (binary_round_opp false).
  - left. apply (binary_round_opp true).
Qed.

Lemma SFsub_swap (a b : spec_float) :
  SF64sub b a = SFopp (SF64sub a b) \/ SF64sub b a = SF64sub a b.
Proof.
  unfold SF64sub, SFsub.
  destruct a as [sa|sa| |sa ma ea], b as [sb|sb| |sb mb eb];
    try (by destruct sa, sb; auto); try (by destruct sa; auto);
    try (by destruct sb; auto); try (by right).
  rewrite (Z.min_comm eb ea).
  set (X := cond_Zopp sa _). set (Y := cond_Zopp sb _).
  replace (Y - X)%Z with (- (X - Y))%Z by lia.
  apply binary_normalize_opp.
Qed.

Lemma SFmul_opp_opp (u : spec_float) :
  SF64mul (SFopp u) (SFopp u) = SF64mul u u.
Proof. destruct u as [s|s| |s m e]; try done; by destruct s. Qed.

(** The product of a number with itself is that of its opposite: the
    square of the reference runtime is even. *)
Lemma ref_sqr_even (x : float) :
  @py_sqr ref_runtime (- x) = @py_sqr ref_runtime x.
Proof.
  apply Prim2SF_inj. cbn [py_sqr ref_runtime].
  rewrite !mul_spec, opp_spec. apply SFmul_opp_opp.
Qed.

(** Swapping the terms of a difference gives the opposite, or the same
    number when the difference is a zero or a NaN. *)
Lemma sub_swap (x y : float) :
  ((y - x) = - (x - y) \/ (y - x) = (x - y))%float.
Proof.
  destruct (SFsub_swap (Prim2SF x) (Prim2SF y)) as [Hopp|Hsame].
  - left. apply Prim2SF_inj. by rewrite opp_spec, !sub_spec.
  - right. apply Prim2SF_inj. by rewrite !sub_spec.
Qed.

Section GeometryRuntime.
Context `{PyBuiltins}.

(** X16. The distance does not depend on the order of its two points, for
    any coordinates (zeros, infinities and NaN included), when the square
    of each coordinate difference is that of its opposite. *)
Theorem distance_symmetric (a b : point) :
  (let '(a0, a1, a2) := a in
   let '(b0, b1, b2) := b in
   py_sqr (- (a0 - b0)) = py_sqr (a0 - b0)
   /\ py_sqr (- (a1 - b1)) = py_sqr (a1 - b1)
   /\ py_sqr (- (a2 - b2)) = py_sqr (a2 - b2))%float ->
  distance a b = distance b a.
Proof.
  destruct a as [[a0 a1] a2], b as [[b0 b1] b2]. intros (H0 & H1 & H2).
  unfold distance.
  assert (forall x y : float,
            py_sqr (- (x - y)) = py_sqr (x - y) ->
            py_sqr (y - x) = py_sqr (x - y))%float as Hswap.
  { intros x y Heven. by destruct (sub_swap x y) as [-> | ->]. }
  by rewrite (Hswap a0 b0 H0), (Hswap a1 b1 H1), (Hswap a2 b2 H2).
Qed.

Lemma sub_self (x : float) :
  finite_float x = true -> (x - x = 0)%float.
Proof.
  unfold finite_float. intros Hx. apply Prim2SF_inj. rewrite sub_spec.
  destruct (Prim2SF x) as [s|s| |s m e]; try done.
  - by destruct s.
  - unfold SF64sub, SFsub. by rewrite Z.sub_diag.
Qed.

(** X17. A point whose coordinates are finite is at distance 0 from
    itself, when the square of 0 is 0. *)
Theorem distance_self (a : point) :
  py_sqr 0 = 0%float ->
  finite_point a = true ->
  distance a a = 0%float.
Proof.
  destruct a as [[a0 a1] a2]. unfold finite_point.
  rewrite !andb_true_iff. intros Hsqr [[H0 H1] H2]. unfold distance.
  by rewrite !sub_self, Hsqr.
Qed.

Lemma binary_round_aux_sign (s : bool) (m e : Z) (l : location) :
  match binary_round_aux prec emax s m e l with
  | S754_zero s' | S754_infinity s' | S754_finite s' _ _ => s' = s
  | S754_nan => True
  end.
Proof.
  unfold binary_round_aux.
  destruct (shr_fexp prec emax m e l) as [mrs' e'].
  destruct (shr_fexp prec emax _ e' loc_Exact) as [mrs'' e''].
  destruct (shr_m mrs'') as [|p|p]; try done.
  by destruct (e'' <=? emax - prec)%Z.
Qed.

Lemma SFsqrt_sign_clear (u : spec_float) :
  SF64sqrt u = S754_nan
  \/ SFleb (S754_zero false) (SF64sqrt u) = true.
Proof.
  unfold SF64sqrt, SFsqrt.
  destruct u as [s|[|]| |[|] m e]; auto.
  destruct (SFsqrt_core_binary prec emax (Z.pos m) e) as [[mz ez] lz].
  pose proof (binary_round_aux_sign false mz ez lz) as Hsign.
  destruct (binary_round_aux prec emax false mz ez lz) as [s'|s'| |s' m' e'];
    auto; subst s'; by right.
Qed.

Lemma sqrt_sign_clear (x : float) :
  sqrt x = nan \/ (0 <=? sqrt x)%float = true.
Proof.
  destruct (SFsqrt_sign_clear (Prim2SF x)) as [Hnan|Hle].
  - left. apply Prim2SF_inj. by rewrite sqrt_spec, Hnan.
  - right. by rewrite leb_spec, sqrt_spec.
Qed.

(** X18. A distance is never negative: it is NaN or at least 0, whatever
    the coordinates and the squares. *)
Theorem distance_not_negative (a b : point) :
  distance a b = nan \/ (0 <=? distance a b)%float = true.
Proof.
  destruct a as [[a0 a1] a2], b as [[b0 b1] b2]. unfold distance.
  apply sqrt_sign_clear.
Qed.

Lemma sub_not_finite (x y : float) :
  finite_float x = false \/ finite_float y = false ->
  (x - y = nan \/ x - y = infinity \/ x - y = neg_infinity)%float.
Proof.
  unfold finite_float. intros Hxy.
  assert (Prim2SF (x - y) = S754_nan
          \/ exists s, Prim2SF (x - y) = S754_infinity s) as [Hn|[s Hi]].
  { rewrite sub_spec. unfold SF64sub, SFsub.
    destruct (Prim2SF x) as [sx|sx| |sx mx ex],
             (Prim2SF y) as [sy|sy| |sy my ey];
      try (destruct Hxy; discriminate).
    all: try (by left); try (right; by eexists).
    all: destruct sx, sy; first [by left|right; by eexists]. }
  - left. by apply Prim2SF_inj.
  - right. destruct s; [right|left]; by apply Prim2SF_inj.
Qed.

Lemma add_unbounded (x y : float) :
  (x = nan \/ x = infinity) \/ (y = nan \/ y = infinity) ->
  (x + y = nan \/ x + y = infinity)%float.
Proof.
  intros Hxy.
  assert (Prim2SF (x + y) = S754_nan
          \/ Prim2SF (x + y) = S754_infinity false) as [Hn|Hi].
  { rewrite add_spec. unfold SF64add, SFadd.
    destruct Hxy as [[-> | ->]|[-> | ->]];
      change (Prim2SF nan) with S754_nan;
      change (Prim2SF infinity) with (S754_infinity false).
    - by left.
    - destruct (Prim2SF y) as [sy|[|]| |sy my ey]; auto.
    - destruct (Prim2SF x) as [sx|[|]| |sx mx ex]; auto.
    - destruct (Prim2SF x) as [sx|[|]| |sx mx ex]; auto. }
  - left. by apply Prim2SF_inj.
  - right. by apply Prim2SF_inj.
Qed.

Lemma leb_unbounded (d c : float) :
  d = nan \/ d = infinity ->
  finite_float c = true ->
  (d <=? c)%float = false.
Proof.
  unfold finite_float. intros Hd Hc. rewrite leb_spec.
  destruct Hd as [-> | ->];
    change (Prim2SF nan) with S754_nan;
    change (Prim2SF infinity) with (S754_infinity false);
    by destruct (Prim2SF c) as [sc|sc| |sc mc ec].
Qed.

Section NotFinite.
Hypothesis sqr_nan : py_sqr nan = nan.
Hypothesis sqr_infinity : py_sqr infinity = infinity.
Hypothesis sqr_neg_infinity : py_sqr neg_infinity = infinity.

Lemma sqr_unbounded (x y : float) :
  finite_float x = false \/ finite_float y = false ->
  py_sqr (x - y) = nan \/ py_sqr (x - y) = infinity.
Proof.
  intros [-> |[-> | ->]]%sub_not_finite; auto.
Qed.

(** A distance from or to a point that has an infinite or NaN coordinate
    is NaN or the infinity. *)
Lemma distance_unbounded (a b : point) :
  finite_point a = false \/ finite_point b = false ->
  distance a b = nan \/ distance a b = infinity.
Proof.
  destruct a as [[a0 a1] a2], b as [[b0 b1] b2]. unfold finite_point.
  rewrite !andb_false_iff. intros Hab.
  assert (let s := (py_sqr (a0 - b0) + py_sqr (a1 - b1)
                    + py_sqr (a2 - b2))%float in
          s = nan \/ s = infinity) as Hsum.
  { destruct Hab as [[[H0|H1]|H2]|[[H0|H1]|H2]].
    1,4: apply add_unbounded; left; apply add_unbounded; left;
         apply sqr_unbounded; auto.
    1,3: apply add_unbounded; left; apply add_unbounded; right;
         apply sqr_unbounded; auto.
    all: apply add_unbounded; right; apply sqr_unbounded; auto. }
  unfold distance. simpl in Hsum. destruct Hsum as [-> | ->]; auto.
Qed.

Lemma in_bond_finite (a b : point) (c : float) :
  finite_float c = true ->
  (distance a b <=? c)%float = true ->
  finite_point a = true /\ finite_point b = true.
Proof.
  intros Hc Hle.
  destruct (finite_point a) eqn:Ha, (finite_point b) eqn:Hb; try done.
  all: rewrite leb_unbounded in Hle;
    [done|apply distance_unbounded; auto|done].
Qed.

End NotFinite.

(** X19. An atom that has an infinite or NaN coordinate is in no pair the
    detector returns, and with such a metal the detector returns no pair:
    the two atoms of a returned pair and the metal given have finite
    coordinates. The squares of NaN and of the infinities are taken to be
    NaN and the infinity. *)
Theorem find_CO_pairs_finite elements coords metal_index
    (pairs : list (nat * nat)) (c o : nat) :
  py_sqr nan = nan ->
  py_sqr infinity = infinity ->
  py_sqr neg_infinity = infinity ->
  find_CO_pairs elements coords metal_index = Ok pairs ->
  (c, o) ∈ pairs ->
  exists pc po,
    coords !! c = Some pc /\ coords !! o = Some po
    /\ finite_point pc = true /\ finite_point po = true
    /\ forall m, metal_index = Some m ->
         exists pm, coords !! m = Some pm /\ finite_point pm = true.
Proof.
  intros Hnan Hinf Hninf ->%find_CO_pairs_spec.
  rewrite detected_accepts, accepts_iff.
  intros (pc & po & _ & _ & Hc & Ho & _ & Hmax & Hmetal).
  destruct (in_bond_finite Hnan Hinf Hninf pc po CO_BOND_MAX eq_refl Hmax)
    as [Hpc Hpo].
  exists pc, po. repeat split; try done.
  intros m Hm. destruct (Hmetal m Hm) as (pm & Hpm & Hnear).
  exists pm. split; [done|].
  by destruct (in_bond_finite Hnan Hinf Hninf pc pm M_C_MAX eq_refl Hnear).
Qed.

End GeometryRuntime.

End Geometry.

(** ** The further properties on the example structures *)

Lemma process_keeps_input_witness :
  String.length (output_path "complex.xyz") = String.length "complex.xyz" + 2
  /\ run_fs (process_xyz_file "complex.xyz" example_fs) !! "complex.xyz"
     = example_fs !! "complex.xyz".
Proof.
  apply (process_keeps_input example_fs "complex.xyz" "complex" ".xyz").
  - vm_compute. reflexivity.
  - vm_compute. reflexivity.
Defined.


Lemma metal_index_restricts_witness :
  exists with_metal without,
    find_CO_pairs carbonyl_elements carbonyl_coords (Some 0) = Ok with_metal
    /\ find_CO_pairs carbonyl_elements carbonyl_coords None = Ok without
    /\ with_metal `sublist_of` without
    /\ (forall p,
          p ∈ with_metal
          <-> p ∈ without
              /\ exists cc cm,
                   carbonyl_coords !! p.1 = Some cc
                   /\ carbonyl_coords !! 0 = Some cm
                   /\ (distance cc cm <=? M_C_MAX)%float = true).
Proof.
  apply (metal_index_restricts carbonyl_elements carbonyl_coords 0).
  - reflexivity.
  - vm_compute. lia.
  - vm_compute. reflexivity.
Defined.

Lemma read_xyz_atoms_witness :
  exists n_atoms : Z,
    py_int (strip (nth 0 carbonyl_file "")) = Some n_atoms
    /\ parse_atom_line
         <$> List.filter nonblank (slice carbonyl_file 2 (2 + n_atoms))
       = Some <$> zip carbonyl_elements carbonyl_coords
    /\ length carbonyl_coords = length carbonyl_elements
    /\ "two carbonyls" = nth 1 carbonyl_file ""
    /\ ["trailer"] = slice_from carbonyl_file (2 + n_atoms)
    /\ 2 <= length carbonyl_file.
Proof.
  apply (read_xyz_atoms carbonyl_file carbonyl_elements carbonyl_coords
           "two carbonyls" ["trailer"]).
  vm_compute. reflexivity.
Defined.

Lemma read_xyz_negative_count_witness :
  ((-2 <= -3)%Z ->
   read_xyz_lines ["-3"; "comment"; "C 0 0 0"; "O 0 0 1.1"; "last"]
   = Ok ([], [], "comment",
         drop (Z.to_nat (2 + -3))
           ["-3"; "comment"; "C 0 0 0"; "O 0 0 1.1"; "last"]))
  /\ ((-3 < -2)%Z ->
      let k := Z.to_nat (- -3 - 2) in
      (is_Ok (read_xyz_lines
                ["-3"; "comment"; "C 0 0 0"; "O 0 0 1.1"; "last"])
       <-> Forall (fun line => good_atom_line line = true)
             (take (5 - 2 - k) (drop 2
                ["-3"; "comment"; "C 0 0 0"; "O 0 0 1.1"; "last"])))
      /\ (forall elements coords comment extra_lines,
            read_xyz_lines ["-3"; "comment"; "C 0 0 0"; "O 0 0 1.1"; "last"]
            = Ok (elements, coords, comment, extra_lines) ->
            extra_lines
            = drop (5 - k)
                ["-3"; "comment"; "C 0 0 0"; "O 0 0 1.1"; "last"])).
Proof.
  apply (read_xyz_negative_count
           ["-3"; "comment"; "C 0 0 0"; "O 0 0 1.1"; "last"] (-3)).
  - simpl. lia.
  - vm_compute. reflexivity.
  - lia.
Defined.

Lemma write_xyz_short_coords_witness :
  length (write_xyz_lines ["C"; "O"] [(0, 0, 0)%float] "short" [])
  = 2 + 1 + 0
  /\ read_xyz (write_xyz "short.xyz" ["C"; "O"] [(0, 0, 0)%float] "short" []
                 example_fs) "short.xyz"
     = Raise (ValueError (CountMismatch 2 (1 + 0))).
Proof.
  apply (write_xyz_short_coords example_fs "short.xyz" ["C"; "O"]
           [(0, 0, 0)%float] "short" []).
  - vm_compute. reflexivity.
  - simpl. lia.
Defined.

Lemma main_independent_runs_witness :
  exists fs' printed,
    main batch_listing batch_fs = Ok (fs', printed)
    /\ printed
       = (fun name =>
            (full_path name,
             run_report (process_xyz_file (full_path name) batch_fs)))
         <$> List.filter selected batch_listing.
Proof.
  eexists _, _. split; [vm_compute; reflexivity|].
  eapply (main_independent_runs batch_listing batch_fs).
  - intros n1 n2 Hn1 Hn2 _ _.
    repeat (apply elem_of_cons in Hn1 as [->|Hn1]);
      try (by apply elem_of_nil in Hn1);
      repeat (apply elem_of_cons in Hn2 as [->|Hn2]);
      try (by apply elem_of_nil in Hn2);
      vm_compute; discriminate.
  - vm_compute. reflexivity.
Defined.

(** The batch on the example folder: the name in capitals is taken, the
    file that is gone is reported and the batch goes on. *)
Example main_on_batch :
  exists fs',
    main batch_listing batch_fs
    = Ok (fs',
          [("./complex.XYZ", Completed 5 1 2 "./complex_d.XYZ");
           ("./gone.xyz", SkippedRead FileNotFoundError);
           ("./single.xyz", WarnedFewCO 1)])
    /\ dom fs' = {[ "./complex.XYZ"; "./complex_d.XYZ"; "./single.xyz";
                     "./notes.txt" ]}.
Proof. eexists. split; [vm_compute; reflexivity|]. by vm_compute. Qed.

Lemma process_outcome_table_witness :
  (forall e, run_report (process_xyz_file "complex.xyz" example_fs)
             = SkippedRead e
             <-> read_xyz example_fs "complex.xyz" = Raise e)
  /\ (run_report (process_xyz_file "complex.xyz" example_fs) = SkippedEmpty
      <-> exists coords comment extra_lines,
            read_xyz example_fs "complex.xyz"
            = Ok ([], coords, comment, extra_lines))
  /\ (run_report (process_xyz_file "complex.xyz" example_fs) = SkippedNoMetal
      <-> exists elements coords comment extra_lines,
            read_xyz example_fs "complex.xyz"
            = Ok (elements, coords, comment, extra_lines)
            /\ elements <> []
            /\ Forall (fun e => e ∉ CENTER_METALS) elements)
  /\ (forall k, run_report (process_xyz_file "complex.xyz" example_fs)
                = WarnedFewCO k
      <-> exists elements coords comment extra_lines m,
            read_xyz example_fs "complex.xyz"
            = Ok (elements, coords, comment, extra_lines)
            /\ find_metal_center elements coords = Some m
            /\ length (detected elements coords (Some m)) = k /\ k < 2)
  /\ (CallWrite (output_path "complex.xyz")
      ∈ run_calls (process_xyz_file "complex.xyz" example_fs)
      <-> exists elements coords comment extra_lines m,
            read_xyz example_fs "complex.xyz"
            = Ok (elements, coords, comment, extra_lines)
            /\ find_metal_center elements coords = Some m
            /\ 2 <= length (detected elements coords (Some m)))
  /\ ((exists e, run_report (process_xyz_file "complex.xyz" example_fs)
                 = SkippedRead e)
      \/ run_report (process_xyz_file "complex.xyz" example_fs) = SkippedEmpty
      \/ run_report (process_xyz_file "complex.xyz" example_fs)
         = SkippedNoMetal
      \/ (exists k, run_report (process_xyz_file "complex.xyz" example_fs)
                    = WarnedFewCO k)
      \/ CallWrite (output_path "complex.xyz")
         ∈ run_calls (process_xyz_file "complex.xyz" example_fs)).
Proof.
  apply (process_outcome_table example_fs "complex.xyz").
  vm_compute. reflexivity.
Defined.

Lemma find_CO_pairs_index_error_witness :
  (forall e, find_CO_pairs carbonyl_elements [(0, 0, 0)%float] None = Raise e ->
             e = IndexError)
  /\ (is_Ok (find_CO_pairs carbonyl_elements [(0, 0, 0)%float] None)
      <-> forall i j,
            carbonyl_elements !! i = Some "C" ->
            carbonyl_elements !! j = Some "O" ->
            readable_pair [(0, 0, 0)%float] None i j).
Proof.
  apply (find_CO_pairs_index_error carbonyl_elements [(0, 0, 0)%float] None).
  vm_compute. reflexivity.
Defined.

Lemma main_reports_every_xyz_witness :
  exists fs' printed,
    main batch_listing batch_fs = Ok (fs', printed)
    /\ printed.*1 = full_path <$> List.filter selected batch_listing
    /\ length printed <= length batch_listing.
Proof.
  eexists _, _. split; [vm_compute; reflexivity|].
  eapply (main_reports_every_xyz batch_listing batch_fs).
  vm_compute. reflexivity.
Defined.

Lemma main_writes_only_outputs_witness :
  exists fs' printed,
    main batch_listing batch_fs = Ok (fs', printed)
    /\ fs' !! "./notes.txt" = batch_fs !! "./notes.txt".
Proof.
  eexists _, _. split; [vm_compute; reflexivity|].
  eapply (main_writes_only_outputs batch_listing batch_fs).
  - vm_compute. reflexivity.
  - intros name Hname _.
    repeat (apply elem_of_cons in Hname as [->|Hname]);
      try (by apply elem_of_nil in Hname);
      vm_compute; discriminate.
Defined.

Lemma distance_symmetric_witness :
  distance (0, 0, 1.1)%float (1.5, -2, 0.25)%float
  = distance (1.5, -2, 0.25)%float (0, 0, 1.1)%float.
Proof.
  apply (distance_symmetric (0, 0, 1.1)%float (1.5, -2, 0.25)%float).
  vm_compute. repeat split; reflexivity.
Defined.

Lemma distance_self_witness :
  distance (1.5, -2, 0.25)%float (1.5, -2, 0.25)%float = 0%float.
Proof.
  apply (distance_self (1.5, -2, 0.25)%float).
  - vm_compute. reflexivity.
  - vm_compute. reflexivity.
Defined.

Lemma find_CO_pairs_finite_witness :
  exists pc po,
    carbonyl_coords !! 1 = Some pc /\ carbonyl_coords !! 2 = Some po
    /\ finite_point pc = true /\ finite_point po = true
    /\ forall m, Some 0 = Some m ->
         exists pm, carbonyl_coords !! m = Some pm /\ finite_point pm = true.
Proof.
  apply (find_CO_pairs_finite carbonyl_elements carbonyl_coords (Some 0)
           [(1, 2); (3, 4)] 1 2).
  - vm_compute. reflexivity.
  - vm_compute. reflexivity.
  - vm_compute. reflexivity.
  - vm_compute. reflexivity.
  - by left.
Defined.
